(** * Content repository and query layer of the OIA website backend

    A shallow embedding of [database.py] (the [DatabaseOperations] class) and
    of the admin routes of [routes.py], together with the properties of the
    repository contract: pagination, partial updates, cross-collection
    search, contact-status normalisation, the admin gate, uploads and
    deletion.

    The document store, the clock, the JWT library and the file system are
    collaborators of the code; they appear here as an explicit state, as
    arguments, or as the interface [Engine]. *)

From stdpp Require Import base decidable option list gmap sets strings pretty sorting.
From Stdlib Require Import ZArith Lia.

Open Scope Z_scope.

(** ** Python values and strings *)

(** The scalar values that travel between the routes and the store.  A
    [datetime] is a count of milliseconds since the epoch, the resolution the
    store keeps (a reading of the clock that a create operation hands back
    without reading it from the store is finer: see [fresh_dict]); an
    [ObjectId] is its hexadecimal text. *)
Inductive value :=
  | VNone
  | VBool (b : bool)
  | VInt (n : Z)
  | VStr (s : string)
  | VDate (t : Z)
  | VObjectId (hex : string).

#[global] Instance value_eq_dec : EqDecision value.
Proof. solve_decision. Defined.

#[global] Instance value_inhabited : Inhabited value := populate VNone.

(** A Python [dict] with string keys. *)
Abbreviation document := (gmap string value).

(** [bool(v)]: Python's truth value. *)
Definition truthy (v : value) : bool :=
  match v with
  | VNone => false
  | VBool b => b
  | VInt n => negb (n =? 0)
  | VStr s => negb (String.eqb s "")
  | VDate _ => true
  | VObjectId _ => true
  end.

(** [isinstance(v, str)] *)
Definition is_str (v : value) : bool :=
  match v with VStr _ => true | _ => false end.

(** [c.isspace()] for a code point below 256. *)
Definition isspace (c : Ascii.ascii) : bool :=
  let n := Ascii.nat_of_ascii c in
  ((9 <=? n) && (n <=? 13) || (28 <=? n) && (n <=? 32)
   || (n =? 133) || (n =? 160))%nat.

Fixpoint lstrip (s : string) : string :=
  match s with
  | EmptyString => EmptyString
  | String c s' => if isspace c then lstrip s' else s
  end.

Definition rstrip (s : string) : string := String.rev (lstrip (String.rev s)).

(** [s.strip()] *)
Definition strip (s : string) : string := rstrip (lstrip s).

(** [s[:n]] *)
Fixpoint str_take (n : nat) (s : string) : string :=
  match n, s with
  | S n', String c s' => String c (str_take n' s')
  | _, _ => EmptyString
  end.

Arguments str_take : simpl never.

(** [s[1:]] *)
Definition str_tail (s : string) : string :=
  match s with String _ s' => s' | EmptyString => EmptyString end.

(** [s[n:]] *)
Fixpoint str_drop (n : nat) (s : string) : string :=
  match n, s with
  | S n', String _ s' => str_drop n' s'
  | _, _ => s
  end.

(** [s.startswith(p)] *)
Definition startswith (s p : string) : bool := String.prefix p s.

(** ** The document store *)

(** A stored document: the store's own identifier and the fields. *)
Record stored := Stored { oid : string; body : document }.

#[global] Instance stored_eq_dec : EqDecision stored.
Proof. solve_decision. Defined.

(** The [dict] the driver hands back for a stored document. *)
Definition as_dict (s : stored) : document :=
  <["_id" := VObjectId (oid s)]> (body s).

(** The filters the code builds: a conjunction of field conditions and of
    [$or] groups. *)
Inductive cond :=
  | CEq (v : value)
  | CGteDate (t : Z)
  | CRegexI (pattern : string).

Inductive clause :=
  | Field (k : string) (c : cond)
  | Or (alts : list (string * cond)).

Abbreviation query := (list clause).

(** The order of the store on sort keys: a missing field sorts as null,
    null before numbers, numbers before strings, then object identifiers,
    booleans and dates; values of one kind compare among themselves. *)
Definition bson_rank (ov : option value) : Z :=
  match ov with
  | None | Some VNone => 1
  | Some (VInt _) => 2
  | Some (VStr _) => 3
  | Some (VObjectId _) => 7
  | Some (VBool _) => 8
  | Some (VDate _) => 9
  end.

Definition bson_leb (a b : option value) : bool :=
  match a, b with
  | Some (VInt x), Some (VInt y) => x <=? y
  | Some (VStr x), Some (VStr y) => String.leb x y
  | Some (VObjectId x), Some (VObjectId y) => String.leb x y
  | Some (VBool x), Some (VBool y) => implb x y
  | Some (VDate x), Some (VDate y) => x <=? y
  | _, _ => bson_rank a <=? bson_rank b
  end.

(** [s1] may come before [s2] under [sort(key, direction)]. *)
Definition in_order (key : string) (direction : Z) (s1 s2 : stored) : Prop :=
  if direction <? 0
  then bson_leb (as_dict s2 !! key) (as_dict s1 !! key)
  else bson_leb (as_dict s1 !! key) (as_dict s2 !! key).

(** What the code takes from the store without fixing it: which texts are
    regular expressions and the search behind [{'$regex': q, '$options':
    'i'}], the result of [cursor.sort(key, direction)] (a rearrangement in
    the order of the key; ties are left to the store), and the text of a
    [datetime] under [str()]. *)
Class Engine := {
  regex_valid : string → bool;
  regex_search : string → string → bool;
  sort_docs : string → Z → list stored → list stored;
  sort_docs_perm : ∀ k d l, sort_docs k d l ≡ₚ l;
  sort_docs_sorted : ∀ k d l, Sorted (in_order k d) (sort_docs k d l);
  str_datetime : Z → string
}.

Section Store.
Context `{!Engine}.

(** [str(v)] *)
Definition py_str (v : value) : string :=
  match v with
  | VNone => "None"
  | VBool true => "True"
  | VBool false => "False"
  | VInt n => pretty n
  | VStr s => s
  | VDate t => str_datetime t
  | VObjectId h => h
  end.

Definition cond_holds (c : cond) (ov : option value) : bool :=
  match c with
  | CEq v =>
      match ov with
      | Some w => bool_decide (w = v)
      | None => bool_decide (v = VNone)
      end
  | CGteDate t =>
      match ov with Some (VDate u) => bool_decide (t ≤ u) | _ => false end
  | CRegexI p =>
      match ov with Some (VStr s) => regex_search p s | _ => false end
  end.

Definition clause_holds (d : document) (c : clause) : bool :=
  match c with
  | Field k c => cond_holds c (d !! k)
  | Or alts => existsb (λ kc, cond_holds kc.2 (d !! kc.1)) alts
  end.

Definition matches (q : query) (s : stored) : bool :=
  forallb (clause_holds (as_dict s)) q.

(** Every pattern of the query is a regular expression. *)
Definition cond_ok (c : cond) : bool :=
  match c with CRegexI p => regex_valid p | _ => true end.

Definition query_ok (q : query) : bool :=
  forallb (λ c, match c with
                | Field _ c => cond_ok c
                | Or alts => forallb (λ kc, cond_ok kc.2) alts
                end) q.

(** [$set]: the fields of [upd] replace those of the document. *)
Definition set_fields (upd : document) (s : stored) : stored :=
  Stored (oid s) (upd ∪ body s).

Record UpdateResult := { matched_count : Z; modified_count : Z }.

(** [update_one(q, {'$set': upd})] on a collection in natural order: the
    first match is updated, and it counts as modified when it changed. *)
Fixpoint coll_update_one (q : query) (upd : document) (l : list stored)
  : list stored * UpdateResult :=
  match l with
  | [] => ([], {| matched_count := 0; modified_count := 0 |})
  | s :: r =>
      if matches q s then
        let s' := set_fields upd s in
        (s' :: r, {| matched_count := 1;
                     modified_count := if decide (s' = s) then 0 else 1 |})
      else
        let '(r', res) := coll_update_one q upd r in (s :: r', res)
  end.

(** [delete_one(q)]: the first match is removed; the result is
    [deleted_count]. *)
Fixpoint coll_delete_one (q : query) (l : list stored) : list stored * Z :=
  match l with
  | [] => ([], 0)
  | s :: r =>
      if matches q s then (r, 1)
      else let '(r', n) := coll_delete_one q r in (s :: r', n)
  end.

(** [find_one(q)] *)
Definition coll_find_one (q : query) (l : list stored) : option document :=
  as_dict <$> head (List.filter (matches q) l).

End Store.

(** ** Program state and effects *)

Inductive collection_name :=
  | programs_collection | contacts_collection | admins_collection
  | news_collection | partnerships_collection | team_collection
  | events_collection | gallery_collection | faqs_collection
  | static_content_collection | stats_config_collection.

#[global] Instance collection_name_eq_dec : EqDecision collection_name.
Proof. solve_decision. Defined.

(** The database, the set [active_admin_sessions] of [routes.py], and the
    regular files below the working directory. *)
Record state := {
  db : collection_name → list stored;
  active_admin_sessions : gset string;
  files : gset string
}.

Definition set_coll (c : collection_name) (l : list stored) (st : state) : state :=
  {| db := λ c', if decide (c' = c) then l else db st c';
     active_admin_sessions := active_admin_sessions st;
     files := files st |}.

Inductive exn :=
  | KeyError (k : string)
  | TypeError
  | ValueError
  | ZeroDivisionError
  | AttributeError
  | ExpiredSignatureError
  | InvalidTokenError
  | OSError
  | OperationFailure
  | HTTPException (status_code : Z) (detail : string).

Inductive result (A : Type) :=
  | Ok (a : A)
  | Raise (e : exn).
Arguments Ok {A} a.
Arguments Raise {A} e.

(** A computation reads and writes the state and returns or raises; what it
    wrote before raising stays written. *)
Definition M (A : Type) : Type := state → result A * state.

Definition ret {A} (a : A) : M A := λ st, (Ok a, st).
Definition raise {A} (e : exn) : M A := λ st, (Raise e, st).
Definition bind {A B} (m : M A) (k : A → M B) : M B :=
  λ st, match m st with
        | (Ok a, st') => k a st'
        | (Raise e, st') => (Raise e, st')
        end.
Definition try_except {A} (m : M A) (h : exn → M A) : M A :=
  λ st, match m st with
        | (Ok a, st') => (Ok a, st')
        | (Raise e, st') => h e st'
        end.
Definition lift {A} (r : result A) : M A := λ st, (r, st).

Notation "'let*' x := m 'in' k" := (bind m (λ x, k))
  (at level 10, x pattern, m at level 100, k at level 200, only parsing).
Notation "m ;; k" := (bind m (λ _, k))
  (at level 100, k at level 200, right associativity, only parsing).

Fixpoint mapM {A B} (f : A → result B) (l : list A) : result (list B) :=
  match l with
  | [] => Ok []
  | x :: r =>
      match f x with
      | Raise e => Raise e
      | Ok y => match mapM f r with Raise e => Raise e | Ok ys => Ok (y :: ys) end
      end
  end.

(** ** database.py *)

Section Database.
Context `{!Engine}.

(** *** Driver calls *)

Definition count_documents (c : collection_name) (q : query) : M Z :=
  λ st, (Ok (Z.of_nat (length (List.filter (matches q) (db st c)))), st).

(** [find(q)]: the matching documents in natural order; [sort], [skip],
    [limit] and [to_list] then act on that cursor.  The store refuses a
    pattern that is not a regular expression; the other calls are only made
    with equality filters. *)
Definition find (c : collection_name) (q : query) : M (list stored) :=
  λ st, if query_ok q then (Ok (List.filter (matches q) (db st c)), st)
        else (Raise OperationFailure, st).

(** [skip(n)]; the driver refuses a negative [n]. *)
Definition cursor_skip (n : Z) (l : list stored) : result (list stored) :=
  if n <? 0 then Raise ValueError else Ok (drop (Z.to_nat n) l).

(** [limit(n)]: 0 means no limit, a negative [n] counts as its absolute
    value. *)
Definition cursor_limit (n : Z) (l : list stored) : list stored :=
  if n =? 0 then l else take (Z.to_nat (Z.abs n)) l.

(** [to_list(n)]: at most [n] documents as dicts; a negative [n] is
    refused. *)
Definition to_list (n : Z) (l : list stored) : result (list document) :=
  if n <? 0 then Raise ValueError else Ok (as_dict <$> take (Z.to_nat n) l).

Definition find_one (c : collection_name) (q : query) : M (option document) :=
  λ st, (Ok (coll_find_one q (db st c)), st).

Definition update_one (c : collection_name) (q : query) (upd : document)
  : M UpdateResult :=
  λ st, let '(l, r) := coll_update_one q upd (db st c) in (Ok r, set_coll c l st).

Definition delete_one (c : collection_name) (q : query) : M Z :=
  λ st, let '(l, n) := coll_delete_one q (db st c) in (Ok n, set_coll c l st).

(** [insert_one(doc)]; [new_oid] is the identifier the store assigns. *)
Definition insert_one (c : collection_name) (new_oid : string) (doc : document)
  : M string :=
  λ st, (Ok new_oid, set_coll c (db st c ++ [Stored new_oid doc]) st).

(** *** Shared pieces of the per-resource code *)

(** [a // b] *)
Definition floordiv (a b : Z) : result Z :=
  if b =? 0 then Raise ZeroDivisionError else Ok (a / b).

(** [if s:] for an optional string argument *)
Definition given (s : option string) : bool :=
  match s with Some s => negb (String.eqb s "") | None => false end.

(** [doc['_id'] = str(doc['_id'])] *)
Definition stringify_id (doc : document) : document :=
  <["_id" := VStr (py_str (doc !!! "_id"))]> doc.

(** [if 'id' not in doc: doc['id'] = doc['_id']] *)
Definition default_id (doc : document) : document :=
  match doc !! "id" with
  | None => <["id" := doc !!! "_id"]> doc
  | Some _ => doc
  end.

(** [{k: v for k, v in update_data.items() if v is not None}] *)
Definition drop_none (update_data : document) : document :=
  filter (λ kv, kv.2 ≠ VNone) update_data.

(** The pagination envelope, [{'items', 'total', 'page', 'pageSize',
    'totalPages'}]. *)
Record paginated := {
  items : list document;
  total : Z;
  page : Z;
  pageSize : Z;
  totalPages : Z
}.

(** The body shared by the paginated list operations: count, then
    [find(query).sort(key, dir).skip(skip).limit(page_size).to_list(page_size)],
    the per-document fix-up, and the envelope. *)
Definition paged (c : collection_name) (q : query) (key : string) (dir : Z)
    (fixup : document → document) (page page_size : Z) : M paginated :=
  let* total := count_documents c q in
  let skip := (page - 1) * page_size in
  let* cursor := find c q in
  let* cursor := lift (cursor_skip skip (sort_docs key dir cursor)) in
  let* docs := lift (to_list page_size (cursor_limit page_size cursor)) in
  let docs := fixup <$> docs in
  let* pages := lift (floordiv (total + page_size - 1) page_size) in
  ret {| items := docs; total := total; page := page; pageSize := page_size;
         totalPages := pages |}.

Definition by_key (key id : string) : query := [Field key (CEq (VStr id))].

(** [find_one({key: id})] followed by [doc['_id'] = str(doc['_id'])]. *)
Definition get_by (c : collection_name) (key id : string) : M (option document) :=
  let* doc := find_one c (by_key key id) in
  ret (stringify_id <$> doc).

(** The body shared by the update operations that stamp [updatedAt]. *)
Definition update_stamped (c : collection_name) (key id : string)
    (update_data : document) (now : Z) : M (option document) :=
  let update_data := <["updatedAt" := VDate now]> update_data in
  let update_data := drop_none update_data in
  let* result := update_one c (by_key key id) update_data in
  if modified_count result =? 0 then ret None else get_by c key id.

Definition delete_by (c : collection_name) (key id : string) : M bool :=
  let* deleted_count := delete_one c (by_key key id) in
  ret (0 <? deleted_count).

(** A reading of the clock, [datetime.utcnow()], counts microseconds; the
    store keeps milliseconds of it. *)
Definition millis (reading : Z) : Z := reading / 1000.

(** A dict in which the code has put fresh readings of the clock.  A reading
    is finer than the [VDate] of the store, so the readings are held beside
    the other entries, each under its key. *)
Record fresh_dict := {
  entries : document;
  readings : gmap string Z
}.

(** [d[k] = v] *)
Definition set_entry (k : string) (v : value) (d : fresh_dict) : fresh_dict :=
  {| entries := <[k := v]> (entries d); readings := delete k (readings d) |}.

(** [d[k] = datetime.utcnow()] *)
Definition set_reading (k : string) (reading : Z) (d : fresh_dict) : fresh_dict :=
  {| entries := delete k (entries d); readings := <[k := reading]> (readings d) |}.

(** The document the store makes of the dict: a reading is cut to its
    milliseconds. *)
Definition encoded (d : fresh_dict) : document :=
  ((λ reading, VDate (millis reading)) <$> readings d) ∪ entries d.

(** The body shared by the create operations: [id] is set, [createdAt] and
    [updatedAt] are two readings of the clock, one after the other, the
    document is inserted, and [_id] is added to the dict, which is returned
    as it is, not read back.  [new_id] is [str(uuid.uuid4())]. *)
Definition create_stamped (c : collection_name) (data : document)
    (new_id : string) (created updated : Z) (new_oid : string) : M fresh_dict :=
  let data := set_entry "id" (VStr new_id) {| entries := data; readings := ∅ |} in
  let data := set_reading "createdAt" created data in
  let data := set_reading "updatedAt" updated data in
  let* inserted_id := insert_one c new_oid (encoded data) in
  ret (set_entry "_id" (VStr inserted_id) data).

(** *** Programs *)

Definition get_programs (active_only : bool) (page page_size : Z) : M paginated :=
  let query := if active_only then [Field "status" (CEq (VStr "Active"))] else [] in
  paged programs_collection query "createdAt" (-1)
        (λ program, default_id (stringify_id program)) page page_size.

Definition get_program_by_id := get_by programs_collection "id".
Definition update_program := update_stamped programs_collection "id".
Definition delete_program := delete_by programs_collection "id".

(** *** News *)

Definition get_news (category : option string) (page page_size : Z)
    (featured_only : bool) : M paginated :=
  let query :=
    (if given category then [Field "category" (CEq (VStr (default "" category)))] else [])
    ++ (if featured_only then [Field "featured" (CEq (VBool true))] else []) in
  paged news_collection query "date" (-1) stringify_id page page_size.

Definition get_news_by_id := get_by news_collection "id".
Definition update_news := update_stamped news_collection "id".
Definition delete_news := delete_by news_collection "id".

(** *** Partnerships *)

Definition get_partnerships (type country : option string) (page page_size : Z)
  : M paginated :=
  let query :=
    (if given type then [Field "type" (CEq (VStr (default "" type)))] else [])
    ++ (if given country then [Field "country" (CEq (VStr (default "" country)))] else []) in
  paged partnerships_collection query "partnerName" 1 stringify_id page page_size.

Definition get_partnership_by_id := get_by partnerships_collection "id".
Definition update_partnership := update_stamped partnerships_collection "id".
Definition delete_partnership := delete_by partnerships_collection "id".

(** *** Team *)

Definition create_team_member := create_stamped team_collection.
Definition get_team_member_by_id := get_by team_collection "id".
Definition update_team_member := update_stamped team_collection "id".
Definition delete_team_member := delete_by team_collection "id".

(** *** Events *)

Definition get_events (type : option string) (page page_size : Z)
    (upcoming_only : bool) (now : Z) : M paginated :=
  let query :=
    (if given type then [Field "type" (CEq (VStr (default "" type)))] else [])
    ++ (if upcoming_only then [Field "startDate" (CGteDate now)] else []) in
  paged events_collection query "startDate" (-1) stringify_id page page_size.

Definition get_event_by_id := get_by events_collection "id".
Definition update_event := update_stamped events_collection "id".
Definition delete_event := delete_by events_collection "id".

(** *** Gallery *)

Definition create_gallery_image (image_data : document) (new_id : string)
    (uploaded : Z) (new_oid : string) : M fresh_dict :=
  let image_data :=
    set_entry "id" (VStr new_id) {| entries := image_data; readings := ∅ |} in
  let image_data := set_reading "uploadDate" uploaded image_data in
  let* inserted_id := insert_one gallery_collection new_oid (encoded image_data) in
  ret (set_entry "_id" (VStr inserted_id) image_data).

Definition get_gallery_images (category : option string) (page page_size : Z)
  : M paginated :=
  let query :=
    if given category then [Field "category" (CEq (VStr (default "" category)))] else [] in
  paged gallery_collection query "uploadDate" (-1) stringify_id page page_size.

Definition get_gallery_image_by_id := get_by gallery_collection "id".
Definition delete_gallery_image := delete_by gallery_collection "id".

Definition update_gallery_image (image_id : string) (update_data : document)
  : M (option document) :=
  let update_data := drop_none update_data in
  let* result := update_one gallery_collection (by_key "id" image_id) update_data in
  if modified_count result =? 0
  then get_gallery_image_by_id image_id
  else get_gallery_image_by_id image_id.

(** *** FAQs and static content *)

Definition update_faq := update_stamped faqs_collection "id".
Definition delete_faq := delete_by faqs_collection "id".

Definition create_static_content := create_stamped static_content_collection.
Definition get_static_content_by_key := get_by static_content_collection "key".
Definition update_static_content := update_stamped static_content_collection "key".
Definition delete_static_content := delete_by static_content_collection "key".

(** *** Contacts *)

Definition get_contacts (form_type : option string) : M (list document) :=
  let query :=
    if given form_type then [Field "formType" (CEq (VStr (default "" form_type)))] else [] in
  let* cursor := find contacts_collection query in
  let* contacts := lift (to_list 1000 (sort_docs "createdAt" (-1) cursor)) in
  ret ((λ contact,
          let contact := default_id (stringify_id contact) in
          match contact !! "status" with
          | Some status =>
              if decide (status = VStr "read") then <["status" := VStr "Read"]> contact
              else if decide (status = VStr "new") then <["status" := VStr "New"]> contact
              else if decide (status = VStr "replied") then <["status" := VStr "Replied"]> contact
              else contact
          | None => <["status" := VStr "New"]> contact
          end) <$> contacts).

Definition delete_contact := delete_by contacts_collection "id".

(** *** Search *)

Definition getitem (d : document) (k : string) : result value :=
  match d !! k with Some v => Ok v | None => Raise (KeyError k) end.

(** [v[:n]] for the values of this model: only a string can be sliced. *)
Definition slice_to (n : nat) (v : value) : result value :=
  match v with VStr s => Ok (VStr (str_take n s)) | _ => Raise TypeError end.

Definition rbind {A B} (r : result A) (k : A → result B) : result B :=
  match r with Ok a => k a | Raise e => Raise e end.

Notation "'let?' x := r 'in' k" := (rbind r (λ x, k))
  (at level 10, x pattern, r at level 100, k at level 200, only parsing).

(** [not sections or name in sections] *)
Definition wanted (sections : option (list string)) (name : string) : bool :=
  match sections with
  | None | Some [] => true
  | Some l => bool_decide (name ∈ l)
  end.

(** [{field: {'$regex': q, '$options': 'i'}}] for each of [fields], under
    [$or]. *)
Definition any_field_like (fields : list string) (q : string) : query :=
  [Or ((λ f, (f, CRegexI q)) <$> fields)].

Definition program_result (prog : document) : result document :=
  let id := default (VStr (py_str (prog !!! "_id"))) (prog !! "id") in
  let? title := getitem prog "title" in
  let? description := rbind (getitem prog "description") (slice_to 200) in
  Ok (list_to_map
        [("type", VStr "program"); ("id", id); ("title", title);
         ("description", description);
         ("url", VStr ("/student-mobility/programs/" +:+ py_str id))]).

Definition news_result (item : document) : result document :=
  let? id := getitem item "id" in
  let? title := getitem item "title" in
  let? description := rbind (getitem item "content") (slice_to 200) in
  Ok (list_to_map
        [("type", VStr "news"); ("id", id); ("title", title);
         ("description", description);
         ("url", VStr ("/news-media/" +:+ py_str id))]).

Definition event_result (event : document) : result document :=
  let? id := getitem event "id" in
  let? title := getitem event "title" in
  let? description := rbind (getitem event "description") (slice_to 200) in
  Ok (list_to_map
        [("type", VStr "event"); ("id", id); ("title", title);
         ("description", description);
         ("url", VStr ("/visits-delegations-events/" +:+ py_str id))]).

Definition partnership_result (partner : document) : result document :=
  let? id := getitem partner "id" in
  let? title := getitem partner "partnerName" in
  let? description := rbind (getitem partner "details") (slice_to 200) in
  Ok (list_to_map
        [("type", VStr "partnership"); ("id", id); ("title", title);
         ("description", description);
         ("url", VStr ("/global-partnerships/" +:+ py_str id))]).

(** One block of [global_search]: when the section takes part,
    [find({'$or': ...}).limit(5).to_list(5)] and one entry per document. *)
Definition search_in (takes_part : bool) (c : collection_name)
    (fields : list string) (q : string) (entry : document → result document)
  : M (list document) :=
  if takes_part then
    let* cursor := find c (any_field_like fields q) in
    let* docs := lift (to_list 5 (cursor_limit 5 cursor)) in
    lift (mapM entry docs)
  else ret [].

(** [{'results': results, 'total': len(results)}] *)
Record search_response := {
  results : list document;
  results_total : Z
}.

Definition global_search (q : string) (sections : option (list string))
  : M search_response :=
  let results := [] in
  let* programs := search_in (wanted sections "programs") programs_collection
                     ["title"; "description"; "partnerUniversity"] q program_result in
  let results := results ++ programs in
  let* news := search_in (wanted sections "news") news_collection
                 ["title"; "content"] q news_result in
  let results := results ++ news in
  let* events := search_in (wanted sections "events") events_collection
                   ["title"; "description"] q event_result in
  let results := results ++ events in
  let* partnerships := search_in (wanted sections "partnerships") partnerships_collection
                         ["partnerName"; "details"; "country"] q partnership_result in
  let results := results ++ partnerships in
  ret {| results := results; results_total := Z.of_nat (length results) |}.

(** *** Admins *)

(** [hashlib.sha256(password.encode()).hexdigest()] *)
Variable sha256_hexdigest : string → string.

Definition authenticate_admin (username password : string) : M bool :=
  let hashed_password := sha256_hexdigest password in
  let* admin := find_one admins_collection
                  [Field "username" (CEq (VStr username));
                   Field "password" (CEq (VStr hashed_password))] in
  ret (bool_decide (admin ≠ None)).

Definition create_admin (username password new_id : string) (now : Z)
    (new_oid : string) : M document :=
  let hashed_password := sha256_hexdigest password in
  let admin_data : document :=
    list_to_map
      [("id", VStr new_id); ("username", VStr username);
       ("password", VStr hashed_password); ("role", VStr "admin");
       ("createdAt", VDate now)] in
  let* inserted_id := insert_one admins_collection new_oid admin_data in
  ret (<["_id" := VStr inserted_id]> admin_data).

(** *** The other create operations, and contacts *)



Definition update_contact_status (contact_id status : string) : M bool :=
  let* result := update_one contacts_collection (by_key "id" contact_id)
                   {["status" := VStr status]} in
  ret (0 <? modified_count result).

(** *** Statistics *)

(** [int(s)] for a string: the number it spells, if it spells one. *)
Variable int_of_str : string → option Z.

(** [int(v)] *)
Definition py_int (v : value) : result Z :=
  match v with
  | VInt n => Ok n
  | VBool b => Ok (if b then 1 else 0)
  | VStr s => match int_of_str s with Some n => Ok n | None => Raise ValueError end
  | VNone | VDate _ | VObjectId _ => Raise TypeError
  end.

(** [update_one(q, {'$set': upd, '$setOnInsert': on_insert}, upsert=True)]
    for an equality filter [{key: v}]: the first match is updated as by
    [update_one]; without a match a document is inserted that carries the
    filter's field, [on_insert] and [upd].  The store refuses an update
    whose two operators name the same field. *)
Definition upsert_one (c : collection_name) (key : string) (v : value)
    (upd on_insert : document) (new_oid : string) : M UpdateResult :=
  λ st,
    let q := [Field key (CEq v)] in
    if decide ((dom upd : gset string) ## dom on_insert) then
      match List.filter (matches q) (db st c) with
      | [] =>
          (Ok {| matched_count := 0; modified_count := 0 |},
           set_coll c (db st c ++ [Stored new_oid (upd ∪ on_insert ∪ {[key := v]})]) st)
      | _ :: _ => update_one c q upd st
      end
    else (Raise OperationFailure, st).

(** The answer is the dict [{'studentsExchanged': n}], here [n]. *)
Definition get_stats_config : M Z :=
  let* doc := find_one stats_config_collection [Field "key" (CEq (VStr "stats"))] in
  match doc with
  | None => ret 150
  | Some doc => lift (py_int (default (VInt 150) (doc !! "studentsExchanged")))
  end.

Definition update_stats_config (update_data : document) (now : Z)
    (new_oid : string) : M Z :=
  let update_data := drop_none update_data in
  let update_data := <["updatedAt" := VDate now]> update_data in
  upsert_one stats_config_collection "key" (VStr "stats") update_data
    (list_to_map [("key", VStr "stats"); ("createdAt", VDate now)]) new_oid ;;
  get_stats_config.

(** [aggregate([{'$match': q}, {'$group': {'_id': '$field'}}])]: one group
    for each value of the field among the matching documents, a document
    without the field counting under null.  The order of the groups is the
    store's; the code only counts them. *)
Definition aggregate_groups (c : collection_name) (q : query) (field : string)
  : M (list value) :=
  λ st, (Ok (remove_dups
               ((λ s, default VNone (as_dict s !! field))
                  <$> List.filter (matches q) (db st c))), st).

Record Stats := {
  totalPrograms : Z;
  partnerUniversities : Z;
  studentsExchanged : Z;
  countries : Z
}.

Definition get_stats : M Stats :=
  let active := [Field "status" (CEq (VStr "Active"))] in
  let* total_programs := count_documents programs_collection active in
  let* groups := aggregate_groups programs_collection active "partnerUniversity" in
  let partner_unis := take 1000 groups in
  let* config := get_stats_config in
  ret {| totalPrograms := total_programs;
         partnerUniversities := Z.of_nat (length partner_unis);
         studentsExchanged := config;
         countries := 12 |}.

End Database.

(** ** routes.py *)

(** The payload of a token as this application issues it: [sub] and [exp]
    (seconds since the epoch). *)
Record claims := { sub : option string; exp : option Z }.

(** A bearer credential at the boundary of the JWT library: text that does
    not parse as a token, or a token signed with some key under some
    algorithm. *)
Inductive bearer :=
  | Malformed (raw : string)
  | Signed (alg key : string) (payload : claims).

(** [jwt.encode(payload, key, algorithm)] *)
Definition jwt_encode (payload : claims) (key alg : string) : bearer :=
  Signed alg key payload.

(** [jwt.decode(token, key, algorithms)] at time [now] (milliseconds): the
    signature is checked first, then the expiry. *)
Definition jwt_decode (token : bearer) (key : string) (algorithms : list string)
    (now : Z) : result claims :=
  match token with
  | Malformed _ => Raise InvalidTokenError
  | Signed alg k payload =>
      if negb (bool_decide (alg ∈ algorithms)) then Raise InvalidTokenError
      else if negb (String.eqb k key) then Raise InvalidTokenError
      else match exp payload with
           | Some e => if e * 1000 <=? now then Raise ExpiredSignatureError
                       else Ok payload
           | None => Ok payload
           end
  end.

(** An uploaded file as the routes see it. *)
Record UploadFile := { filename : string; content_type : option string }.

Section Routes.
Context `{!Engine}.

(** [os.getenv('JWT_SECRET_KEY', ...)] *)
Variable SECRET_KEY : string.
Variable sha256_hexdigest : string → string.

Definition ALGORITHM : string := "HS256".
Definition ACCESS_TOKEN_EXPIRE_MINUTES : Z := 60.

(** [expires_delta] is in seconds; a zero delta is falsy and gives the
    default. *)
Definition create_access_token (data : claims) (expires_delta : option Z)
    (now : Z) : bearer :=
  let to_encode := data in
  let expire :=
    match expires_delta with
    | Some d => if d =? 0 then now `div` 1000 + ACCESS_TOKEN_EXPIRE_MINUTES * 60
                else now `div` 1000 + d
    | None => now `div` 1000 + ACCESS_TOKEN_EXPIRE_MINUTES * 60
    end in
  let to_encode := {| sub := sub to_encode; exp := Some expire |} in
  jwt_encode to_encode SECRET_KEY ALGORITHM.

Definition verify_token (credentials : bearer) (now : Z) : M string :=
  try_except
    (let token := credentials in
     let* payload := lift (jwt_decode token SECRET_KEY [ALGORITHM] now) in
     match sub payload with
     | None => raise (HTTPException 401 "Invalid authentication credentials")
     | Some username => ret username
     end)
    (λ e, match e with
          | ExpiredSignatureError => raise (HTTPException 401 "Token has expired")
          | InvalidTokenError =>
              raise (HTTPException 401 "Invalid authentication credentials")
          | _ => raise e
          end).

(** [try: ... except HTTPException: raise; except Exception: raise
    HTTPException(500, detail)] *)
Definition guarded {A} (detail : string) (m : M A) : M A :=
  try_except m
    (λ e, match e with
          | HTTPException _ _ => raise e
          | _ => raise (HTTPException 500 detail)
          end).

Definition sessions_add (u : string) : M unit :=
  λ st, (Ok (), {| db := db st;
                   active_admin_sessions := {[u]} ∪ active_admin_sessions st;
                   files := files st |}).

Definition sessions_discard (u : string) : M unit :=
  λ st, (Ok (), {| db := db st;
                   active_admin_sessions := active_admin_sessions st ∖ {[u]};
                   files := files st |}).

(** The answer of [admin_login]: the token on success. *)
Definition admin_login (username password : string) (now : Z)
  : M (option bearer) :=
  try_except
    (let* is_authenticated := authenticate_admin sha256_hexdigest username password in
     if is_authenticated then
       let access_token :=
         create_access_token {| sub := Some username; exp := None |} None now in
       sessions_add username ;;
       ret (Some access_token)
     else ret None)
    (λ e, raise (HTTPException 500 "Internal server error")).

Definition admin_logout (credentials : bearer) (now : Z) : M string :=
  let* current_username := verify_token credentials now in
  sessions_discard current_username ;;
  ret "Logged out successfully".

(** *** Programs *)

(** [program] is [program.dict()]. *)
Definition update_program_admin (program_id : string) (program : document)
    (credentials : bearer) (now : Z) : M document :=
  let* current_username := verify_token credentials now in
  guarded "Failed to update program"
    (let update_data := drop_none program in
     let* updated_program := update_program program_id update_data now in
     match updated_program with
     | None => raise (HTTPException 404 "Program not found")
     | Some updated_program => ret updated_program
     end).

Definition delete_program_admin (program_id : string) (credentials : bearer)
    (now : Z) : M string :=
  let* current_username := verify_token credentials now in
  guarded "Failed to delete program"
    (let* deleted := delete_program program_id in
     if deleted then ret "Program deleted successfully"
     else raise (HTTPException 404 "Program not found")).

(** *** News and events *)

(** [v.strip()], read only where [v] is a string. *)
Definition strip_of (v : value) : string :=
  match v with VStr s => strip s | _ => "" end.

(** [v is not None and (isinstance(v, str) and v.strip() != '' or not
    isinstance(v, str))] *)
Definition not_none_not_blank (v : value) : bool :=
  bool_decide (v ≠ VNone)
  && (is_str v && negb (String.eqb (strip_of v) "") || negb (is_str v)).

Definition update_news_admin (news_id : string) (news : document)
    (credentials : bearer) (now : Z) : M document :=
  let* current_username := verify_token credentials now in
  guarded "Failed to update news"
    (let news_dict := news in
     let update_data := filter (λ kv, not_none_not_blank kv.2) news_dict in
     let* updated_news := update_news news_id update_data now in
     match updated_news with
     | None => raise (HTTPException 404 "News not found")
     | Some updated_news => ret updated_news
     end).

Definition update_event_admin (event_id : string) (event : document)
    (credentials : bearer) (now : Z) : M document :=
  let* current_username := verify_token credentials now in
  guarded "Failed to update event"
    (let event_dict := event in
     let update_data := filter (λ kv, not_none_not_blank kv.2) event_dict in
     let* updated_event := update_event event_id update_data now in
     match updated_event with
     | None => raise (HTTPException 404 "Event not found")
     | Some updated_event => ret updated_event
     end).

(** *** Files *)

Definition path_exists (p : string) : M bool :=
  λ st, (Ok (bool_decide (p ∈ files st)), st).

Definition os_remove (p : string) : M unit :=
  λ st, if decide (p ∈ files st)
        then (Ok (), {| db := db st;
                        active_admin_sessions := active_admin_sessions st;
                        files := files st ∖ {[p]} |})
        else (Raise OSError, st).

Definition write_file (p : string) : M unit :=
  λ st, (Ok (), {| db := db st;
                   active_admin_sessions := active_admin_sessions st;
                   files := {[p]} ∪ files st |}).

(** [str(Path(p).relative_to(base))] *)
Definition relative_to (p base : string) : result string :=
  if startswith p (base +:+ "/")
  then Ok (str_drop (String.length base + 1) p)
  else Raise ValueError.

Definition UPLOAD_DIR : string := "uploads/gallery".
Definition TEAM_UPLOAD_DIR : string := "uploads/team".

(** [file_name] is the generated name, [f"{uuid.uuid4()}{file_ext}"]. *)
Definition save_upload_file (file : UploadFile) (destination : string)
    (file_name : string) : M string :=
  try_except
    (let file_path := destination +:+ "/" +:+ file_name in
     write_file file_path ;;
     lift (relative_to file_path "uploads"))
    (λ e, raise (HTTPException 500 "Failed to save file")).

Definition save_team_upload_file (file : UploadFile) (file_name : string)
  : M string :=
  save_upload_file file TEAM_UPLOAD_DIR file_name.

Definition allowed_types : list string :=
  ["image/jpeg"; "image/png"; "image/gif"; "image/webp"].

Definition invalid_file_type : exn :=
  HTTPException 400 "Invalid file type. Only JPEG, PNG, GIF, and WebP are allowed.".

Definition opt_str (o : option string) : value :=
  match o with Some s => VStr s | None => VNone end.

(** [if x is not None: update_data[k] = x] *)
Definition set_if {A} (k : string) (inj : A → value) (o : option A)
    (update_data : document) : document :=
  match o with Some x => <[k := inj x]> update_data | None => update_data end.

(** [if x is not None and x.strip() != '': update_data[k] = x] *)
Definition set_if_not_blank (k : string) (o : option string)
    (update_data : document) : document :=
  match o with
  | Some x => if negb (String.eqb (strip x) "") then <[k := VStr x]> update_data
              else update_data
  | None => update_data
  end.

(** *** Team *)

(** [created] and [updated] are the two readings of the clock that
    [create_team_member] takes. *)
Definition create_team_member_admin (file : option UploadFile)
    (name role bio email phone department : string) (image_url : option string)
    (order : Z) (is_leadership is_active : bool)
    (file_name new_id new_oid : string) (credentials : bearer)
    (now created updated : Z) : M fresh_dict :=
  let* current_username := verify_token credentials now in
  guarded "Failed to create team member"
    (let* image_path :=
       match file with
       | Some file =>
           if negb (bool_decide (content_type file ∈ Some <$> allowed_types))
           then raise invalid_file_type
           else let* saved := save_team_upload_file file file_name in ret (Some saved)
       | None => ret (if given image_url then image_url else None)
       end in
     let member_data : document :=
       list_to_map
         [("name", VStr name); ("role", VStr role); ("bio", VStr bio);
          ("email", VStr email); ("phone", VStr phone);
          ("department", VStr department);
          ("image", if given image_path
                    then VStr ("/" +:+ default "" image_path) else VNone);
          ("order", VInt order); ("is_leadership", VBool is_leadership);
          ("is_active", VBool is_active); ("uploadDate", VDate now)] in
     create_team_member member_data new_id created updated new_oid).

(** The block of [update_team_member_admin] that removes the file of the
    member's current image; it occurs twice in the route. *)
Definition remove_current_image (member_id : string) : M unit :=
  let* current_member := get_team_member_by_id member_id in
  match current_member with
  | None => ret ()
  | Some current_member =>
      let image := default VNone (current_member !! "image") in
      if truthy image then
        match image with
        | VStr old_image_path =>
            let old_image_path :=
              if startswith old_image_path "/" then str_tail old_image_path
              else old_image_path in
            let full_file_path := old_image_path in
            try_except
              (let* there := path_exists full_file_path in
               if there then os_remove full_file_path else ret ())
              (λ e, ret ())
        | _ => raise AttributeError
        end
      else ret ()
  end.

(** [form_data] is the raw form of the request, [request.form()]. *)
Definition update_team_member_admin (member_id : string)
    (form_data : gmap string string) (file : option UploadFile)
    (name role bio email phone department image_url : option string)
    (order : option Z) (is_leadership is_active : option bool)
    (file_name : string) (credentials : bearer) (now : Z)
  : M (option document) :=
  let* current_username := verify_token credentials now in
  guarded "Failed to update team member"
    (let* existing := get_team_member_by_id member_id in
     if bool_decide (existing = None)
     then raise (HTTPException 404 "Team member not found")
     else
       let update_data : document := ∅ in
       let* update_data :=
         match file with
         | Some file =>
             match content_type file with
             | None => raise AttributeError
             | Some ct =>
                 if negb (startswith ct "image/") then raise invalid_file_type
                 else
                   let* image_path := save_team_upload_file file file_name in
                   ret (<["image" := VStr ("/" +:+ image_path)]> update_data)
             end
         | None =>
             match image_url with
             | Some image_url =>
                 if negb (String.eqb (strip image_url) "")
                 then ret (<["image" := VStr ("/" +:+ image_url)]> update_data)
                 else
                   remove_current_image member_id ;;
                   ret (<["image" := VStr ""]> update_data)
             | None => ret update_data
             end
         end in
       let* update_data :=
         try_except
           (match form_data !! "image_url" with
            | Some raw_image_url =>
                if String.eqb raw_image_url ""
                then
                  remove_current_image member_id ;;
                  ret (<["image" := VStr ""]> update_data)
                else ret update_data
            | None => ret update_data
            end)
           (λ e, ret update_data) in
       let update_data := set_if "name" VStr name update_data in
       let update_data := set_if "role" VStr role update_data in
       let update_data := set_if "bio" VStr bio update_data in
       let update_data := set_if_not_blank "email" email update_data in
       let update_data := set_if_not_blank "phone" phone update_data in
       let update_data := set_if_not_blank "department" department update_data in
       let update_data := set_if "order" VInt order update_data in
       let update_data := set_if "is_leadership" VBool is_leadership update_data in
       let update_data := set_if "is_active" VBool is_active update_data in
       update_team_member member_id update_data now).

(** *** Gallery *)

(** [uploaded] is the reading of the clock that [create_gallery_image]
    takes. *)
Definition upload_gallery_image_admin (file : UploadFile)
    (title description category : string) (order : Z)
    (is_featured is_active : bool) (file_name new_id new_oid : string)
    (credentials : bearer) (now uploaded : Z) : M fresh_dict :=
  let* current_username := verify_token credentials now in
  guarded "Failed to upload image"
    (if negb (bool_decide (content_type file ∈ Some <$> allowed_types))
     then raise invalid_file_type
     else
       let* file_path := save_upload_file file UPLOAD_DIR file_name in
       let image_data : document :=
         list_to_map
           [("title", VStr title); ("description", VStr description);
            ("image", VStr ("/" +:+ file_path)); ("alt", VStr title);
            ("category", VStr category); ("order", VInt order);
            ("is_featured", VBool is_featured); ("is_active", VBool is_active);
            ("uploadDate", VDate now)] in
       create_gallery_image image_data new_id uploaded new_oid).

(** [a or b] *)
Definition py_or (a b : value) : value := if truthy a then a else b.

Definition update_gallery_image_admin (image_id : string)
    (file : option UploadFile) (image_url title description category : option string)
    (order : option Z) (is_featured is_active : option bool)
    (file_name : string) (credentials : bearer) (now : Z)
  : M (option document) :=
  let* current_username := verify_token credentials now in
  guarded "Failed to update image"
    (let* existing := get_gallery_image_by_id image_id in
     match existing with
     | None => raise (HTTPException 404 "Image not found")
     | Some existing =>
         let update_data : document := ∅ in
         let* update_data :=
           match file with
           | Some file =>
               if negb (bool_decide (content_type file ∈ Some <$> allowed_types))
               then raise invalid_file_type
               else
                 let* file_path := save_upload_file file UPLOAD_DIR file_name in
                 let update_data := <["image" := VStr ("/" +:+ file_path)]> update_data in
                 ret (<["alt" := py_or (opt_str title)
                                   (py_or (default VNone (existing !! "alt"))
                                          (default VNone (existing !! "title")))]>
                        update_data)
           | None =>
               ret (if given image_url
                    then <["image" := opt_str image_url]> update_data
                    else update_data)
           end in
         let update_data := set_if "title" VStr title update_data in
         let update_data := set_if "description" VStr description update_data in
         let update_data := set_if "category" VStr category update_data in
         let update_data := set_if "order" VInt order update_data in
         let update_data := set_if "is_featured" VBool is_featured update_data in
         let update_data := set_if "is_active" VBool is_active update_data in
         update_gallery_image image_id update_data
     end).

(** *** Public detail routes *)

(** The body the detail routes share: the record, or status 404; anything
    else that goes wrong becomes status 500. *)
Definition detail (get : string → M (option document)) (missing : string)
    (id : string) : M document :=
  guarded "Internal server error"
    (let* found := get id in
     match found with
     | None => raise (HTTPException 404 missing)
     | Some found => ret found
     end).

Definition get_program_detail := detail get_program_by_id "Program not found".
Definition get_news_detail := detail get_news_by_id "News article not found".
Definition get_partnership_detail :=
  detail get_partnership_by_id "Partnership not found".
Definition get_team_member_detail :=
  detail get_team_member_by_id "Team member not found".
Definition get_event_detail := detail get_event_by_id "Event not found".
Definition get_gallery_image_detail :=
  detail get_gallery_image_by_id "Image not found".
(** The route [get_static_content_by_key] of [routes.py]. *)
Definition get_static_content_by_key_route :=
  detail get_static_content_by_key "Content not found".

(** *** Search *)




(** *** Contacts *)

Definition get_contacts_admin (form_type : option string) (credentials : bearer)
    (now : Z) : M (list document) :=
  let* current_username := verify_token credentials now in
  try_except (get_contacts form_type)
    (λ e, raise (HTTPException 500 "Internal server error")).

Definition mark_contact_as_read (contact_id : string) (credentials : bearer)
    (now : Z) : M string :=
  let* current_username := verify_token credentials now in
  try_except
    (let* success := update_contact_status contact_id "Read" in
     if success then ret "Contact marked as read"
     else raise (HTTPException 404 "Contact not found"))
    (λ e, raise (HTTPException 500 "Failed to update contact status")).

Definition delete_contact_admin (contact_id : string) (credentials : bearer)
    (now : Z) : M string :=
  let* current_username := verify_token credentials now in
  try_except
    (let* success := delete_contact contact_id in
     if success then ret "Contact deleted successfully"
     else raise (HTTPException 404 "Contact not found"))
    (λ e, raise (HTTPException 500 "Failed to delete contact")).

End Routes.

(** ** An engine to run the code on examples *)

(** Patterns are literal text, sorting is a merge sort, and a [datetime]
    prints as its count of milliseconds. *)

Definition lower (c : Ascii.ascii) : Ascii.ascii :=
  let n := Ascii.nat_of_ascii c in
  if ((65 <=? n) && (n <=? 90))%nat then Ascii.ascii_of_nat (n + 32) else c.

Fixpoint lowercase (s : string) : string :=
  match s with
  | EmptyString => EmptyString
  | String c s' => String (lower c) (lowercase s')
  end.

Definition literal_search (pattern s : string) : bool :=
  bool_decide (is_Some (String.index 0 (lowercase pattern) (lowercase s))).

#[global] Instance in_order_dec k d s1 s2 : Decision (in_order k d s1 s2).
Proof. unfold in_order. destruct (d <? 0); apply _. Defined.

Lemma bson_leb_total a b : bson_leb a b = true ∨ bson_leb b a = true.
Proof.
  destruct a as [[]|], b as [[]|]; simpl;
    try (left; reflexivity); try (right; reflexivity);
    try (destruct (Z.leb_spec n n0); [by left | right; apply Z.leb_le; lia]);
    try (destruct (Z.leb_spec t t0); [by left | right; apply Z.leb_le; lia]);
    try apply String.leb_total.
  all: destruct b, b0; simpl; auto.
Qed.

#[global] Instance in_order_total k d : Total (in_order k d).
Proof.
  intros s1 s2. unfold in_order. destruct (d <? 0).
  - destruct (bson_leb_total (as_dict s2 !! k) (as_dict s1 !! k)) as [->| ->];
      simpl; auto.
  - destruct (bson_leb_total (as_dict s1 !! k) (as_dict s2 !! k)) as [->| ->];
      simpl; auto.
Qed.

#[global] Instance literal_engine : Engine := {|
  regex_valid := λ _, true;
  regex_search := literal_search;
  sort_docs := λ k d, merge_sort (in_order k d);
  sort_docs_perm := λ k d, merge_sort_Permutation (in_order k d);
  sort_docs_sorted := λ k d, Sorted_merge_sort (in_order k d);
  str_datetime := λ t, pretty t
|}.

(** The same engine, except that it refuses, as the store does, a pattern
    in which a group is opened and not closed, or closed and not opened. *)
Fixpoint groups_closed (depth : nat) (pattern : string) : bool :=
  match pattern with
  | EmptyString => Nat.eqb depth 0
  | String c rest =>
      if Ascii.eqb c (Ascii.ascii_of_nat 40) then groups_closed (S depth) rest
      else if Ascii.eqb c (Ascii.ascii_of_nat 41) then
        match depth with
        | O => false
        | S depth' => groups_closed depth' rest
        end
      else groups_closed depth rest
  end.

Definition grouping_engine : Engine := {|
  regex_valid := groups_closed 0;
  regex_search := literal_search;
  sort_docs := λ k d, merge_sort (in_order k d);
  sort_docs_perm := λ k d, merge_sort_Permutation (in_order k d);
  sort_docs_sorted := λ k d, Sorted_merge_sort (in_order k d);
  str_datetime := λ t, pretty t
|}.

(** ** Vocabulary of the properties *)

(** [l[i:j]] for indices that are not negative. *)
Definition py_slice {A} (i j : Z) (l : list A) : list A :=
  drop (Z.to_nat i) (take (Z.to_nat j) l).

(** [n] is [t / p] rounded up. *)
Definition is_ceil_div (n t p : Z) : Prop := (n - 1) * p < t ≤ n * p.

(** Same database, same sessions, same files. *)
Definition same_state (st st' : state) : Prop :=
  (∀ c, db st c = db st' c)
  ∧ active_admin_sessions st = active_admin_sessions st'
  ∧ files st = files st'.

(** The list operations that answer with a pagination envelope. *)
Inductive list_call :=
  | GetPrograms (active_only : bool)
  | GetNews (category : option string) (featured_only : bool)
  | GetPartnerships (type country : option string)
  | GetEvents (type : option string) (upcoming_only : bool) (now : Z)
  | GetGalleryImages (category : option string).

(** The resources and what identifies a record of each. *)
Inductive resource :=
  | Programs | News | Partnerships | Team | Events | Gallery | Faqs
  | StaticContent | Contacts.

Definition collection_of (r : resource) : collection_name :=
  match r with
  | Programs => programs_collection
  | News => news_collection
  | Partnerships => partnerships_collection
  | Team => team_collection
  | Events => events_collection
  | Gallery => gallery_collection
  | Faqs => faqs_collection
  | StaticContent => static_content_collection
  | Contacts => contacts_collection
  end.

Definition key_of (r : resource) : string :=
  match r with StaticContent => "key" | _ => "id" end.

Section Vocabulary.
Context `{!Engine}.

Definition run_list (call : list_call) (page page_size : Z) : M paginated :=
  match call with
  | GetPrograms active_only => get_programs active_only page page_size
  | GetNews category featured_only => get_news category page page_size featured_only
  | GetPartnerships type country => get_partnerships type country page page_size
  | GetEvents type upcoming_only now => get_events type page page_size upcoming_only now
  | GetGalleryImages category => get_gallery_images category page page_size
  end.

Definition list_collection (call : list_call) : collection_name :=
  match call with
  | GetPrograms _ => programs_collection
  | GetNews _ _ => news_collection
  | GetPartnerships _ _ => partnerships_collection
  | GetEvents _ _ _ => events_collection
  | GetGalleryImages _ => gallery_collection
  end.

(** The filter a call is made with: each argument that is given (and each
    flag that is set) adds its condition. *)
Definition eq_if_given (k : string) (arg : option string) : query :=
  match arg with
  | Some s => if String.eqb s "" then [] else [Field k (CEq (VStr s))]
  | None => []
  end.

Definition active_filter (call : list_call) : query :=
  match call with
  | GetPrograms active_only =>
      if active_only then [Field "status" (CEq (VStr "Active"))] else []
  | GetNews category featured_only =>
      eq_if_given "category" category
      ++ (if featured_only then [Field "featured" (CEq (VBool true))] else [])
  | GetPartnerships type country =>
      eq_if_given "type" type ++ eq_if_given "country" country
  | GetEvents type upcoming_only now =>
      eq_if_given "type" type
      ++ (if upcoming_only then [Field "startDate" (CGteDate now)] else [])
  | GetGalleryImages category => eq_if_given "category" category
  end.

Definition list_order (call : list_call) : string * Z :=
  match call with
  | GetPrograms _ => ("createdAt", -1)
  | GetNews _ _ => ("date", -1)
  | GetPartnerships _ _ => ("partnerName", 1)
  | GetEvents _ _ _ => ("startDate", -1)
  | GetGalleryImages _ => ("uploadDate", -1)
  end.

(** The matching documents of a call, in the order of its sort. *)
Definition listing (call : list_call) (st : state) : list stored :=
  sort_docs (list_order call).1 (list_order call).2
    (List.filter (matches (active_filter call)) (db st (list_collection call))).

(** A stored document as a list operation shows it: the store identifier
    as text under [_id], the other fields as stored; a program without an
    [id] is shown with that text as its [id]. *)
Definition shown (call : list_call) (s : stored) : document :=
  let d := <["_id" := VStr (oid s)]> (body s) in
  match call with
  | GetPrograms _ =>
      match body s !! "id" with
      | Some _ => d
      | None => <["id" := VStr (oid s)]> d
      end
  | _ => d
  end.

Definition delete_of (r : resource) : string → M bool :=
  match r with
  | Programs => delete_program
  | News => delete_news
  | Partnerships => delete_partnership
  | Team => delete_team_member
  | Events => delete_event
  | Gallery => delete_gallery_image
  | Faqs => delete_faq
  | StaticContent => delete_static_content
  | Contacts => delete_contact
  end.

(** The update operations that stamp [updatedAt]; the gallery has its own
    and contacts have none. *)
Definition update_of (r : resource)
  : option (string → document → Z → M (option document)) :=
  match r with
  | Programs => Some update_program
  | News => Some update_news
  | Partnerships => Some update_partnership
  | Team => Some update_team_member
  | Events => Some update_event
  | Faqs => Some update_faq
  | StaticContent => Some update_static_content
  | Gallery | Contacts => None
  end.

(** The documents of a resource that the logical id [id] selects. *)
Definition selected (r : resource) (id : string) (st : state) : list stored :=
  List.filter (matches (by_key (key_of r) id)) (db st (collection_of r)).

(** The stored contacts that [get_contacts] lists, in its order. *)
Definition shown_contacts (form_type : option string) (st : state) : list stored :=
  take 1000
    (sort_docs "createdAt" (-1)
       (List.filter (matches (eq_if_given "formType" form_type))
          (db st contacts_collection))).

(** The documents a block of [global_search] builds its entries from: the
    first five matches when the section takes part. *)
Definition section_hits (takes_part : bool) (c : collection_name)
    (fields : list string) (q : string) (st : state) : list document :=
  if takes_part
  then as_dict <$> take 5 (List.filter (matches (any_field_like fields q)) (db st c))
  else [].

Definition program_hits (q : string) (sections : option (list string)) :=
  section_hits (wanted sections "programs") programs_collection
    ["title"; "description"; "partnerUniversity"] q.
Definition news_hits (q : string) (sections : option (list string)) :=
  section_hits (wanted sections "news") news_collection ["title"; "content"] q.
Definition event_hits (q : string) (sections : option (list string)) :=
  section_hits (wanted sections "events") events_collection
    ["title"; "description"] q.
Definition partnership_hits (q : string) (sections : option (list string)) :=
  section_hits (wanted sections "partnerships") partnerships_collection
    ["partnerName"; "details"; "country"] q.

Definition has_key (k : string) (d : document) : bool :=
  match d !! k with Some _ => true | None => false end.

Definition has_text (k : string) (d : document) : bool :=
  match d !! k with Some (VStr _) => true | _ => false end.

(** The hits carry what the entries read: the keys, and a string to cut the
    description from (validated records do). *)
Definition hits_presentable (q : string) (sections : option (list string))
    (st : state) : bool :=
  forallb (λ d, has_key "title" d && has_text "description" d)
    (program_hits q sections st)
  && forallb (λ d, has_key "id" d && has_key "title" d && has_text "content" d)
       (news_hits q sections st)
  && forallb (λ d, has_key "id" d && has_key "title" d && has_text "description" d)
       (event_hits q sections st)
  && forallb (λ d, has_key "id" d && has_key "partnerName" d && has_text "details" d)
       (partnership_hits q sections st).

(** An entry of the search output: exactly the keys [type], [id], [title],
    [description] and [url], the given type, a description of at most 200
    characters, and a textual [url]. *)
Definition search_entry (type : string) (e : document) : Prop :=
  dom e = list_to_set ["type"; "id"; "title"; "description"; "url"]
  ∧ e !! "type" = Some (VStr type)
  ∧ (∃ d, e !! "description" = Some (VStr d) ∧ (String.length d ≤ 200)%nat)
  ∧ (∃ u, e !! "url" = Some (VStr u)).

(** [short] is the first 200 characters of [text], all of it when it has
    no more. *)
Definition first_200 (text short : string) : Prop :=
  (∃ rest, text = short +:+ rest)
  ∧ String.length short = Nat.min 200 (String.length text).

(** The identifier an entry shows for a hit: its [id]; a program without
    one is shown under the text of its store identifier. *)
Definition entry_id (type : string) (hit : document) : option value :=
  match hit !! "id", hit !! "_id" with
  | Some id, _ => Some id
  | None, Some (VObjectId hex) =>
      if String.eqb type "program" then Some (VStr hex) else None
  | None, _ => None
  end.

(** [e] is the entry of the search output for [hit]: the type of its
    section, the identifier, the title read from [title_key], the first 200
    characters of the text under [text_key], the address of the record's
    page, and nothing else. *)
Definition is_entry (type prefix title_key text_key : string)
    (hit e : document) : Prop :=
  ∃ id title text short,
    entry_id type hit = Some id
    ∧ hit !! title_key = Some title
    ∧ hit !! text_key = Some (VStr text)
    ∧ first_200 text short
    ∧ dom e = list_to_set ["type"; "id"; "title"; "description"; "url"]
    ∧ e !! "type" = Some (VStr type)
    ∧ e !! "id" = Some id
    ∧ e !! "title" = Some title
    ∧ e !! "description" = Some (VStr short)
    ∧ e !! "url" = Some (VStr (prefix +:+ py_str id)).

(** What an update that stamps [updatedAt] hands to [$set]. *)
Definition stamped (payload : document) (now : Z) : document :=
  drop_none (<["updatedAt" := VDate now]> payload).

(** What the store reports for [update_one({key: id}, {'$set': upd})]. *)
Definition store_report (r : resource) (id : string) (upd : document)
    (st : state) : UpdateResult :=
  (coll_update_one (by_key (key_of r) id) upd (db st (collection_of r))).2.

(** A field of the record an operation answered with, when it answered with
    one. *)
Definition answered {A} (k : string) (out : result (option document) * A)
  : option value :=
  match out.1 with Ok (Some d) => d !! k | _ => None end.

(** The stored record [s'] is [s] after an update with [payload] at time
    [now] under a policy that keeps the values satisfying [kept]: same
    store identifier; a field whose payload value is kept has that value; a
    field that the payload does not mention, or mentions with a value that
    is not kept, is as it was; [updatedAt] is [now]. *)
Definition applies_payload (kept : value → Prop) (payload : document) (now : Z)
    (s s' : stored) : Prop :=
  oid s' = oid s
  ∧ (∀ k v, k ≠ "updatedAt" → payload !! k = Some v → kept v →
       body s' !! k = Some v)
  ∧ (∀ k, k ≠ "updatedAt" → (∀ v, payload !! k = Some v → ¬ kept v) →
       body s' !! k = body s !! k)
  ∧ body s' !! "updatedAt" = Some (VDate now).

(** Only whitespace, or nothing at all. *)
Fixpoint blank (s : string) : bool :=
  match s with
  | EmptyString => true
  | String c s' => isspace c && blank s'
  end.

(** A field of the first stored record with the id. *)
Definition stored_field (r : resource) (id k : string) (st : state) : option value :=
  match head (selected r id st) with Some s => body s !! k | None => None end.

(** The results of [n] successive calls of [delete(id)], and the state they
    leave. *)
Fixpoint delete_times (r : resource) (id : string) (n : nat) (st : state)
  : list (result bool) * state :=
  match n with
  | O => ([], st)
  | S n' =>
      let '(b, st') := delete_of r id st in
      let '(bs, st'') := delete_times r id n' st' in
      (b :: bs, st'')
  end.

End Vocabulary.

(** ** Sample data *)

(** Three of the documents [initialize_database] seeds, a team member with a
    photo, and two contact messages stored before statuses were
    capitalised. *)

Definition sample_p1 : stored :=
  Stored "6560a0000000000000000001"
    (list_to_map
       [("id", VStr "p1");
        ("title", VStr "Engineering Innovation - Stanford University");
        ("description", VStr "Advanced engineering program focusing on Silicon Valley innovation.");
        ("partnerUniversity", VStr "Stanford University, USA");
        ("status", VStr "Active");
        ("createdAt", VDate 1000); ("updatedAt", VDate 1000)]).

Definition sample_programs : list stored :=
  [ sample_p1;
    Stored "6560a0000000000000000002"
      (list_to_map
         [("id", VStr "p2");
          ("title", VStr "International Business - London School of Economics");
          ("description", VStr "Global business strategy program.");
          ("partnerUniversity", VStr "London School of Economics, UK");
          ("status", VStr "Active");
          ("createdAt", VDate 2000); ("updatedAt", VDate 2000)]);
    Stored "6560a0000000000000000003"
      (list_to_map
         [("id", VStr "p3");
          ("title", VStr "Computer Science & AI - ETH Zurich");
          ("description", VStr "World-class computer science program.");
          ("partnerUniversity", VStr "ETH Zurich, Switzerland");
          ("status", VStr "Active");
          ("createdAt", VDate 3000); ("updatedAt", VDate 3000)]) ].

Definition sample_n1 : stored :=
  Stored "6560b0000000000000000001"
    (list_to_map
       [("id", VStr "n1");
        ("title", VStr "New MoU Signed with Harvard University");
        ("content", VStr "Medi-Caps University is proud to announce a new Memorandum of Understanding.");
        ("category", VStr "MoU"); ("author", VStr "OIA Team");
        ("featured", VBool true); ("date", VDate 5000);
        ("createdAt", VDate 1000); ("updatedAt", VDate 1000)]).

Definition sample_news : list stored := [sample_n1].

Definition sample_team : list stored :=
  [ Stored "6560c0000000000000000001"
      (list_to_map
         [("id", VStr "m1"); ("name", VStr "Dr. Rajesh Kumar");
          ("role", VStr "Director, Office of International Affairs");
          ("bio", VStr "Over 20 years of experience in international education.");
          ("order", VInt 1);
          ("createdAt", VDate 1000); ("updatedAt", VDate 1000)]) ].

Definition sample_contacts : list stored :=
  [ Stored "6560d0000000000000000001"
      (list_to_map
         [("id", VStr "c1"); ("firstName", VStr "Asha"); ("status", VStr "read");
          ("createdAt", VDate 1000)]);
    Stored "6560d0000000000000000002"
      (list_to_map
         [("id", VStr "c2"); ("firstName", VStr "Ravi");
          ("createdAt", VDate 2000)]) ].

(** A token for [admin], signed with the key ["k"], that expires at second
    3600. *)
Definition sample_token : bearer :=
  Signed ALGORITHM "k" {| sub := Some "admin"; exp := Some 3600 |}.

Definition sample_photo : UploadFile :=
  {| filename := "photo.png"; content_type := Some "image/png" |}.

Definition sample_drawing : UploadFile :=
  {| filename := "logo.svg"; content_type := Some "image/svg+xml" |}.

Definition sample_g1 : stored :=
  Stored "6560f0000000000000000001"
    (list_to_map
       [("id", VStr "g1"); ("title", VStr "Convocation 2023");
        ("image", VStr "/gallery/old.png"); ("category", VStr "Events");
        ("uploadDate", VDate 1000)]).

Definition sample_state : state :=
  {| db := λ c, match c with
                | programs_collection => sample_programs
                | news_collection => sample_news
                | team_collection => sample_team
                | contacts_collection => sample_contacts
                | _ => []
                end;
     active_admin_sessions := ∅;
     files := ∅ |}.

(** The sample state with one gallery image. *)
Definition sample_gallery_state : state :=
  set_coll gallery_collection [sample_g1] sample_state.

(** ** Vocabulary of the further properties *)

Section FurtherVocabulary.
Context `{!Engine}.





(** The first record a query selects. *)
Definition first_selected (r : resource) (id : string) (st : state) : option stored :=
  head (selected r id st).

(** Nothing but the collection of [r] differs between the two states. *)
Definition only_collection_differs (r : resource) (st st' : state) : Prop :=
  (∀ c, c ≠ collection_of r → db st' c = db st c)
  ∧ active_admin_sessions st' = active_admin_sessions st
  ∧ files st' = files st.

End FurtherVocabulary.

Section FurtherRouteVocabulary.
Context `{!Engine}.
Variable SECRET_KEY : string.

(** The public detail routes. *)
Definition detail_of (r : resource) : option (string → M document) :=
  match r with
  | Programs => Some get_program_detail
  | News => Some get_news_detail
  | Partnerships => Some get_partnership_detail
  | Team => Some get_team_member_detail
  | Events => Some get_event_detail
  | Gallery => Some get_gallery_image_detail
  | StaticContent => Some get_static_content_by_key_route
  | Faqs | Contacts => None
  end.

End FurtherRouteVocabulary.

(** What [update_team_member_admin] adds to [update_data] from the form
    fields other than the image. *)
Definition team_fields (name role bio email phone department : option string)
    (order : option Z) (is_leadership is_active : option bool)
    (update_data : document) : document :=
  set_if "is_active" VBool is_active
    (set_if "is_leadership" VBool is_leadership
       (set_if "order" VInt order
          (set_if_not_blank "department" department
             (set_if_not_blank "phone" phone
                (set_if_not_blank "email" email
                   (set_if "bio" VStr bio
                      (set_if "role" VStr role
                         (set_if "name" VStr name update_data)))))))).

Definition team_form_keys : list string :=
  ["name"; "role"; "bio"; "email"; "phone"; "department"; "order";
   "is_leadership"; "is_active"].

(** A text field of a form that is not blank, as a value. *)
Definition not_blank (o : option string) : option value :=
  match o with
  | Some x => if String.eqb (strip x) "" then None else Some (VStr x)
  | None => None
  end.

(** The field [k] of [s'] is [new] when there is one, and as in [s]
    otherwise. *)
Definition sets_or_keeps (k : string) (new : option value) (s s' : stored) : Prop :=
  body s' !! k = match new with Some v => Some v | None => body s !! k end.

(** What [update_gallery_image_admin] adds to [update_data] from the form
    fields other than the image. *)
Definition gallery_fields (title description category : option string)
    (order : option Z) (is_featured is_active : option bool)
    (update_data : document) : document :=
  set_if "is_active" VBool is_active
    (set_if "is_featured" VBool is_featured
       (set_if "order" VInt order
          (set_if "category" VStr category
             (set_if "description" VStr description
                (set_if "title" VStr title update_data))))).

Definition gallery_form_keys : list string :=
  ["title"; "description"; "category"; "order"; "is_featured"; "is_active"].

(** The stored image [s'] is [s] with the form applied: the given fields,
    [image] and [alt] where there is a new one, and nothing else. *)
Definition gallery_updated (s s' : stored) (title description category : option string)
    (order : option Z) (is_featured is_active : option bool)
    (image alt : option value) : Prop :=
  oid s' = oid s
  ∧ sets_or_keeps "image" image s s'
  ∧ sets_or_keeps "alt" alt s s'
  ∧ sets_or_keeps "title" (VStr <$> title) s s'
  ∧ sets_or_keeps "description" (VStr <$> description) s s'
  ∧ sets_or_keeps "category" (VStr <$> category) s s'
  ∧ sets_or_keeps "order" (VInt <$> order) s s'
  ∧ sets_or_keeps "is_featured" (VBool <$> is_featured) s s'
  ∧ sets_or_keeps "is_active" (VBool <$> is_active) s s'
  ∧ (∀ k, k ∉ "image" :: "alt" :: gallery_form_keys → body s' !! k = body s !! k).

(** [title or existing.get('alt') or existing.get('title')], as it is stored:
    a [None] is not. *)
Definition new_alt (title : option string) (s : stored) : option value :=
  let alt := py_or (opt_str title)
               (py_or (default VNone (body s !! "alt"))
                      (default VNone (body s !! "title"))) in
  if decide (alt = VNone) then None else Some alt.

Section StatsVocabulary.
Context `{!Engine}.

(** The document that holds the editable counters, if there is one. *)
Definition stats_record (st : state) : option stored :=
  head (List.filter (matches (by_key "key" "stats")) (db st stats_config_collection)).

(** The programs that count for the statistics. *)
Definition active_programs (st : state) : list stored :=
  List.filter (matches [Field "status" (CEq (VStr "Active"))])
    (db st programs_collection).

End StatsVocabulary.

(** The second at which a token issued at [now] expires. *)
Definition expiry_of (expires_delta : option Z) (now : Z) : Z :=
  now `div` 1000
  + match expires_delta with
    | Some d => if d =? 0 then ACCESS_TOKEN_EXPIRE_MINUTES * 60 else d
    | None => ACCESS_TOKEN_EXPIRE_MINUTES * 60
    end.

(** * Properties *)

Section PaginationProperties.
Context `{!Engine}.

Lemma paged_run c q key dir fixup pg size st :
  1 ≤ pg → 1 ≤ size → query_ok q = true →
  paged c q key dir fixup pg size st =
    (Ok {| items := fixup <$> (as_dict <$>
                      take (Z.to_nat size)
                        (take (Z.to_nat size)
                           (drop (Z.to_nat ((pg - 1) * size))
                              (sort_docs key dir (List.filter (matches q) (db st c))))));
           total := Z.of_nat (length (List.filter (matches q) (db st c)));
           page := pg; pageSize := size;
           totalPages :=
             (Z.of_nat (length (List.filter (matches q) (db st c))) + size - 1)
             / size |}, st).
Proof.
  intros Hp Hs Hq.
  unfold paged, bind, count_documents, find, lift, cursor_skip, to_list,
    cursor_limit, floordiv, ret.
  rewrite Hq.
  assert (((pg - 1) * size <? 0) = false) as -> by (apply Z.ltb_ge; nia).
  assert ((size =? 0) = false) as -> by (apply Z.eqb_neq; lia).
  assert ((size <? 0) = false) as -> by (apply Z.ltb_ge; lia).
  rewrite Z.abs_eq by lia. reflexivity.
Qed.

Lemma eq_if_given_spec k arg :
  eq_if_given k arg
  = if given arg then [Field k (CEq (VStr (default "" arg)))] else [].
Proof. destruct arg as [s|]; simpl; [destruct (String.eqb s "")|]; reflexivity. Qed.

Lemma active_filter_ok call : query_ok (active_filter call) = true.
Proof.
  destruct call as [[]|[c|] []|[t|] [c|]|[t|] [] ?|[c|]]; simpl;
    repeat match goal with |- context [String.eqb ?s ""] =>
             destruct (String.eqb s "") end; reflexivity.
Qed.

Lemma run_list_paged call pg size :
  ∃ fixup,
    run_list call pg size
    = paged (list_collection call) (active_filter call)
        (list_order call).1 (list_order call).2 fixup pg size
    ∧ ∀ s, fixup (as_dict s) = shown call s.
Proof.
  assert (∀ s, stringify_id (as_dict s) = <["_id" := VStr (oid s)]> (body s)) as Hid.
  { intros s. unfold stringify_id, as_dict.
    rewrite lookup_total_insert_eq. cbn [py_str]. apply insert_insert_eq. }
  destruct call; simpl; rewrite ?eq_if_given_spec; eexists;
    (split; [reflexivity|]); intros s; cbv beta; rewrite Hid; try reflexivity.
  unfold default_id. rewrite lookup_insert_ne by done.
  destruct (body s !! "id"); [reflexivity|].
  by rewrite lookup_total_insert_eq.
Qed.

Lemma ceil_div_pages t p : 0 ≤ t → 1 ≤ p → is_ceil_div ((t + p - 1) / p) t p.
Proof.
  intros Ht Hp. unfold is_ceil_div.
  pose proof (Z.div_mod (t + p - 1) p ltac:(lia)) as Hd.
  pose proof (Z.mod_pos_bound (t + p - 1) p ltac:(lia)) as Hm.
  nia.
Qed.

(** C1. Every paginated list operation, called with [page ≥ 1] and
    [page_size ≥ 1], returns (and leaves the state as it was) an envelope
    whose [total] is the number of documents matching the active filter,
    whose [totalPages] is [total / size] rounded up, and whose [items]
    are the documents [(pg-1)*size : pg*size] of the filtered
    and sorted listing, each as the operation shows it,
    [min(size, max(0, total - (pg-1)*size))] of them. *)
Theorem pagination_envelope call pg size st :
  1 ≤ pg → 1 ≤ size →
  ∃ env,
    run_list call pg size st = (Ok env, st)
    ∧ total env
      = Z.of_nat (length (List.filter (matches (active_filter call))
                            (db st (list_collection call))))
    ∧ is_ceil_div (totalPages env) (total env) size
    ∧ items env
      = shown call <$> py_slice ((pg - 1) * size) (pg * size) (listing call st)
    ∧ Z.of_nat (length (items env))
      = Z.min size (Z.max 0 (total env - (pg - 1) * size))
    ∧ page env = pg ∧ pageSize env = size.
Proof.
  intros Hp Hs.
  destruct (run_list_paged call pg size) as (fixup & -> & Hfix).
  rewrite paged_run by (try assumption; apply active_filter_ok).
  eexists. split; [reflexivity|].
  cbn [items total page pageSize totalPages].
  fold (listing call st).
  assert (length (listing call st)
          = length (List.filter (matches (active_filter call))
                      (db st (list_collection call)))) as Hlen.
  { unfold listing. apply Permutation_length, sort_docs_perm. }
  split; [reflexivity|]. split; [apply ceil_div_pages; lia|].
  split; [|split; [|done]].
  - rewrite <- list_fmap_compose.
    unfold py_slice. rewrite take_take, Nat.min_id, take_drop_commute.
    replace (Z.to_nat ((pg - 1) * size) + Z.to_nat size)%nat
      with (Z.to_nat (pg * size)) by nia.
    apply list_fmap_ext. intros i s _. apply Hfix.
  - rewrite !length_fmap, !length_take, length_drop, Hlen. nia.
Qed.

End PaginationProperties.

(** Page 2 of the three sample programs, two to a page: two pages, and the
    one item is the oldest program as it is shown. *)
Lemma pagination_envelope_witness :
  ∃ env, run_list (GetPrograms true) 2 2 sample_state = (Ok env, sample_state)
         ∧ total env = 3 ∧ totalPages env = 2
         ∧ items env = [shown (GetPrograms true) sample_p1].
Proof.
  destruct (pagination_envelope (GetPrograms true) 2 2 sample_state)
    as (env & Hrun & Htotal & Hceil & Hitems & _); [lia | lia |].
  match type of Htotal with
  | _ = ?n => let v := eval vm_compute in n in change n with v in Htotal
  end.
  unfold is_ceil_div in Hceil.
  exists env. split_and!; [exact Hrun | exact Htotal | lia |].
  rewrite Hitems. vm_compute. reflexivity.
Defined.

Section DeleteProperties.
Context `{!Engine}.

Lemma coll_delete_one_spec q l :
  List.filter (matches q) (coll_delete_one q l).1 = tail (List.filter (matches q) l)
  ∧ (coll_delete_one q l).2 = (if List.filter (matches q) l is [] then 0 else 1)
  ∧ (List.filter (matches q) l = [] → (coll_delete_one q l).1 = l).
Proof.
  induction l as [|s l (IH1 & IH2 & IH3)]; simpl; [done|].
  destruct (matches q s) eqn:Hs; simpl; [done|].
  destruct (coll_delete_one q l) as [l' n]; simpl in *. rewrite Hs.
  repeat split; [done | done | intros Hnil; by rewrite IH3].
Qed.

Lemma same_state_refl st : same_state st st.
Proof. by repeat split. Qed.

Lemma same_state_trans st1 st2 st3 :
  same_state st1 st2 → same_state st2 st3 → same_state st1 st3.
Proof.
  intros (H1 & H2 & H3) (H1' & H2' & H3').
  split; [intros c; by rewrite H1 | split; congruence].
Qed.

Lemma same_state_set_coll c st : same_state st (set_coll c (db st c) st).
Proof.
  repeat split. intros c'. simpl. by destruct (decide (c' = c)) as [->|].
Qed.

Lemma db_set_coll_eq c l st : db (set_coll c l st) c = l.
Proof. simpl. by rewrite decide_True. Qed.

Lemma db_set_coll_ne c c' l st : c' ≠ c → db (set_coll c l st) c' = db st c'.
Proof. intros. simpl. by rewrite decide_False. Qed.

Lemma selected_same r id st st' :
  same_state st st' → selected r id st' = selected r id st.
Proof. intros (Hdb & _). unfold selected. by rewrite Hdb. Qed.

Lemma delete_of_by r id :
  delete_of r id = delete_by (collection_of r) (key_of r) id.
Proof. by destruct r. Qed.

Lemma delete_of_run r id st :
  ∃ st', delete_of r id st = (Ok (bool_decide (selected r id st ≠ [])), st')
         ∧ selected r id st' = tail (selected r id st)
         ∧ (selected r id st = [] → same_state st st').
Proof.
  rewrite delete_of_by. unfold delete_by, bind, delete_one, ret, selected.
  pose proof (coll_delete_one_spec (by_key (key_of r) id) (db st (collection_of r)))
    as (H1 & H2 & H3).
  destruct (coll_delete_one _ _) as [l' n]; simpl in *.
  eexists. split; [|split].
  - f_equal. f_equal. rewrite H2.
    destruct (List.filter _ (db st _)); reflexivity.
  - rewrite db_set_coll_eq. exact H1.
  - intros Hnil. rewrite (H3 Hnil). apply same_state_set_coll.
Qed.

Lemma delete_missing_times r id n :
  ∀ st, selected r id st = [] →
    ∃ st', delete_times r id n st = (replicate n (Ok false), st')
           ∧ same_state st st'.
Proof.
  induction n as [|n IH]; intros st Hnil; simpl.
  - eexists. split; [reflexivity | apply same_state_refl].
  - destruct (delete_of_run r id st) as (st1 & -> & _ & Hsame).
    specialize (Hsame Hnil).
    destruct (IH st1) as (st2 & -> & Hsame2).
    { by rewrite (selected_same _ _ _ _ Hsame). }
    eexists. split.
    + by rewrite Hnil.
    + by eapply same_state_trans.
Qed.

(** C10, as the code has it. For every resource type, as long as at most
    one record carries the identifier that [delete] selects by: the first
    [delete(id)] answers true exactly when the record exists, every later
    [delete(id)] answers false, and deleting an id that is not there leaves
    the state as it was. *)
Theorem delete_idempotent r id n st :
  (length (selected r id st) ≤ 1)%nat →
  ∃ st', delete_times r id (S n) st
         = (Ok (bool_decide (selected r id st ≠ [])) :: replicate n (Ok false), st')
         ∧ selected r id st' = []
         ∧ (selected r id st = [] → same_state st st').
Proof.
  intros Hone. simpl.
  destruct (delete_of_run r id st) as (st1 & -> & Htail & Hsame).
  assert (selected r id st1 = []) as Hnil.
  { rewrite Htail. destruct (selected r id st) as [|? [|? ?]]; simpl in *; [done|done|lia]. }
  destruct (delete_missing_times r id n st1 Hnil) as (st2 & -> & Hsame2).
  exists st2. split; [done|]. split.
  - by rewrite (selected_same _ _ _ _ Hsame2).
  - intros H0. eapply same_state_trans; [by apply Hsame | done].
Qed.

End DeleteProperties.

(** Deleting the sample program [p1] four times: found once, then missing;
    deleting an unknown id: missing every time. *)
Lemma delete_idempotent_witness :
  (delete_times Programs "p1" 4 sample_state).1
    = [Ok true; Ok false; Ok false; Ok false]
  ∧ (delete_times Contacts "nobody" 3 sample_state).1
    = [Ok false; Ok false; Ok false].
Proof.
  split.
  - destruct (delete_idempotent Programs "p1" 3 sample_state) as (st' & -> & _).
    + vm_compute. lia.
    + reflexivity.
  - destruct (delete_idempotent Contacts "nobody" 2 sample_state) as (st' & -> & _).
    + vm_compute. lia.
    + reflexivity.
Defined.

(** Static content is deleted by its key, which the caller chooses and which
    creation does not keep unique: after two records were created under the
    key ["policies"], deleting that key succeeds twice. *)
Lemma delete_twice_under_shared_key :
  let content : document :=
    list_to_map [("key", VStr "policies"); ("title", VStr "Policies");
                 ("content", VStr "Credit transfer policy."); ("section", VStr "about")] in
  let st1 := (create_static_content content "s1" 1000123 1000456
                "6560f0000000000000000001" sample_state).2 in
  let st2 := (create_static_content content "s2" 2000123 2000456
                "6560f0000000000000000002" st1).2 in
  (delete_times StaticContent "policies" 3 st2).1 = [Ok true; Ok true; Ok false].
Proof. vm_compute. reflexivity. Qed.

Section ContactProperties.
Context `{!Engine}.

(** C7. [get_contacts] answers with one record per listed contact and leaves
    the state as it was; in the record a stored status ["read"], ["new"] or
    ["replied"] reads ["Read"], ["New"] or ["Replied"], a missing status
    reads ["New"], and any other status reads as stored. *)
Theorem contact_status_view form_type st :
  ∃ contacts,
    get_contacts form_type st = (Ok contacts, st)
    ∧ length contacts = length (shown_contacts form_type st)
    ∧ ∀ i s, shown_contacts form_type st !! i = Some s →
        ∃ c, contacts !! i = Some c
          ∧ (body s !! "status" = Some (VStr "read") → c !! "status" = Some (VStr "Read"))
          ∧ (body s !! "status" = Some (VStr "new") → c !! "status" = Some (VStr "New"))
          ∧ (body s !! "status" = Some (VStr "replied")
             → c !! "status" = Some (VStr "Replied"))
          ∧ (body s !! "status" = None → c !! "status" = Some (VStr "New"))
          ∧ (∀ v, body s !! "status" = Some v →
               v ≠ VStr "read" → v ≠ VStr "new" → v ≠ VStr "replied" →
               c !! "status" = Some v).
Proof.
  unfold get_contacts, bind, find, lift, to_list, ret.
  rewrite <- eq_if_given_spec.
  assert (query_ok (eq_if_given "formType" form_type) = true) as ->.
  { destruct form_type as [f|]; simpl; [destruct (String.eqb f "")|]; reflexivity. }
  change (1000 <? 0) with false. cbv iota.
  change (Z.to_nat 1000) with 1000%nat.
  fold (shown_contacts form_type st).
  eexists. split; [reflexivity|]. split; [by rewrite !length_fmap|].
  intros i s Hi. rewrite !list_lookup_fmap, Hi. simpl.
  eexists. split; [reflexivity|].
  assert (default_id (stringify_id (as_dict s)) !! "status" = body s !! "status") as Hst.
  { unfold default_id, stringify_id, as_dict.
    destruct (_ !! "id"); by rewrite ?lookup_insert_ne by done. }
  rewrite Hst.
  destruct (body s !! "status") as [v|] eqn:Hv.
  - repeat split; intros; simplify_eq; repeat case_decide;
      simplify_eq; by rewrite ?lookup_insert_eq.
  - repeat split; intros; simplify_eq; by rewrite lookup_insert_eq.
Qed.

End ContactProperties.

Section SearchProperties.
Context `{!Engine}.

Lemma mapM_length {A B} (f : A → result B) l l' :
  mapM f l = Ok l' → length l' = length l.
Proof.
  revert l'. induction l as [|x l IH]; intros l' Hl; simpl in *.
  - by inversion Hl.
  - destruct (f x); [|done]. destruct (mapM f l); [|done].
    inversion Hl. simpl. by rewrite (IH _ eq_refl).
Qed.

Lemma mapM_Forall {A B} (f : A → result B) (P : B → Prop) l l' :
  (∀ x y, f x = Ok y → P y) → mapM f l = Ok l' → Forall P l'.
Proof.
  intros Hf. revert l'. induction l as [|x l IH]; intros l' Hl; simpl in *.
  - inversion Hl. constructor.
  - destruct (f x) eqn:Hx; [|done]. destruct (mapM f l); [|done].
    inversion Hl. constructor; eauto.
Qed.

Lemma mapM_ok {A B} (f : A → result B) (ok : A → bool) l :
  (∀ x, ok x = true → ∃ y, f x = Ok y) →
  forallb ok l = true → ∃ l', mapM f l = Ok l'.
Proof.
  intros Hf. induction l as [|x l IH]; simpl; intros Hall; [by eexists|].
  apply andb_prop in Hall as [Hx Hl].
  destruct (Hf x Hx) as [y ->]. destruct (IH Hl) as [l' ->]. by eexists.
Qed.

Lemma str_take_length n s : (String.length (str_take n s) ≤ n)%nat.
Proof.
  revert s. induction n as [|n IH]; intros [|c s];
    try (unfold str_take; simpl; lia).
  change (str_take (S n) (String c s)) with (String c (str_take n s)).
  simpl. specialize (IH s). lia.
Qed.

Lemma getitem_has_key k (d : document) :
  has_key k d = true → ∃ v, getitem d k = Ok v.
Proof. unfold has_key, getitem. destruct (d !! k); [by eexists | done]. Qed.

Lemma slice_has_text k (d : document) :
  has_text k d = true → ∃ s, rbind (getitem d k) (slice_to 200) = Ok (VStr (str_take 200 s)).
Proof.
  unfold has_text, getitem. destruct (d !! k) as [[]|]; try done. by eexists.
Qed.

Lemma sliced_text (v w : value) :
  slice_to 200 v = Ok w → ∃ s, w = VStr s ∧ (String.length s ≤ 200)%nat.
Proof.
  destruct v; simpl; intros Hw; try discriminate Hw.
  injection Hw as <-.
  eexists. split; [reflexivity | apply str_take_length].
Qed.

Lemma entry_shape type id title description url :
  (∃ s, description = VStr s ∧ (String.length s ≤ 200)%nat) →
  search_entry type
    (list_to_map [("type", VStr type); ("id", id); ("title", title);
                 ("description", description); ("url", VStr url)]).
Proof.
  intros Hd. split; [by rewrite dom_list_to_map_L|].
  split; [reflexivity|]. split; [|by eexists].
  destruct Hd as (s & -> & Hs). by exists s.
Qed.

Ltac entry_of Hres :=
  repeat match type of Hres with
  | rbind (rbind ?a ?f) _ = Ok _ =>
      let v := fresh "v" in let Hv := fresh "Hv" in
      destruct a as [v|]; [|done]; simpl in Hres;
      destruct (f v) eqn:Hv; [|done]; simpl in Hres
  | rbind ?r _ = Ok _ => destruct r; [|done]; simpl in Hres
  end;
  inversion Hres; apply entry_shape; eapply sliced_text; eassumption.

Lemma program_result_entry d e :
  program_result d = Ok e → search_entry "program" e.
Proof. unfold program_result. intros Hres. entry_of Hres. Qed.

Lemma news_result_entry d e : news_result d = Ok e → search_entry "news" e.
Proof. unfold news_result. intros Hres. entry_of Hres. Qed.

Lemma event_result_entry d e : event_result d = Ok e → search_entry "event" e.
Proof. unfold event_result. intros Hres. entry_of Hres. Qed.

Lemma partnership_result_entry d e :
  partnership_result d = Ok e → search_entry "partnership" e.
Proof. unfold partnership_result. intros Hres. entry_of Hres. Qed.

Lemma mapM_Forall2 {A B} (f : A → result B) (R : A → B → Prop) l l' :
  (∀ x y, x ∈ l → f x = Ok y → R x y) → mapM f l = Ok l' → Forall2 R l l'.
Proof.
  revert l'. induction l as [|x l IH]; intros l' Hf Hl; simpl in *.
  - inversion Hl. constructor.
  - destruct (f x) as [y|] eqn:Hx; [|done].
    destruct (mapM f l) as [ys|] eqn:Hys; [|done].
    inversion Hl. constructor.
    + apply Hf; [left | done].
    + apply IH; [|done]. intros x' y' Hin. apply Hf. by right.
Qed.

Lemma str_take_first n text :
  (∃ rest, text = str_take n text +:+ rest)
  ∧ String.length (str_take n text) = Nat.min n (String.length text).
Proof.
  revert text. induction n as [|n IH]; intros [|c text].
  - split; [by exists ""|done].
  - split; [by exists (String c text)|done].
  - split; [by exists ""|done].
  - change (str_take (S n) (String c text)) with (String c (str_take n text)).
    destruct (IH text) as ((rest & Hrest) & Hlen). split.
    + exists rest.
      change (String c text = String c (str_take n text +:+ rest)).
      by rewrite <- Hrest.
    + cbn [String.length]. by rewrite Hlen.
Qed.

Lemma getitem_Ok (d : document) k v : getitem d k = Ok v → d !! k = Some v.
Proof. unfold getitem. destruct (d !! k); [by intros [= ->] | done]. Qed.

Lemma sliced_getitem (d : document) k w :
  rbind (getitem d k) (slice_to 200) = Ok w →
  ∃ text, d !! k = Some (VStr text) ∧ w = VStr (str_take 200 text).
Proof.
  unfold getitem. destruct (d !! k) as [[]|]; try done.
  cbn [rbind slice_to]. intros [= <-]. by eexists.
Qed.

Lemma built_entry type prefix title_key text_key hit id title text :
  entry_id type hit = Some id → hit !! title_key = Some title →
  hit !! text_key = Some (VStr text) →
  is_entry type prefix title_key text_key hit
    (list_to_map [("type", VStr type); ("id", id); ("title", title);
                 ("description", VStr (str_take 200 text));
                 ("url", VStr (prefix +:+ py_str id))]).
Proof.
  intros Hid Htitle Htext. exists id, title, text, (str_take 200 text).
  split_and!;
    [done | done | done | apply str_take_first | by rewrite dom_list_to_map_L
    | reflexivity ..].
Qed.

Lemma entry_id_given type (hit : document) id :
  hit !! "id" = Some id → entry_id type hit = Some id.
Proof. unfold entry_id. by intros ->. Qed.

Lemma program_result_is_entry s e :
  program_result (as_dict s) = Ok e →
  is_entry "program" "/student-mobility/programs/" "title" "description"
    (as_dict s) e.
Proof.
  unfold program_result.
  destruct (getitem (as_dict s) "title") as [title|] eqn:Htitle; [|done].
  cbn [rbind].
  destruct (rbind (getitem (as_dict s) "description") (slice_to 200))
    as [w|] eqn:Hw; [|done].
  cbn [rbind]. intros [= <-].
  apply sliced_getitem in Hw as (text & Htext & ->).
  apply built_entry; [|by apply getitem_Ok|done].
  unfold entry_id.
  assert (as_dict s !! "_id" = Some (VObjectId (oid s))) as Hoid
    by apply lookup_insert_eq.
  rewrite Hoid, (lookup_total_correct _ _ _ Hoid).
  by destruct (as_dict s !! "id").
Qed.

Lemma news_result_is_entry hit e :
  news_result hit = Ok e →
  is_entry "news" "/news-media/" "title" "content" hit e.
Proof.
  unfold news_result.
  destruct (getitem hit "id") as [id|] eqn:Hid; [|done]. cbn [rbind].
  destruct (getitem hit "title") as [title|] eqn:Htitle; [|done]. cbn [rbind].
  destruct (rbind (getitem hit "content") (slice_to 200)) as [w|] eqn:Hw; [|done].
  cbn [rbind]. intros [= <-].
  apply sliced_getitem in Hw as (text & Htext & ->).
  apply built_entry; [by apply entry_id_given, getitem_Ok|by apply getitem_Ok|done].
Qed.

Lemma event_result_is_entry hit e :
  event_result hit = Ok e →
  is_entry "event" "/visits-delegations-events/" "title" "description" hit e.
Proof.
  unfold event_result.
  destruct (getitem hit "id") as [id|] eqn:Hid; [|done]. cbn [rbind].
  destruct (getitem hit "title") as [title|] eqn:Htitle; [|done]. cbn [rbind].
  destruct (rbind (getitem hit "description") (slice_to 200)) as [w|] eqn:Hw;
    [|done].
  cbn [rbind]. intros [= <-].
  apply sliced_getitem in Hw as (text & Htext & ->).
  apply built_entry; [by apply entry_id_given, getitem_Ok|by apply getitem_Ok|done].
Qed.

Lemma partnership_result_is_entry hit e :
  partnership_result hit = Ok e →
  is_entry "partnership" "/global-partnerships/" "partnerName" "details" hit e.
Proof.
  unfold partnership_result.
  destruct (getitem hit "id") as [id|] eqn:Hid; [|done]. cbn [rbind].
  destruct (getitem hit "partnerName") as [title|] eqn:Htitle; [|done].
  cbn [rbind].
  destruct (rbind (getitem hit "details") (slice_to 200)) as [w|] eqn:Hw; [|done].
  cbn [rbind]. intros [= <-].
  apply sliced_getitem in Hw as (text & Htext & ->).
  apply built_entry; [by apply entry_id_given, getitem_Ok|by apply getitem_Ok|done].
Qed.

Lemma section_hits_stored b c fields q st hit :
  hit ∈ section_hits b c fields q st → ∃ s, hit = as_dict s.
Proof.
  unfold section_hits. destruct b.
  - intros (s & -> & _)%list_elem_of_fmap. by exists s.
  - by intros ?%elem_of_nil.
Qed.

Ltac entry_exists :=
  intros d Hd; repeat (apply andb_prop in Hd as [Hd ?]);
  repeat match goal with
  | Hk : has_key _ _ = true |- _ => apply getitem_has_key in Hk as [? Hk]
  | Hk : has_text _ _ = true |- _ => apply slice_has_text in Hk as [? Hk]
  end;
  repeat match goal with Hk : _ = Ok _ |- _ => rewrite Hk; clear Hk end;
  simpl; by eexists.

Lemma program_result_ok :
  ∀ d, has_key "title" d && has_text "description" d = true →
       ∃ e, program_result d = Ok e.
Proof. unfold program_result. entry_exists. Qed.

Lemma news_result_ok :
  ∀ d, has_key "id" d && has_key "title" d && has_text "content" d = true →
       ∃ e, news_result d = Ok e.
Proof. unfold news_result. entry_exists. Qed.

Lemma event_result_ok :
  ∀ d, has_key "id" d && has_key "title" d && has_text "description" d = true →
       ∃ e, event_result d = Ok e.
Proof. unfold event_result. entry_exists. Qed.

Lemma partnership_result_ok :
  ∀ d, has_key "id" d && has_key "partnerName" d && has_text "details" d = true →
       ∃ e, partnership_result d = Ok e.
Proof. unfold partnership_result. entry_exists. Qed.

Lemma any_field_like_ok fields q :
  regex_valid q = true → query_ok (any_field_like fields q) = true.
Proof.
  intros Hq. unfold any_field_like, query_ok. simpl. rewrite andb_true_r.
  induction fields as [|f fields IH]; simpl; [done|]. by rewrite Hq.
Qed.

Lemma search_in_run b c fields q entry st :
  regex_valid q = true →
  search_in b c fields q entry st = (mapM entry (section_hits b c fields q st), st).
Proof.
  intros Hq. unfold search_in, section_hits. destruct b; [|done].
  unfold bind, find, lift, to_list, cursor_limit.
  rewrite any_field_like_ok by done. simpl.
  change (Z.to_nat 5) with 5%nat. change (Pos.to_nat 5) with 5%nat.
  by rewrite take_take.
Qed.

Lemma section_hits_length b c fields q st :
  (length (section_hits b c fields q st) ≤ 5)%nat.
Proof.
  unfold section_hits. destruct b; simpl; [|lia].
  rewrite length_fmap, length_take. lia.
Qed.

(** C6. For a query the store accepts as a pattern and hits that carry the
    fields the entries read, [global_search] returns, without touching the
    state, one entry for each program hit, then one for each news hit, then
    for each event hit, then for each partnership hit, in the order of the
    hits; a section that does not take part has no hits and no section has
    more than five, however many records match; the entry of a hit has
    exactly the keys [type], [id], [title], [description], [url], with the
    type of its section, the identifier and the title of the hit, the first
    200 characters of its text and the address of its page; [total] is the
    length of the list; with no hit at all the answer is the empty list and
    0. *)
Theorem search_results q sections st :
  regex_valid q = true → hits_presentable q sections st = true →
  ∃ resp programs news events partnerships,
    global_search q sections st = (Ok resp, st)
    ∧ results resp = programs ++ news ++ events ++ partnerships
    ∧ results_total resp = Z.of_nat (length (results resp))
    ∧ Forall2 (is_entry "program" "/student-mobility/programs/" "title" "description")
        (program_hits q sections st) programs
    ∧ Forall2 (is_entry "news" "/news-media/" "title" "content")
        (news_hits q sections st) news
    ∧ Forall2 (is_entry "event" "/visits-delegations-events/" "title" "description")
        (event_hits q sections st) events
    ∧ Forall2 (is_entry "partnership" "/global-partnerships/" "partnerName" "details")
        (partnership_hits q sections st) partnerships
    ∧ (length programs ≤ 5 ∧ length news ≤ 5
       ∧ length events ≤ 5 ∧ length partnerships ≤ 5)%nat
    ∧ Forall (search_entry "program") programs
    ∧ Forall (search_entry "news") news
    ∧ Forall (search_entry "event") events
    ∧ Forall (search_entry "partnership") partnerships
    ∧ (program_hits q sections st = [] → news_hits q sections st = [] →
       event_hits q sections st = [] → partnership_hits q sections st = [] →
       results resp = [] ∧ results_total resp = 0).
Proof.
  intros Hq Hhits. unfold hits_presentable in Hhits.
  apply andb_prop in Hhits as [Hhits Hpa].
  apply andb_prop in Hhits as [Hhits He].
  apply andb_prop in Hhits as [Hp Hn].
  destruct (mapM_ok _ _ _ program_result_ok Hp) as [programs HP].
  destruct (mapM_ok _ _ _ news_result_ok Hn) as [news HN].
  destruct (mapM_ok _ _ _ event_result_ok He) as [events HE].
  destruct (mapM_ok _ _ _ partnership_result_ok Hpa) as [partnerships HPa].
  eexists _, programs, news, events, partnerships.
  split.
  { unfold global_search, bind. rewrite !search_in_run by done.
    fold (program_hits q sections st) (news_hits q sections st)
         (event_hits q sections st) (partnership_hits q sections st).
    rewrite HP, HN, HE, HPa. reflexivity. }
  cbn [results results_total].
  rewrite <- !(assoc_L (++)). simpl.
  pose proof (mapM_length _ _ _ HP) as LP. pose proof (mapM_length _ _ _ HN) as LN.
  pose proof (mapM_length _ _ _ HE) as LE. pose proof (mapM_length _ _ _ HPa) as LPa.
  split_and!; try done.
  - eapply mapM_Forall2; [|exact HP].
    intros hit e (s & ->)%section_hits_stored. apply program_result_is_entry.
  - eapply mapM_Forall2; [|exact HN]. intros hit e _. apply news_result_is_entry.
  - eapply mapM_Forall2; [|exact HE]. intros hit e _. apply event_result_is_entry.
  - eapply mapM_Forall2; [|exact HPa].
    intros hit e _. apply partnership_result_is_entry.
  - rewrite LP. apply section_hits_length.
  - rewrite LN. apply section_hits_length.
  - rewrite LE. apply section_hits_length.
  - rewrite LPa. apply section_hits_length.
  - eapply mapM_Forall; [apply program_result_entry | done].
  - eapply mapM_Forall; [apply news_result_entry | done].
  - eapply mapM_Forall; [apply event_result_entry | done].
  - eapply mapM_Forall; [apply partnership_result_entry | done].
  - intros E1 E2 E3 E4. rewrite E1 in LP. rewrite E2 in LN. rewrite E3 in LE.
    rewrite E4 in LPa.
    destruct programs, news, events, partnerships; simpl in *; done.
Qed.

End SearchProperties.

(** Two searches of the sample data: one program matches ["zurich"], and the
    one entry carries its identifier, its title and the address of its page;
    nothing matches ["xyzzynomatch"]. *)
Lemma search_results_witness :
  (∃ resp e, global_search "zurich" None sample_state = (Ok resp, sample_state)
             ∧ results resp = [e]
             ∧ results_total resp = 1
             ∧ e !! "id" = Some (VStr "p3")
             ∧ e !! "title" = Some (VStr "Computer Science & AI - ETH Zurich")
             ∧ e !! "url" = Some (VStr "/student-mobility/programs/p3"))
  ∧ (∃ resp, global_search "xyzzynomatch" None sample_state = (Ok resp, sample_state)
             ∧ results resp = [] ∧ results_total resp = 0).
Proof.
  split.
  - destruct (search_results "zurich" None sample_state)
      as (resp & P & N & E & Pa & Hrun & Hres & Htot & HP & HN & HE & HPa & _);
      [reflexivity | vm_compute; reflexivity |].
    match type of HP with
    | Forall2 _ ?l _ => let v := eval vm_compute in l in change l with v in HP
    end.
    match type of HN with
    | Forall2 _ ?l _ => let v := eval vm_compute in l in change l with v in HN
    end.
    match type of HE with
    | Forall2 _ ?l _ => let v := eval vm_compute in l in change l with v in HE
    end.
    match type of HPa with
    | Forall2 _ ?l _ => let v := eval vm_compute in l in change l with v in HPa
    end.
    apply Forall2_nil_inv_l in HN as ->. apply Forall2_nil_inv_l in HE as ->.
    apply Forall2_nil_inv_l in HPa as ->.
    apply Forall2_cons_inv_l in HP as (e & rest & Hentry & Hrest & ->).
    apply Forall2_nil_inv_l in Hrest as ->.
    rewrite !app_nil_r in Hres.
    destruct Hentry as (id & title & text & short & Hid & Htitle & _ & _ & _ & _
                        & Heid & Hetitle & _ & Hurl).
    vm_compute in Hid. injection Hid as <-.
    vm_compute in Htitle. injection Htitle as <-.
    exists resp, e. split; [exact Hrun|].
    split_and!; [exact Hres | by rewrite Htot, Hres | exact Heid | exact Hetitle
                | exact Hurl].
  - destruct (search_results "xyzzynomatch" None sample_state)
      as (resp & P & N & E & Pa & Hrun & _ & _ & _ & _ & _ & _ & _ & _ & _ & _ & _
          & Hnone); [reflexivity | vm_compute; reflexivity |].
    exists resp. split; [exact Hrun|].
    apply Hnone; vm_compute; reflexivity.
Defined.

(** The query is handed to the store as a pattern as it is typed: the two
    characters [((] open two groups and close none, the store refuses the
    pattern, and the search returns nothing. *)
Lemma search_refuses_open_group :
  String.length "((" = 2%nat
  ∧ (@global_search grouping_engine "((" None sample_state).1
    = Raise OperationFailure
  ∧ (@global_search grouping_engine "((" (Some ["news"]) sample_state).1
    = Raise OperationFailure.
Proof. split_and!; vm_compute; reflexivity. Qed.

Section GateProperties.
Variable SECRET_KEY : string.

Lemma verify_token_state credentials now st :
  (verify_token SECRET_KEY credentials now st).2 = st.
Proof.
  unfold verify_token, try_except, bind, lift, jwt_decode, raise, ret.
  destruct credentials as [raw|alg key payload]; [done|].
  destruct (negb _); [done|]. destruct (negb _); [done|].
  destruct (exp payload) as [e|]; [destruct (e * 1000 <=? now); [done|]|];
    by destruct (sub payload).
Qed.

Lemma verify_token_expired alg key payload e now st :
  exp payload = Some e → e * 1000 < now →
  ∃ detail, verify_token SECRET_KEY (Signed alg key payload) now st
            = (Raise (HTTPException 401 detail), st).
Proof.
  intros He Hpast.
  unfold verify_token, try_except, bind, lift, jwt_decode, raise, ret.
  destruct (negb (bool_decide _)); [by eexists|].
  destruct (negb (String.eqb _ _)); [by eexists|].
  rewrite He. assert ((e * 1000 <=? now) = true) as -> by (apply Z.leb_le; lia).
  by eexists.
Qed.

Lemma verify_token_accepts payload u now st :
  sub payload = Some u → (∀ e, exp payload = Some e → now < e * 1000) →
  verify_token SECRET_KEY (Signed ALGORITHM SECRET_KEY payload) now st = (Ok u, st).
Proof.
  intros Hu Hexp.
  unfold verify_token, try_except, bind, lift, jwt_decode, raise, ret.
  rewrite bool_decide_true by constructor. rewrite String.eqb_refl. simpl.
  destruct (exp payload) as [e|] eqn:He.
  - assert ((e * 1000 <=? now) = false) as ->
      by (apply Z.leb_gt; by apply Hexp).
    by rewrite Hu.
  - by rewrite Hu.
Qed.

(** C8. Verification rejects, with status 401 and whatever the signature,
    a token whose expiry is in the past, and so does every endpoint that
    depends on it, before running its body; it accepts a token signed with
    the key and the algorithm of the application, not expired and carrying a
    subject, and returns that subject; its outcome is the same in any two
    states, so it does not depend on [active_admin_sessions]; and after
    [admin_logout] has removed the subject from that set, the same token is
    still accepted. *)
Theorem admin_gate :
  (∀ alg key payload e now st,
     exp payload = Some e → e * 1000 < now →
     (∃ detail, verify_token SECRET_KEY (Signed alg key payload) now st
                = (Raise (HTTPException 401 detail), st))
     ∧ (∀ A (endpoint : string → M A),
          ∃ detail,
            bind (verify_token SECRET_KEY (Signed alg key payload) now) endpoint st
            = (Raise (HTTPException 401 detail), st)))
  ∧ (∀ payload u now st,
       sub payload = Some u → (∀ e, exp payload = Some e → now < e * 1000) →
       verify_token SECRET_KEY (Signed ALGORITHM SECRET_KEY payload) now st = (Ok u, st))
  ∧ (∀ credentials now st st',
       (verify_token SECRET_KEY credentials now st).1
       = (verify_token SECRET_KEY credentials now st').1)
  ∧ (∀ payload u now later st,
       sub payload = Some u →
       (∀ e, exp payload = Some e → now < e * 1000 ∧ later < e * 1000) →
       ∃ st1,
         admin_logout SECRET_KEY (Signed ALGORITHM SECRET_KEY payload) now st
         = (Ok "Logged out successfully", st1)
         ∧ (u ∉ active_admin_sessions st1)
         ∧ verify_token SECRET_KEY (Signed ALGORITHM SECRET_KEY payload) later st1
           = (Ok u, st1)).
Proof.
  split_and!.
  - intros alg key payload e now st He Hpast.
    destruct (verify_token_expired alg key payload e now st He Hpast) as [detail Hv].
    split; [by exists detail|].
    intros A endpoint. exists detail. unfold bind. by rewrite Hv.
  - apply verify_token_accepts.
  - intros credentials now st st'.
    unfold verify_token, try_except, bind, lift, jwt_decode, raise, ret.
    destruct credentials as [raw|alg key payload]; [done|].
    destruct (negb _); [done|]. destruct (negb _); [done|].
    destruct (exp payload) as [e|]; [destruct (e * 1000 <=? now); [done|]|];
      by destruct (sub payload).
  - intros payload u now later st Hu Hexp.
    unfold admin_logout, bind.
    rewrite (verify_token_accepts payload u now st Hu)
      by (intros e He; by apply Hexp).
    eexists. split; [reflexivity|]. split.
    { simpl. intros [_ Hn]%elem_of_difference. apply Hn. by apply elem_of_singleton. }
    apply verify_token_accepts; [done|]. intros e He. by apply Hexp.
Qed.

End GateProperties.

(** A token for [admin] that expires at second 3600, presented at second
    100: accepted, also after the logout that drops [admin] from the
    sessions; presented at second 4000: rejected. *)
Lemma admin_gate_witness :
  let token := Signed ALGORITHM "k" {| sub := Some "admin"; exp := Some 3600 |} in
  (∃ st1, admin_logout "k" token 100000 sample_state
          = (Ok "Logged out successfully", st1)
          ∧ ("admin" ∉ active_admin_sessions st1)
          ∧ verify_token "k" token 200000 st1 = (Ok "admin", st1))
  ∧ (∃ detail, verify_token "k" token 4000000 sample_state
               = (Raise (HTTPException 401 detail), sample_state)).
Proof.
  destruct (admin_gate "k") as (Hexpired & _ & _ & Hlogout).
  split.
  - apply (Hlogout _ "admin" 100000 200000 sample_state); [reflexivity|].
    intros e He. injection He as <-. lia.
  - apply (Hexpired _ _ _ 3600 4000000 sample_state); [reflexivity | lia].
Defined.

Section UpdateProperties.
Context `{!Engine}.

Lemma drop_none_Some (d : document) k v :
  d !! k = Some v → v ≠ VNone → drop_none d !! k = Some v.
Proof. intros Hk Hv. unfold drop_none. by apply map_lookup_filter_Some_2. Qed.

Lemma drop_none_None (d : document) k :
  d !! k = None ∨ d !! k = Some VNone → drop_none d !! k = None.
Proof.
  intros Hk. unfold drop_none. apply map_lookup_filter_None_2.
  destruct Hk as [Hk|Hk]; [by left|]. right. intros v Hv Hne. simpl in Hne.
  congruence.
Qed.

Lemma drop_none_idemp (d : document) : drop_none (drop_none d) = drop_none d.
Proof.
  apply map_eq. intros k. destruct (drop_none d !! k) as [v|] eqn:Hk.
  - apply drop_none_Some; [done|].
    unfold drop_none in Hk. by apply map_lookup_filter_Some in Hk as [_ Hne].
  - apply drop_none_None. by left.
Qed.

Lemma stamped_updatedAt payload now :
  stamped payload now !! "updatedAt" = Some (VDate now).
Proof. unfold stamped. apply drop_none_Some; [apply lookup_insert_eq | done]. Qed.

Lemma stamped_Some payload now k v :
  k ≠ "updatedAt" → payload !! k = Some v → v ≠ VNone →
  stamped payload now !! k = Some v.
Proof.
  intros Hk Hv Hne. unfold stamped.
  apply drop_none_Some; [by rewrite lookup_insert_ne | done].
Qed.

Lemma stamped_None payload now k :
  k ≠ "updatedAt" → payload !! k = None ∨ payload !! k = Some VNone →
  stamped payload now !! k = None.
Proof.
  intros Hk Hv. unfold stamped. apply drop_none_None.
  by rewrite lookup_insert_ne.
Qed.

Lemma stamped_drop_none payload now :
  stamped (drop_none payload) now = stamped payload now.
Proof.
  apply map_eq. intros k. destruct (decide (k = "updatedAt")) as [->|Hk].
  - by rewrite !stamped_updatedAt.
  - destruct (payload !! k) as [v|] eqn:Hv;
      [destruct (decide (v = VNone)) as [->|Hne]|].
    + rewrite !stamped_None; [done | done | by right | done |].
      left. apply drop_none_None. by right.
    + rewrite !stamped_Some with (v := v); try done. by apply drop_none_Some.
    + rewrite !stamped_None; [done | done | by left | done |].
      left. apply drop_none_None. by left.
Qed.

Lemma set_fields_same upd s : set_fields upd s = s ↔ upd ⊆ body s.
Proof.
  destruct s as [o b]. unfold set_fields. simpl. split.
  - intros Hs. injection Hs as Hb. rewrite <- Hb. apply map_union_subseteq_l.
  - intros Hsub. f_equal. by apply map_subseteq_union.
Qed.

Lemma key_lookup_set_fields key upd s :
  key ≠ "_id" → upd !! key = None →
  as_dict (set_fields upd s) !! key = as_dict s !! key.
Proof.
  intros Hk Hu. unfold as_dict, set_fields. simpl.
  rewrite !lookup_insert_ne by done. by apply lookup_union_r.
Qed.

Lemma matches_set_fields key id upd s :
  key ≠ "_id" → upd !! key = None →
  matches (by_key key id) (set_fields upd s) = matches (by_key key id) s.
Proof.
  intros Hk Hu. unfold matches, by_key. simpl.
  by rewrite key_lookup_set_fields.
Qed.

Lemma filter_head_split q l s :
  head (List.filter (matches q) l) = Some s →
  ∃ pre post, l = pre ++ s :: post ∧ List.filter (matches q) pre = []
              ∧ matches q s = true.
Proof.
  induction l as [|x l IH]; simpl; [done|].
  destruct (matches q x) eqn:Hx; simpl.
  - intros [= ->]. by exists [], l.
  - intros Hs. destruct (IH Hs) as (pre & post & -> & Hpre & Hm).
    exists (x :: pre), post. simpl. by rewrite Hx.
Qed.

Lemma coll_update_one_none q upd l :
  List.filter (matches q) l = [] →
  coll_update_one q upd l = (l, {| matched_count := 0; modified_count := 0 |}).
Proof.
  induction l as [|x l IH]; simpl; [done|].
  destruct (matches q x); [done|]. intros Hl. by rewrite IH.
Qed.

Lemma coll_update_one_split q upd pre s post :
  List.filter (matches q) pre = [] → matches q s = true →
  coll_update_one q upd (pre ++ s :: post)
  = (pre ++ set_fields upd s :: post,
     {| matched_count := 1;
        modified_count := if decide (set_fields upd s = s) then 0 else 1 |}).
Proof.
  intros Hpre Hs. induction pre as [|x pre IH]; simpl.
  - by rewrite Hs.
  - simpl in Hpre. destruct (matches q x); [done|]. by rewrite (IH Hpre).
Qed.

Lemma filter_after_update q pre s' post :
  List.filter (matches q) pre = [] → matches q s' = true →
  head (List.filter (matches q) (pre ++ s' :: post)) = Some s'.
Proof. intros Hpre Hs. by rewrite List.filter_app, Hpre; simpl; rewrite Hs. Qed.

Lemma key_of_not_oid r : key_of r ≠ "_id".
Proof. by destruct r. Qed.

Lemma key_of_not_stamp r : key_of r ≠ "updatedAt".
Proof. by destruct r. Qed.

Lemma update_of_stamped r update :
  update_of r = Some update →
  update = update_stamped (collection_of r) (key_of r).
Proof. destruct r; simpl; intros Hu; by inversion Hu. Qed.

(** What [update_one] followed by the re-fetch does, for a [$set] that does
    not touch the key: nothing is found, or the first record with the id is
    rewritten in place and found again under the same id. *)
Lemma update_one_then_get r id upd st :
  upd !! key_of r = None →
  ∃ st',
    update_one (collection_of r) (by_key (key_of r) id) upd st
    = (Ok (store_report r id upd st), st')
    ∧ match head (selected r id st) with
      | None =>
          modified_count (store_report r id upd st) = 0 ∧ same_state st st'
          ∧ get_by (collection_of r) (key_of r) id st' = (Ok None, st')
      | Some s =>
          modified_count (store_report r id upd st)
          = (if decide (set_fields upd s = s) then 0 else 1)
          ∧ head (selected r id st') = Some (set_fields upd s)
          ∧ (set_fields upd s = s → same_state st st')
          ∧ get_by (collection_of r) (key_of r) id st'
            = (Ok (Some (stringify_id (as_dict (set_fields upd s)))), st')
      end.
Proof.
  intros Hkey. unfold update_one, store_report, selected, get_by, bind, find_one, ret,
    coll_find_one.
  destruct (head (List.filter _ (db st _))) as [s|] eqn:Hhead.
  - destruct (filter_head_split _ _ _ Hhead) as (pre & post & Hl & Hpre & Hs).
    rewrite Hl, (coll_update_one_split _ _ _ _ _ Hpre Hs).
    eexists. split; [reflexivity|]. cbn [snd].
    rewrite db_set_coll_eq.
    assert (matches (by_key (key_of r) id) (set_fields upd s) = true) as Hs'.
    { rewrite matches_set_fields; [done | apply key_of_not_oid | done]. }
    rewrite (filter_after_update _ _ _ _ Hpre Hs'). simpl.
    split_and!; try done.
    intros ->. rewrite <- Hl. apply same_state_set_coll.
  - assert (List.filter (matches (by_key (key_of r) id)) (db st (collection_of r)) = [])
      as Hnil by (by destruct (List.filter _ _)).
    rewrite (coll_update_one_none _ _ _ Hnil).
    eexists. split; [reflexivity|]. simpl.
    rewrite decide_True by done. rewrite Hnil. simpl.
    split_and!; try done. apply same_state_set_coll.
Qed.

Lemma update_stamped_run r id payload now st :
  payload !! key_of r = None →
  ∃ st',
    match head (selected r id st) with
    | None =>
        update_stamped (collection_of r) (key_of r) id payload now st = (Ok None, st')
        ∧ modified_count (store_report r id (stamped payload now) st) = 0
        ∧ same_state st st'
    | Some s =>
        head (selected r id st') = Some (set_fields (stamped payload now) s)
        ∧ if decide (stamped payload now ⊆ body s)
          then update_stamped (collection_of r) (key_of r) id payload now st
               = (Ok None, st')
               ∧ modified_count (store_report r id (stamped payload now) st) = 0
               ∧ same_state st st'
          else update_stamped (collection_of r) (key_of r) id payload now st
               = (Ok (Some (stringify_id
                              (as_dict (set_fields (stamped payload now) s)))), st')
               ∧ modified_count (store_report r id (stamped payload now) st) = 1
    end.
Proof.
  intros Hkey.
  assert (stamped payload now !! key_of r = None) as Hkey'.
  { apply stamped_None; [apply key_of_not_stamp | by left]. }
  destruct (update_one_then_get r id (stamped payload now) st Hkey')
    as (st' & Hrun & Hcase).
  exists st'. unfold update_stamped, bind. fold (stamped payload now). rewrite Hrun.
  destruct (head (selected r id st)) as [s|].
  - destruct Hcase as (Hmod & Hhead & Hsame & Hget). split; [done|].
    rewrite Hmod.
    destruct (decide (stamped payload now ⊆ body s)) as [Hsub|Hsub].
    + rewrite decide_True by (by apply set_fields_same). simpl.
      split_and!; [done | done |]. apply Hsame. by apply set_fields_same.
    + rewrite decide_False by (by rewrite set_fields_same). simpl. by rewrite Hget.
  - destruct Hcase as (Hmod & Hsame & _). by rewrite Hmod.
Qed.

(** C2, as the code has it. For a payload without the key field: an update
    that stamps [updatedAt] returns the record exactly when the store
    reports a modification, that is, when a record has the id and some field
    of the payload, once stamped and rid of [None] values, is not already
    stored with that value ([⊆] fails); the record returned is the stored
    one after the update, found again under the id; [None] comes with an
    untouched state; and the payload handed to the store always carries the
    stamp, so it is never empty.  The gallery update returns the record
    after the update whenever the id exists, modified or not, and [None]
    when it does not. *)
Theorem update_outcome :
  (∀ r update id payload now st,
     update_of r = Some update → payload !! key_of r = None →
     ∃ out st',
       update id payload now st = (Ok out, st')
       ∧ (is_Some out
          ↔ 1 ≤ modified_count (store_report r id (stamped payload now) st))
       ∧ (is_Some out
          ↔ ∃ s, head (selected r id st) = Some s ∧ ¬ stamped payload now ⊆ body s)
       ∧ (∀ d, out = Some d →
            ∃ s, head (selected r id st) = Some s
                 ∧ d = stringify_id (as_dict (set_fields (stamped payload now) s))
                 ∧ head (selected r id st') = Some (set_fields (stamped payload now) s))
       ∧ (out = None → same_state st st')
       ∧ stamped payload now !! "updatedAt" = Some (VDate now))
  ∧ (∀ id payload st,
       payload !! "id" = None →
       ∃ out st',
         update_gallery_image id payload st = (Ok out, st')
         ∧ match head (selected Gallery id st) with
           | Some s =>
               out = Some (stringify_id (as_dict (set_fields (drop_none payload) s)))
           | None => out = None
           end).
Proof.
  split.
  - intros r update id payload now st Hupd Hkey.
    rewrite (update_of_stamped _ _ Hupd).
    destruct (update_stamped_run r id payload now st Hkey) as (st' & Hcase).
    destruct (head (selected r id st)) as [s|].
    + destruct Hcase as (Hhead & Hcase).
      destruct (decide (stamped payload now ⊆ body s)) as [Hsub|Hsub].
      * destruct Hcase as (-> & -> & Hsame). exists None, st'.
        split_and!;
          [ done
          | split; [by intros [? ?] | intros ?; exfalso; lia]
          | split; [by intros [? ?] | by intros (s' & [= <-] & Hn)]
          | done | done | apply stamped_updatedAt ].
      * destruct Hcase as (-> & ->). eexists (Some _), st'.
        split_and!;
          [ done
          | split; [intros _; lia | by eexists]
          | split; [by exists s | by eexists]
          | intros d [= <-]; by exists s
          | done | apply stamped_updatedAt ].
    + destruct Hcase as (-> & -> & Hsame). exists None, st'.
      split_and!;
        [ done
        | split; [by intros [? ?] | intros ?; exfalso; lia]
        | split; [by intros [? ?] | by intros (s' & ? & ?)]
        | done | done | apply stamped_updatedAt ].
  - intros id payload st Hid.
    assert (drop_none payload !! key_of Gallery = None) as Hkey.
    { apply drop_none_None. by left. }
    destruct (update_one_then_get Gallery id (drop_none payload) st Hkey)
      as (st' & Hrun & Hcase).
    unfold update_gallery_image, bind, get_gallery_image_by_id.
    change gallery_collection with (collection_of Gallery).
    change "id" with (key_of Gallery) at 1 2 3.
    rewrite Hrun.
    destruct (head (selected Gallery id st)) as [s|].
    + destruct Hcase as (_ & _ & _ & Hget). eexists _, st'.
      split; [destruct (_ =? 0); exact Hget | done].
    + destruct Hcase as (_ & _ & Hget). eexists _, st'.
      split; [destruct (_ =? 0); exact Hget | done].
Qed.

End UpdateProperties.

(** An update of the sample program [p1] whose only field is [None], at a
    time other than the stored [updatedAt]: what is left of the payload
    after the [None] values are dropped is empty and the record exists, yet
    the record is returned, with the new stamp. *)
Lemma update_outcome_counterexample :
  drop_none {["title" := VNone]} = (∅ : document)
  ∧ is_Some (head (selected Programs "p1" sample_state))
  ∧ answered "updatedAt" (update_program "p1" {["title" := VNone]} 5000 sample_state)
    = Some (VDate 5000)
  ∧ answered "id" (update_program "p1" {["title" := VNone]} 5000 sample_state)
    = Some (VStr "p1").
Proof.
  split; [vm_compute; reflexivity|].
  split; [vm_compute; eexists; reflexivity|].
  split; vm_compute; reflexivity.
Qed.

(** The same update through the theorem, and a gallery update that changes
    nothing. *)
Lemma update_outcome_witness :
  (∃ out st', update_program "p1" {["title" := VNone]} 5000 sample_state = (Ok out, st')
              ∧ is_Some out)
  ∧ (∃ out st', update_gallery_image "g0" ∅ sample_state = (Ok out, st') ∧ out = None).
Proof.
  destruct update_outcome as [Hstamped Hgallery]. split.
  - destruct (Hstamped Programs update_program "p1" {["title" := VNone]} 5000 sample_state)
      as (out & st' & Hrun & _ & Hsome & _);
      [reflexivity | vm_compute; reflexivity |].
    exists out, st'. split; [exact Hrun|]. apply Hsome.
    eexists. split; [vm_compute; reflexivity|]. intros Hsub.
    pose proof (lookup_weaken _ _ "updatedAt" (VDate 5000)
                  (stamped_updatedAt _ _) Hsub) as Hlook.
    vm_compute in Hlook. discriminate Hlook.
  - destruct (Hgallery "g0" ∅ sample_state) as (out & st' & Hrun & Hout);
      [vm_compute; reflexivity|].
    exists out, st'. split; [exact Hrun | exact Hout].
Defined.

Section PolicyProperties.
Context `{!Engine}.
Variable SECRET_KEY : string.

Lemma stamped_applies (kept : value → Prop) payload upd now s :
  (∀ k v, k ≠ "updatedAt" → payload !! k = Some v → kept v →
     stamped upd now !! k = Some v) →
  (∀ k, k ≠ "updatedAt" → (∀ v, payload !! k = Some v → ¬ kept v) →
     stamped upd now !! k = None) →
  applies_payload kept payload now s (set_fields (stamped upd now) s).
Proof.
  intros Hkept Hdropped. unfold applies_payload, set_fields. simpl.
  split_and!; [done | | |].
  - intros k v Hk Hv Hkv. apply lookup_union_Some_l. by eapply Hkept.
  - intros k Hk Hv. apply lookup_union_r. by apply Hdropped.
  - apply lookup_union_Some_l, stamped_updatedAt.
Qed.

Lemma default_applies payload now s :
  applies_payload (λ v, v ≠ VNone) payload now s (set_fields (stamped payload now) s).
Proof.
  apply stamped_applies.
  - intros k v Hk Hv Hne. by apply stamped_Some.
  - intros k Hk Hv. apply stamped_None; [done|].
    destruct (payload !! k) as [v|] eqn:Hkv; [right | by left].
    destruct (decide (v = VNone)) as [->|Hne]; [done|]. by destruct (Hv v).
Qed.

Lemma refined_applies (payload : document) now s :
  applies_payload (λ v, not_none_not_blank v = true) payload now s
    (set_fields (stamped (filter (λ kv, not_none_not_blank kv.2) payload) now) s).
Proof.
  apply stamped_applies.
  - intros k v Hk Hv Hkept. apply stamped_Some; [done | |].
    + apply map_lookup_filter_Some_2; [done|]. simpl. by rewrite Hkept.
    + intros ->. discriminate Hkept.
  - intros k Hk Hv. apply stamped_None; [done|]. left.
    apply map_lookup_filter_None_2.
    destruct (payload !! k) as [v|] eqn:Hkv; [right | by left].
    intros v' [= <-] Hkept. simpl in Hkept. apply (Hv v eq_refl).
    by destruct (not_none_not_blank v).
Qed.

Lemma gated_update_run {A} credentials now user detail missing
    (update : M (option A)) out st st' :
  verify_token SECRET_KEY credentials now st = (Ok user, st) →
  update st = (Ok out, st') →
  bind (verify_token SECRET_KEY credentials now)
    (λ _, guarded detail
            (bind update
               (λ o, match o with
                     | None => raise (HTTPException 404 missing)
                     | Some d => ret d
                     end))) st
  = (match out with Some d => Ok d | None => Raise (HTTPException 404 missing) end,
     st').
Proof.
  intros Hgate Hupd. unfold bind, guarded, try_except. rewrite Hgate, Hupd.
  by destruct out.
Qed.

(** The new stamp is the reading of the clock, so it is not before another
    time exactly when the reading is not. *)
Lemma stamp_against s' now t :
  body s' !! "updatedAt" = Some (VDate now) →
  (∃ t', body s' !! "updatedAt" = Some (VDate t') ∧ t ≤ t') ↔ t ≤ now.
Proof.
  intros Hs'. split.
  - intros (t' & Ht' & Hle). rewrite Hs' in Ht'. by injection Ht' as <-.
  - intros Hle. by exists now.
Qed.

(** The stored record after an update that stamps [updatedAt], whatever the
    store reported. *)
Lemma update_stamped_stored r id payload now st s :
  payload !! key_of r = None → head (selected r id st) = Some s →
  ∃ out st',
    update_stamped (collection_of r) (key_of r) id payload now st = (Ok out, st')
    ∧ head (selected r id st') = Some (set_fields (stamped payload now) s)
    ∧ (¬ stamped payload now ⊆ body s →
       out = Some (stringify_id (as_dict (set_fields (stamped payload now) s)))).
Proof.
  intros Hkey Hs.
  destruct (update_stamped_run r id payload now st Hkey) as (st' & Hcase).
  rewrite Hs in Hcase. destruct Hcase as (Hhead & Hcase).
  destruct (decide (stamped payload now ⊆ body s)) as [Hsub|Hsub].
  - destruct Hcase as (-> & _). by exists None, st'.
  - destruct Hcase as (-> & _). by eexists (Some _), st'.
Qed.

(** C3. Under the default policy, for every update operation that stamps
    [updatedAt] and for the route [update_program_admin] (once the gate has
    let the request in), on an existing record and with a payload without
    the key field: the operation returns or raises, and afterwards the first
    record with the id is the old one in which every payload field whose
    value is not [None] has that value, every other field except
    [updatedAt] is as it was, in particular one sent as [None], and
    [updatedAt] is the reading of the clock at the update, whatever the
    previous stamp was: it is not before the previous stamp exactly when
    that reading is not. *)
Theorem default_update_policy :
  (∀ r update id payload now st s,
     update_of r = Some update →
     head (selected r id st) = Some s → payload !! key_of r = None →
     ∃ out st' s',
       update id payload now st = (Ok out, st')
       ∧ head (selected r id st') = Some s'
       ∧ applies_payload (λ v, v ≠ VNone) payload now s s'
       ∧ (∀ t, body s !! "updatedAt" = Some (VDate t) →
            (∃ t', body s' !! "updatedAt" = Some (VDate t') ∧ t ≤ t') ↔ t ≤ now))
  ∧ (∀ credentials user program_id program now st s,
       verify_token SECRET_KEY credentials now st = (Ok user, st) →
       head (selected Programs program_id st) = Some s → program !! "id" = None →
       ∃ res st' s',
         update_program_admin SECRET_KEY program_id program credentials now st
         = (res, st')
         ∧ head (selected Programs program_id st') = Some s'
         ∧ applies_payload (λ v, v ≠ VNone) program now s s'
         ∧ (∀ t, body s !! "updatedAt" = Some (VDate t) →
              (∃ t', body s' !! "updatedAt" = Some (VDate t') ∧ t ≤ t') ↔ t ≤ now)).
Proof.
  split.
  - intros r update id payload now st s Hupd Hs Hkey.
    rewrite (update_of_stamped _ _ Hupd).
    destruct (update_stamped_stored r id payload now st s Hkey Hs)
      as (out & st' & Hrun & Hhead & _).
    exists out, st', (set_fields (stamped payload now) s).
    pose proof (default_applies payload now s) as Happ.
    split_and!; [done | done | done |].
    intros t _. apply stamp_against, Happ.
  - intros credentials user program_id program now st s Hgate Hs Hid.
    assert (drop_none program !! key_of Programs = None) as Hkey.
    { apply drop_none_None. by left. }
    destruct (update_stamped_stored Programs program_id (drop_none program) now st s
                Hkey Hs) as (out & st' & Hrun & Hhead & _).
    rewrite stamped_drop_none in Hhead.
    eexists _, st', (set_fields (stamped program now) s).
    pose proof (default_applies program now s) as Happ.
    split_and!; [| done | done |].
    + unfold update_program_admin.
      by apply (gated_update_run _ _ user _ _ _ out).
    + intros t _. apply stamp_against, Happ.
Qed.

Lemma strip_blank s : blank s = true → strip s = "".
Proof.
  intros Hs. unfold strip.
  assert (lstrip s = "") as ->; [|reflexivity].
  induction s as [|c s IH]; simpl in *; [done|].
  apply andb_prop in Hs as [-> Hs]. by apply IH.
Qed.

(** C4. The routes [update_news_admin] and [update_event_admin] keep a
    payload value exactly when it is not [None] and, if it is a string, has
    something left after [strip()]: [None] and a string of whitespace only
    (the empty string too) are dropped, [False], [0] and every other value
    that is not a string are kept.  Once the gate has let the request in,
    on an existing record and with a payload without an [id] field, the
    route returns or raises, and afterwards the first record with the id is
    the old one in which every kept payload field has its payload value and
    every other field except [updatedAt] is as it was. *)
Theorem refined_update_policy :
  (not_none_not_blank VNone = false
   ∧ (∀ str, blank str = true → not_none_not_blank (VStr str) = false)
   ∧ (∀ str, strip str ≠ "" → not_none_not_blank (VStr str) = true)
   ∧ not_none_not_blank (VBool false) = true
   ∧ not_none_not_blank (VInt 0) = true
   ∧ (∀ v, v ≠ VNone → is_str v = false → not_none_not_blank v = true))
  ∧ (∀ credentials user news_id news now st s,
       verify_token SECRET_KEY credentials now st = (Ok user, st) →
       head (selected News news_id st) = Some s → news !! "id" = None →
       ∃ res st' s',
         update_news_admin SECRET_KEY news_id news credentials now st = (res, st')
         ∧ head (selected News news_id st') = Some s'
         ∧ applies_payload (λ v, not_none_not_blank v = true) news now s s')
  ∧ (∀ credentials user event_id event now st s,
       verify_token SECRET_KEY credentials now st = (Ok user, st) →
       head (selected Events event_id st) = Some s → event !! "id" = None →
       ∃ res st' s',
         update_event_admin SECRET_KEY event_id event credentials now st = (res, st')
         ∧ head (selected Events event_id st') = Some s'
         ∧ applies_payload (λ v, not_none_not_blank v = true) event now s s').
Proof.
  split_and!.
  - reflexivity.
  - intros str Hb. unfold not_none_not_blank. simpl. by rewrite (strip_blank _ Hb).
  - intros str Hs. unfold not_none_not_blank. simpl.
    apply String.eqb_neq in Hs. by rewrite Hs.
  - reflexivity.
  - reflexivity.
  - intros v Hv Hstr. unfold not_none_not_blank.
    rewrite bool_decide_true by done. by rewrite Hstr.
  - intros credentials user news_id news now st s Hgate Hs Hid.
    set (kept := filter (λ kv : string * value, not_none_not_blank kv.2) news).
    assert (kept !! key_of News = None) as Hkey.
    { apply map_lookup_filter_None_2. by left. }
    destruct (update_stamped_stored News news_id kept now st s Hkey Hs)
      as (out & st' & Hrun & Hhead & _).
    eexists _, st', _. split_and!; [| exact Hhead | apply refined_applies].
    unfold update_news_admin. by apply (gated_update_run _ _ user _ _ _ out).
  - intros credentials user event_id event now st s Hgate Hs Hid.
    set (kept := filter (λ kv : string * value, not_none_not_blank kv.2) event).
    assert (kept !! key_of Events = None) as Hkey.
    { apply map_lookup_filter_None_2. by left. }
    destruct (update_stamped_stored Events event_id kept now st s Hkey Hs)
      as (out & st' & Hrun & Hhead & _).
    eexists _, st', _. split_and!; [| exact Hhead | apply refined_applies].
    unfold update_event_admin. by apply (gated_update_run _ _ user _ _ _ out).
Qed.

End PolicyProperties.

(** The sample program [p1] updated through the route with a title sent as
    [None] and a new description: the title stays, the description and the
    stamp change. *)
Lemma default_update_policy_witness :
  ∃ res st' s',
    update_program_admin "k" "p1"
      (<["title" := VNone]> {["description" := VStr "x"]}) sample_token 5000 sample_state
    = (res, st')
    ∧ head (selected Programs "p1" st') = Some s'
    ∧ body s' !! "title" = Some (VStr "Engineering Innovation - Stanford University")
    ∧ body s' !! "description" = Some (VStr "x")
    ∧ body s' !! "updatedAt" = Some (VDate 5000).
Proof.
  destruct (default_update_policy "k") as [_ Hroute].
  destruct (Hroute sample_token "admin" "p1"
              (<["title" := VNone]> {["description" := VStr "x"]}) 5000
              sample_state sample_p1)
    as (res & st' & s' & Hrun & Hhead & (_ & Hkept & Hdropped & Hstamp) & _);
    [reflexivity | vm_compute; reflexivity | vm_compute; reflexivity |].
  exists res, st', s'. split_and!; [exact Hrun | exact Hhead | | | exact Hstamp].
  - rewrite (Hdropped "title");
      [vm_compute; reflexivity | intros Heq; discriminate Heq |].
    intros v Hv. vm_compute in Hv. injection Hv as <-.
    intros Hne. exact (Hne eq_refl).
  - apply Hkept;
      [intros Heq; discriminate Heq | vm_compute; reflexivity
      | intros Heq; discriminate Heq].
Defined.

(** The stamp can go back: the sample program [p1] carries the stamp 1000;
    updated with a new description while the clock reads 500, it is stored
    with the description and the stamp 500. *)
Lemma stamp_follows_clock_back :
  stored_field Programs "p1" "updatedAt" sample_state = Some (VDate 1000)
  ∧ stored_field Programs "p1" "description"
      (update_program "p1" {["description" := VStr "x"]} 500 sample_state).2
    = Some (VStr "x")
  ∧ stored_field Programs "p1" "updatedAt"
      (update_program "p1" {["description" := VStr "x"]} 500 sample_state).2
    = Some (VDate 500)
  ∧ 500 < 1000.
Proof. split_and!; [vm_compute; reflexivity .. | lia]. Qed.

(** The sample news item [n1] updated through the route with [featured]
    sent as [False], a title of spaces and an author sent as [None]:
    [featured] becomes [False], title and author stay. *)
Lemma refined_update_policy_witness :
  ∃ res st' s',
    update_news_admin "k" "n1"
      (<["featured" := VBool false]>
         (<["title" := VStr "   "]> {["author" := VNone]}))
      sample_token 5000 sample_state
    = (res, st')
    ∧ head (selected News "n1" st') = Some s'
    ∧ body s' !! "featured" = Some (VBool false)
    ∧ body s' !! "title" = Some (VStr "New MoU Signed with Harvard University")
    ∧ body s' !! "author" = Some (VStr "OIA Team").
Proof.
  destruct (refined_update_policy "k") as (_ & Hnews & _).
  destruct (Hnews sample_token "admin" "n1"
              (<["featured" := VBool false]>
                 (<["title" := VStr "   "]> {["author" := VNone]})) 5000
              sample_state sample_n1)
    as (res & st' & s' & Hrun & Hhead & (_ & Hkept & Hdropped & _));
    [reflexivity | vm_compute; reflexivity | vm_compute; reflexivity |].
  exists res, st', s'. split_and!; [exact Hrun | exact Hhead | | |].
  - apply Hkept;
      [intros Heq; discriminate Heq | vm_compute; reflexivity | reflexivity].
  - rewrite (Hdropped "title");
      [vm_compute; reflexivity | intros Heq; discriminate Heq |].
    intros v Hv. vm_compute in Hv. injection Hv as <-.
    intros Heq. vm_compute in Heq. discriminate Heq.
  - rewrite (Hdropped "author");
      [vm_compute; reflexivity | intros Heq; discriminate Heq |].
    intros v Hv. vm_compute in Hv. injection Hv as <-.
    intros Heq. vm_compute in Heq. discriminate Heq.
Defined.

Section UploadProperties.
Context `{!Engine}.
Variable SECRET_KEY : string.

(** Where an uploaded team photo goes and what the route keeps of it: the
    file is written below [uploads/], the path returned is relative to
    [uploads]. *)
Lemma save_team_upload_file_run file file_name st :
  save_team_upload_file file file_name st
  = (Ok ("team/" +:+ file_name),
     {| db := db st; active_admin_sessions := active_admin_sessions st;
        files := {["uploads/team/" +:+ file_name]} ∪ files st |}).
Proof. reflexivity. Qed.

(** The upload paths that check the list: a content type outside
    [allowed_types] is answered with status 400 and nothing is written. *)
Lemma listed_types_only credentials user now st file :
  verify_token SECRET_KEY credentials now st = (Ok user, st) →
  content_type file ∉ Some <$> allowed_types →
  (∀ title description category order is_featured is_active file_name new_id new_oid
     uploaded,
     upload_gallery_image_admin SECRET_KEY file title description category order
       is_featured is_active file_name new_id new_oid credentials now uploaded st
     = (Raise invalid_file_type, st))
  ∧ (∀ name role bio email phone department image_url order is_leadership
       is_active file_name new_id new_oid created updated,
       create_team_member_admin SECRET_KEY (Some file) name role bio email phone
         department image_url order is_leadership is_active file_name new_id
         new_oid credentials now created updated st
       = (Raise invalid_file_type, st)).
Proof.
  intros Hgate Htype. split; intros.
  - unfold upload_gallery_image_admin, bind, guarded, try_except.
    rewrite Hgate. by rewrite bool_decide_false.
  - unfold create_team_member_admin, bind, guarded, try_except.
    rewrite Hgate. by rewrite bool_decide_false.
Qed.

End UploadProperties.

(** C5, on the sample data. A photo is uploaded for the team member [m1]
    through [update_team_member_admin]; the member is then updated with an
    empty [image_url] form field, whether or not the framework also passes
    it as the parameter.  The stored image becomes the empty string, but the
    uploaded file is still there: the route looks for it at the stored
    reference without its leading slash, [team/f1.png], while it was written
    to [uploads/team/f1.png]. *)
Theorem image_removal_leaves_file :
  let uploaded :=
    (update_team_member_admin "k" "m1" ∅ (Some sample_photo)
       None None None None None None None None None None
       "f1.png" sample_token 5000 sample_state).2 in
  let cleared image_url :=
    (update_team_member_admin "k" "m1" {["image_url" := ""]} None
       None None None None None None image_url None None None
       "unused" sample_token 6000 uploaded).2 in
  stored_field Team "m1" "image" uploaded = Some (VStr "/team/f1.png")
  ∧ (path_exists "uploads/team/f1.png" uploaded).1 = Ok true
  ∧ (path_exists "team/f1.png" uploaded).1 = Ok false
  ∧ stored_field Team "m1" "image" (cleared None) = Some (VStr "")
  ∧ (path_exists "uploads/team/f1.png" (cleared None)).1 = Ok true
  ∧ stored_field Team "m1" "image" (cleared (Some "")) = Some (VStr "")
  ∧ (path_exists "uploads/team/f1.png" (cleared (Some ""))).1 = Ok true.
Proof. repeat split; vm_compute; reflexivity. Qed.

(** C9, on the sample data. A file declared as [image/svg+xml], a type
    outside the list, sent to [update_team_member_admin]: it is saved and
    becomes the member's image, because that route only asks for a content
    type that starts with [image/].  The same file sent to
    [create_team_member_admin] or to [upload_gallery_image_admin] is
    answered with status 400 and nothing is written. *)
Theorem team_update_accepts_unlisted_type :
  let updated :=
    update_team_member_admin "k" "m1" ∅ (Some sample_drawing)
      None None None None None None None None None None
      "f2.svg" sample_token 5000 sample_state in
  let created :=
    create_team_member_admin "k" (Some sample_drawing) "name" "role" "biography"
      "" "" "" None 0 false true "f2.svg" "m2" "6560c0000000000000000002"
      sample_token 5000 5000123 5000456 sample_state in
  let uploaded :=
    upload_gallery_image_admin "k" sample_drawing "title" "" "Campus" 0 false true
      "f2.svg" "g1" "6560e0000000000000000001" sample_token 5000 5000123
      sample_state in
  bool_decide (content_type sample_drawing ∈ Some <$> allowed_types) = false
  ∧ answered "image" updated = Some (VStr "/team/f2.svg")
  ∧ (path_exists "uploads/team/f2.svg" updated.2).1 = Ok true
  ∧ created.1 = Raise invalid_file_type
  ∧ (path_exists "uploads/team/f2.svg" created.2).1 = Ok false
  ∧ uploaded.1 = Raise invalid_file_type
  ∧ (path_exists "uploads/gallery/f2.svg" uploaded.2).1 = Ok false.
Proof. repeat split; vm_compute; reflexivity. Qed.

(** * Further properties *)

Section RepositoryProperties.
Context `{!Engine}.

Lemma matches_by_key key id s :
  matches (by_key key id) s = true ↔ as_dict s !! key = Some (VStr id).
Proof.
  unfold matches, by_key. cbn [forallb clause_holds cond_holds].
  rewrite andb_true_r.
  destruct (as_dict s !! key) as [w|]; rewrite bool_decide_eq_true.
  - split; congruence.
  - split; discriminate.
Qed.

Lemma matches_other_id key id id' s :
  id' ≠ id → matches (by_key key id) s = true → matches (by_key key id') s = false.
Proof.
  intros Hne Hs. apply matches_by_key in Hs. apply not_true_is_false.
  intros Hs'. apply matches_by_key in Hs'. congruence.
Qed.

Lemma set_coll_only r l st : only_collection_differs r st (set_coll (collection_of r) l st).
Proof.
  split; [|done]. intros c Hc. by apply db_set_coll_ne.
Qed.





Lemma coll_delete_one_split q pre s post :
  List.filter (matches q) pre = [] → matches q s = true →
  coll_delete_one q (pre ++ s :: post) = (pre ++ post, 1).
Proof.
  intros Hpre Hs. induction pre as [|x pre IH]; simpl.
  - by rewrite Hs.
  - simpl in Hpre. destruct (matches q x); [done|]. by rewrite (IH Hpre).
Qed.

Lemma filter_other_id key id id' pre s s' post :
  id' ≠ id → matches (by_key key id) s = true →
  (matches (by_key key id') s' = false) →
  List.filter (matches (by_key key id')) (pre ++ s' :: post)
  = List.filter (matches (by_key key id')) (pre ++ s :: post).
Proof.
  intros Hne Hs Hs'. rewrite !List.filter_app. cbn [List.filter].
  by rewrite Hs', (matches_other_id _ _ _ _ Hne Hs).
Qed.

(** X2. Deleting an identifier that a record carries answers true and
    removes the first such record and nothing else: the records before and
    after it stay in place, the records under every other identifier are
    found as before, the other collections, the sessions and the files are
    untouched, and when the record was the only one under the identifier the
    read by that identifier then finds nothing. *)
Theorem delete_removes_one r id st s :
  first_selected r id st = Some s →
  ∃ st' pre post,
    delete_of r id st = (Ok true, st')
    ∧ db st (collection_of r) = pre ++ s :: post
    ∧ db st' (collection_of r) = pre ++ post
    ∧ (∀ id', id' ≠ id → selected r id' st' = selected r id' st)
    ∧ only_collection_differs r st st'
    ∧ (length (selected r id st) = 1%nat →
       get_by (collection_of r) (key_of r) id st' = (Ok None, st')).
Proof.
  intros Hs. unfold first_selected, selected in Hs.
  destruct (filter_head_split _ _ _ Hs) as (pre & post & Hl & Hpre & Hm).
  rewrite delete_of_by. unfold delete_by, bind, delete_one, ret.
  rewrite Hl, (coll_delete_one_split _ _ _ _ Hpre Hm). rewrite <- Hl.
  eexists _, pre, post. split; [reflexivity|].
  split_and!; [done | apply db_set_coll_eq | | apply set_coll_only |].
  - intros id' Hne. unfold selected. rewrite db_set_coll_eq, Hl.
    rewrite !List.filter_app. cbn [List.filter].
    by rewrite (matches_other_id _ _ _ _ Hne Hm).
  - intros Hone. unfold get_by, bind, find_one, ret, coll_find_one.
    rewrite db_set_coll_eq.
    unfold selected in Hone. rewrite Hl, List.filter_app in Hone.
    rewrite Hpre in Hone. cbn [app List.filter] in Hone. rewrite Hm in Hone.
    rewrite List.filter_app, Hpre. cbn [app].
    destruct (List.filter _ post); [done | simpl in Hone; lia].
Qed.

(** X3. An update that stamps [updatedAt], on an identifier that a record
    carries and with a payload without the key field, rewrites the first
    such record in place and touches nothing else: the collection keeps its
    length and order, the records under every other identifier are found as
    before, and the other collections, the sessions and the files are
    untouched. *)
Theorem update_touches_one r update id payload now st s :
  update_of r = Some update → payload !! key_of r = None →
  first_selected r id st = Some s →
  ∃ out st' pre post,
    update id payload now st = (Ok out, st')
    ∧ db st (collection_of r) = pre ++ s :: post
    ∧ db st' (collection_of r) = pre ++ set_fields (stamped payload now) s :: post
    ∧ (∀ id', id' ≠ id → selected r id' st' = selected r id' st)
    ∧ only_collection_differs r st st'.
Proof.
  intros Hupd Hkey Hs. rewrite (update_of_stamped _ _ Hupd).
  unfold first_selected, selected in Hs.
  destruct (filter_head_split _ _ _ Hs) as (pre & post & Hl & Hpre & Hm).
  assert (stamped payload now !! key_of r = None) as Hkey'.
  { apply stamped_None; [apply key_of_not_stamp | by left]. }
  assert (matches (by_key (key_of r) id) (set_fields (stamped payload now) s) = true)
    as Hm'.
  { rewrite matches_set_fields; [done | apply key_of_not_oid | done]. }
  unfold update_stamped, bind, update_one. fold (stamped payload now).
  rewrite Hl, (coll_update_one_split _ _ _ _ _ Hpre Hm). rewrite <- Hl.
  set (st' := set_coll _ _ st).
  assert (∃ out, (if modified_count
                       {| matched_count := 1;
                          modified_count :=
                            if decide (set_fields (stamped payload now) s = s)
                            then 0 else 1 |} =? 0
                  then ret None
                  else get_by (collection_of r) (key_of r) id) st' = (Ok out, st'))
    as [out Hout].
  { destruct (_ =? 0); [by eexists|].
    unfold get_by, bind, find_one, ret. by eexists. }
  exists out, st', pre, post. split; [exact Hout|].
  split_and!; [done | apply db_set_coll_eq | | apply set_coll_only].
  intros id' Hne. unfold selected, st'. rewrite db_set_coll_eq, Hl.
  apply filter_other_id with (id := id); [done | done |].
  by apply (matches_other_id _ id).
Qed.

End RepositoryProperties.


(** The sample program [p1] deleted: the read by [p1] then finds nothing,
    and [p2] is found as before. *)
Lemma delete_removes_one_witness :
  ∃ st', delete_program "p1" sample_state = (Ok true, st')
         ∧ get_program_by_id "p1" st' = (Ok None, st')
         ∧ selected Programs "p2" st' = selected Programs "p2" sample_state.
Proof.
  destruct (delete_removes_one Programs "p1" sample_state sample_p1)
    as (st' & pre & post & Hrun & _ & _ & Hothers & _ & Hget);
    [vm_compute; reflexivity|].
  exists st'. split; [exact Hrun|]. split.
  - apply Hget. vm_compute. reflexivity.
  - apply Hothers. intros Heq. discriminate Heq.
Defined.

(** The sample program [p1] updated: [p2] and the news are as before. *)
Lemma update_touches_one_witness :
  ∃ out st',
    update_program "p1" {["title" := VStr "Engineering"]} 5000 sample_state
    = (Ok out, st')
    ∧ selected Programs "p2" st' = selected Programs "p2" sample_state
    ∧ db st' news_collection = sample_news.
Proof.
  destruct (update_touches_one Programs update_program "p1"
              {["title" := VStr "Engineering"]} 5000 sample_state sample_p1)
    as (out & st' & pre & post & Hrun & _ & _ & Hothers & Honly & _);
    [reflexivity | vm_compute; reflexivity | vm_compute; reflexivity |].
  exists out, st'. split; [exact Hrun|]. split.
  - apply Hothers. intros Heq. discriminate Heq.
  - apply Honly. intros Heq. discriminate Heq.
Defined.

Section RouteProperties.
Context `{!Engine}.
Variable SECRET_KEY : string.

(** X4. A public detail route answers with the first record that carries
    the identifier, its [_id] as text, and with status 404 exactly when no
    record carries it; the state is as it was. *)
Theorem detail_found_or_404 r route id st :
  detail_of r = Some route →
  match first_selected r id st with
  | Some s => route id st = (Ok (stringify_id (as_dict s)), st)
  | None => ∃ missing, route id st = (Raise (HTTPException 404 missing), st)
  end.
Proof.
  intros Hr.
  assert (∃ missing, route = detail (get_by (collection_of r) (key_of r)) missing)
    as [missing ->].
  { destruct r; simpl in Hr; inversion Hr; by eexists. }
  unfold detail, guarded, try_except, bind, get_by, bind, find_one, ret, raise,
    coll_find_one, first_selected, selected.
  destruct (head _) as [s|]; [reflexivity | by exists missing].
Qed.

Lemma singleton_unchanged k (v : value) s :
  set_fields {[k := v]} s = s ↔ body s !! k = Some v.
Proof. rewrite set_fields_same. apply map_singleton_subseteq_l. Qed.

(** X5. The admin routes on one contact report a missing contact with
    status 500, not 404: their only handler takes every exception, the 404
    they raise themselves included.  [mark_contact_as_read] also answers
    500 for a contact that is already stored as ["Read"], since the store
    then modifies nothing; for any other existing contact it succeeds and
    the stored status becomes ["Read"].  [delete_contact_admin] succeeds
    for an existing contact. *)
Theorem contact_routes_outcomes credentials user now st contact_id :
  verify_token SECRET_KEY credentials now st = (Ok user, st) →
  match first_selected Contacts contact_id st with
  | None =>
      (∃ st', mark_contact_as_read SECRET_KEY contact_id credentials now st
              = (Raise (HTTPException 500 "Failed to update contact status"), st')
              ∧ same_state st st')
      ∧ (∃ st', delete_contact_admin SECRET_KEY contact_id credentials now st
                = (Raise (HTTPException 500 "Failed to delete contact"), st')
                ∧ same_state st st')
  | Some s =>
      (body s !! "status" = Some (VStr "Read") →
       ∃ st', mark_contact_as_read SECRET_KEY contact_id credentials now st
              = (Raise (HTTPException 500 "Failed to update contact status"), st')
              ∧ same_state st st')
      ∧ (body s !! "status" ≠ Some (VStr "Read") →
         ∃ st', mark_contact_as_read SECRET_KEY contact_id credentials now st
                = (Ok "Contact marked as read", st')
                ∧ stored_field Contacts contact_id "status" st' = Some (VStr "Read"))
      ∧ (∃ st', delete_contact_admin SECRET_KEY contact_id credentials now st
                = (Ok "Contact deleted successfully", st'))
  end.
Proof.
  intros Hgate.
  assert (({["status" := VStr "Read"]} : document) !! key_of Contacts = None) as Hkey.
  { by apply lookup_singleton_ne. }
  destruct (update_one_then_get Contacts contact_id {["status" := VStr "Read"]} st Hkey)
    as (st1 & Hupd & Hcase).
  destruct (delete_of_run Contacts contact_id st) as (st2 & Hdel & _ & Hsame2).
  unfold first_selected.
  assert (∀ b st',
            update_contact_status contact_id "Read" st = (Ok b, st') →
            mark_contact_as_read SECRET_KEY contact_id credentials now st
            = (if b then Ok "Contact marked as read"
               else Raise (HTTPException 500 "Failed to update contact status"), st'))
    as Hmark.
  { intros b st' Hb. unfold mark_contact_as_read, bind, try_except.
    rewrite Hgate. unfold bind in Hb. rewrite Hb. by destruct b. }
  assert (update_contact_status contact_id "Read" st
          = (Ok (0 <? modified_count
                        (store_report Contacts contact_id {["status" := VStr "Read"]} st)),
             st1)) as Hstatus.
  { unfold update_contact_status, bind.
    change contacts_collection with (collection_of Contacts).
    change "id" with (key_of Contacts). by rewrite Hupd. }
  assert (delete_contact_admin SECRET_KEY contact_id credentials now st
          = (if bool_decide (selected Contacts contact_id st ≠ [])
             then Ok "Contact deleted successfully"
             else Raise (HTTPException 500 "Failed to delete contact"), st2))
    as Hdelete.
  { unfold delete_contact_admin, bind, try_except. rewrite Hgate.
    change (delete_contact contact_id) with (delete_of Contacts contact_id).
    rewrite Hdel. by destruct (bool_decide _). }
  rewrite (Hmark _ _ Hstatus), Hdelete.
  destruct (head (selected Contacts contact_id st)) as [s|] eqn:Hhead.
  - destruct Hcase as (Hmod & Hhead' & Hsame & _). rewrite Hmod.
    split_and!.
    + intros Hread. exists st1.
      rewrite decide_True by (by apply singleton_unchanged).
      split; [reflexivity|]. apply Hsame. by apply singleton_unchanged.
    + intros Hother. exists st1.
      rewrite decide_False by (by rewrite singleton_unchanged).
      split; [reflexivity|]. unfold stored_field. rewrite Hhead'.
      unfold set_fields. cbn [body]. apply lookup_union_Some_l, lookup_singleton_eq.
    + exists st2. destruct (selected Contacts contact_id st); [done|].
      by rewrite bool_decide_true.
  - destruct Hcase as (Hmod & Hsame & _). rewrite Hmod.
    assert (selected Contacts contact_id st = []) as Hnil
      by (by destruct (selected Contacts contact_id st)).
    split.
    + by exists st1.
    + exists st2. rewrite Hnil. split; [reflexivity | by apply Hsame2].
Qed.

End RouteProperties.

(** The detail of the sample program [p1] is its record; an unknown id is
    answered with status 404. *)
Lemma detail_found_or_404_witness :
  get_program_detail "p1" sample_state
  = (Ok (stringify_id (as_dict sample_p1)), sample_state)
  ∧ ∃ missing, get_program_detail "nobody" sample_state
               = (Raise (HTTPException 404 missing), sample_state).
Proof.
  split.
  - exact (detail_found_or_404 Programs get_program_detail "p1" sample_state eq_refl).
  - exact (detail_found_or_404 Programs get_program_detail "nobody" sample_state eq_refl).
Defined.

(** In the sample data the contact [c1] is stored as ["read"] and can be
    marked; an unknown contact is answered with status 500. *)
Lemma contact_routes_outcomes_witness :
  (∃ st', mark_contact_as_read "k" "c1" sample_token 5000 sample_state
          = (Ok "Contact marked as read", st')
          ∧ stored_field Contacts "c1" "status" st' = Some (VStr "Read"))
  ∧ (∃ st', mark_contact_as_read "k" "nobody" sample_token 5000 sample_state
            = (Raise (HTTPException 500 "Failed to update contact status"), st')
            ∧ same_state sample_state st').
Proof.
  split.
  - pose proof (contact_routes_outcomes "k" sample_token "admin" 5000 sample_state
                  "c1" eq_refl) as Hc.
    change (first_selected Contacts "c1" sample_state)
      with (Some (Stored "6560d0000000000000000001"
                    (list_to_map
                       [("id", VStr "c1"); ("firstName", VStr "Asha");
                        ("status", VStr "read"); ("createdAt", VDate 1000)])))
      in Hc.
    destruct Hc as (_ & Hc & _). apply Hc.
    intros Heq. vm_compute in Heq. discriminate Heq.
  - pose proof (contact_routes_outcomes "k" sample_token "admin" 5000 sample_state
                  "nobody" eq_refl) as Hc.
    change (first_selected Contacts "nobody" sample_state) with (@None stored) in Hc.
    exact (proj1 Hc).
Defined.

Section SessionProperties.
Context `{!Engine}.
Variable SECRET_KEY : string.
Variable sha256_hexdigest : string → string.

Lemma create_access_token_eq data expires_delta now :
  create_access_token SECRET_KEY data expires_delta now
  = Signed ALGORITHM SECRET_KEY
      {| sub := sub data; exp := Some (expiry_of expires_delta now) |}.
Proof.
  unfold create_access_token, jwt_encode, expiry_of.
  destruct expires_delta as [d|]; [destruct (d =? 0)|]; reflexivity.
Qed.

Lemma issued_token_accepted data expires_delta now later st user :
  sub data = Some user → later < expiry_of expires_delta now * 1000 →
  verify_token SECRET_KEY (create_access_token SECRET_KEY data expires_delta now)
    later st = (Ok user, st).
Proof.
  intros Hsub Hlater. rewrite create_access_token_eq.
  unfold verify_token, try_except, bind, lift, jwt_decode, raise, ret.
  rewrite bool_decide_true by constructor. cbn [negb exp sub].
  rewrite String.eqb_refl. cbn [negb].
  assert ((expiry_of expires_delta now * 1000 <=? later) = false) as ->
    by (apply Z.leb_gt; lia).
  by rewrite Hsub.
Qed.

(** X6. A token made by [create_access_token] for a subject is accepted by
    [verify_token], which returns the subject, at every moment before its
    expiry: the second of issue plus [expires_delta], or plus 60 minutes
    when no delta or a zero delta is given; an expiry in the data is
    replaced.  From the expiry on it is rejected as expired, and under any
    other key it is rejected as invalid, both with status 401. *)
Theorem token_round_trip data expires_delta now later st user :
  sub data = Some user →
  (later < expiry_of expires_delta now * 1000 →
   verify_token SECRET_KEY (create_access_token SECRET_KEY data expires_delta now)
     later st = (Ok user, st))
  ∧ (expiry_of expires_delta now * 1000 ≤ later →
     verify_token SECRET_KEY (create_access_token SECRET_KEY data expires_delta now)
       later st = (Raise (HTTPException 401 "Token has expired"), st))
  ∧ (∀ other_key, other_key ≠ SECRET_KEY →
       verify_token other_key (create_access_token SECRET_KEY data expires_delta now)
         later st
       = (Raise (HTTPException 401 "Invalid authentication credentials"), st)).
Proof.
  intros Hsub. rewrite create_access_token_eq.
  unfold verify_token, try_except, bind, lift, jwt_decode, raise, ret.
  rewrite bool_decide_true by constructor. cbn [negb exp sub].
  split_and!.
  - intros Hlater.
    pose proof (issued_token_accepted data expires_delta now later st user Hsub Hlater)
      as Hok.
    rewrite create_access_token_eq in Hok. exact Hok.
  - intros Hlater. rewrite String.eqb_refl. cbn [negb].
    by assert ((expiry_of expires_delta now * 1000 <=? later) = true) as ->
      by (apply Z.leb_le; lia).
  - intros other_key Hother.
    assert (String.eqb SECRET_KEY other_key = false) as ->
      by (apply String.eqb_neq; congruence).
    reflexivity.
Qed.

Lemma authenticate_admin_spec username password st :
  authenticate_admin sha256_hexdigest username password st
  = (Ok (bool_decide
           (List.filter
              (matches [Field "username" (CEq (VStr username));
                        Field "password" (CEq (VStr (sha256_hexdigest password)))])
              (db st admins_collection) ≠ [])), st).
Proof.
  unfold authenticate_admin, bind, find_one, ret, coll_find_one.
  by destruct (List.filter _ _).
Qed.

(** X7. Logging in succeeds exactly when an admin document stores the name
    together with the hash of the password.  It then returns a token for
    the name that [verify_token] accepts for the next 60 minutes and adds
    the name to the sessions; otherwise it returns no token, raises nothing
    and leaves the state as it was.  The database is never changed.  An
    admin made by [create_admin] can log in with the same password. *)
Theorem login_outcomes username password now st :
  let known :=
    List.filter
      (matches [Field "username" (CEq (VStr username));
                Field "password" (CEq (VStr (sha256_hexdigest password)))])
      (db st admins_collection) in
  (known ≠ [] →
   ∃ token st',
     admin_login SECRET_KEY sha256_hexdigest username password now st
     = (Ok (Some token), st')
     ∧ active_admin_sessions st' = {[username]} ∪ active_admin_sessions st
     ∧ db st' = db st ∧ files st' = files st
     ∧ ∀ later, later < (now `div` 1000 + 3600) * 1000 →
                verify_token SECRET_KEY token later st' = (Ok username, st'))
  ∧ (known = [] →
     admin_login SECRET_KEY sha256_hexdigest username password now st = (Ok None, st))
  ∧ (∀ new_id created new_oid st0,
       st = (create_admin sha256_hexdigest username password new_id created
               new_oid st0).2 →
       known ≠ []).
Proof.
  intros known. split_and!.
  - intros Hknown. unfold admin_login, try_except, bind.
    rewrite authenticate_admin_spec. fold known.
    rewrite bool_decide_true by done.
    eexists _, _. split; [reflexivity|]. split_and!; try reflexivity.
    intros later Hlater.
    apply (issued_token_accepted {| sub := Some username; exp := None |} None);
      [reflexivity | exact Hlater].
  - intros Hknown. unfold admin_login, try_except, bind.
    rewrite authenticate_admin_spec. fold known.
    rewrite bool_decide_false; [reflexivity|]. by intros Hne.
  - intros new_id created new_oid st0 ->. unfold known.
    unfold create_admin, bind, insert_one, ret. cbn [snd].
    rewrite db_set_coll_eq, List.filter_app.
    assert (matches
              [Field "username" (CEq (VStr username));
               Field "password" (CEq (VStr (sha256_hexdigest password)))]
              (Stored new_oid
                 (list_to_map
                    [("id", VStr new_id); ("username", VStr username);
                     ("password", VStr (sha256_hexdigest password));
                     ("role", VStr "admin"); ("createdAt", VDate created)]))
            = true) as Hm.
    { unfold matches. cbn [forallb clause_holds cond_holds].
      replace (as_dict _ !! "username") with (Some (VStr username)) by reflexivity.
      replace (as_dict _ !! "password")
        with (Some (VStr (sha256_hexdigest password))) by reflexivity.
      by rewrite !bool_decide_true by done. }
    cbn [List.filter]. rewrite Hm. intros Hnil.
    by apply app_eq_nil in Hnil as [_ Hnil].
Qed.

End SessionProperties.

(** A token issued at millisecond 5000 with the default lifetime is accepted
    one hour minus a second later. *)
Lemma token_round_trip_witness :
  verify_token "k"
    (create_access_token "k" {| sub := Some "admin"; exp := None |} None 5000)
    3604000 sample_state
  = (Ok "admin", sample_state).
Proof.
  apply (token_round_trip "k" {| sub := Some "admin"; exp := None |} None 5000
           3604000 sample_state "admin"); [reflexivity|].
  vm_compute. reflexivity.
Defined.

(** An admin created in the sample data logs in and the token is accepted;
    a name that no admin document stores gets no token. *)
Lemma login_outcomes_witness :
  let hash := λ p : string, "sha256:" +:+ p in
  let st1 := (create_admin hash "root" "secret" "a1" 1000
                "6560ff000000000000000001" sample_state).2 in
  (∃ token st2, admin_login "k" hash "root" "secret" 5000 st1 = (Ok (Some token), st2)
                ∧ verify_token "k" token 6000 st2 = (Ok "root", st2))
  ∧ admin_login "k" hash "root" "secret" 5000 sample_state = (Ok None, sample_state).
Proof.
  intros hash st1. split.
  - destruct (login_outcomes "k" hash "root" "secret" 5000 st1)
      as (Hok & _ & Hcreated).
    destruct (Hok (Hcreated "a1" 1000 "6560ff000000000000000001" sample_state eq_refl))
      as (token & st2 & Hrun & _ & _ & _ & Hverify).
    exists token, st2. split; [exact Hrun|]. apply Hverify. vm_compute. reflexivity.
  - destruct (login_outcomes "k" hash "root" "secret" 5000 sample_state)
      as (_ & Hnone & _).
    apply Hnone. vm_compute. reflexivity.
Defined.

Section SearchRouteProperties.
Context `{!Engine}.



Lemma global_search_run q sections st :
  regex_valid q = true →
  global_search q sections st
  = (match mapM program_result (program_hits q sections st) with
     | Raise e => Raise e
     | Ok programs =>
         match mapM news_result (news_hits q sections st) with
         | Raise e => Raise e
         | Ok news =>
             match mapM event_result (event_hits q sections st) with
             | Raise e => Raise e
             | Ok events =>
                 match mapM partnership_result (partnership_hits q sections st) with
                 | Raise e => Raise e
                 | Ok partnerships =>
                     Ok {| results := programs ++ news ++ events ++ partnerships;
                           results_total :=
                             Z.of_nat (length (programs ++ news ++ events
                                               ++ partnerships)) |}
                 end
             end
         end
     end, st).
Proof.
  intros Hq. unfold global_search, bind. rewrite !search_in_run by done.
  fold (program_hits q sections st) (news_hits q sections st)
       (event_hits q sections st) (partnership_hits q sections st).
  destruct (mapM program_result _) as [programs|]; [|done].
  destruct (mapM news_result _) as [news|]; [|done].
  destruct (mapM event_result _) as [events|]; [|done].
  destruct (mapM partnership_result _) as [partnerships|]; [|done].
  unfold ret. by rewrite <- !(assoc_L (++)).
Qed.

(** X8. For a query the store accepts: when the search over all sections
    returns, so does the search restricted to each single section, and the
    list of the full search is the list for programs, then the one for
    news, then the one for events, then the one for partnerships; the
    totals add up. *)
Theorem search_by_section q st everything st' :
  regex_valid q = true →
  global_search q None st = (Ok everything, st') →
  ∃ programs news events partnerships,
    global_search q (Some ["programs"]) st = (Ok programs, st)
    ∧ global_search q (Some ["news"]) st = (Ok news, st)
    ∧ global_search q (Some ["events"]) st = (Ok events, st)
    ∧ global_search q (Some ["partnerships"]) st = (Ok partnerships, st)
    ∧ results everything
      = results programs ++ results news ++ results events ++ results partnerships
    ∧ results_total everything
      = results_total programs + results_total news + results_total events
        + results_total partnerships.
Proof.
  intros Hq Hall. rewrite (global_search_run _ _ _ Hq) in Hall.
  rewrite !(global_search_run _ _ _ Hq).
  change (program_hits q (Some ["programs"]) st) with (program_hits q None st).
  change (news_hits q (Some ["news"]) st) with (news_hits q None st).
  change (event_hits q (Some ["events"]) st) with (event_hits q None st).
  change (partnership_hits q (Some ["partnerships"]) st)
    with (partnership_hits q None st).
  change (program_hits q (Some ["news"]) st) with (@nil document).
  change (program_hits q (Some ["events"]) st) with (@nil document).
  change (program_hits q (Some ["partnerships"]) st) with (@nil document).
  change (news_hits q (Some ["programs"]) st) with (@nil document).
  change (news_hits q (Some ["events"]) st) with (@nil document).
  change (news_hits q (Some ["partnerships"]) st) with (@nil document).
  change (event_hits q (Some ["programs"]) st) with (@nil document).
  change (event_hits q (Some ["news"]) st) with (@nil document).
  change (event_hits q (Some ["partnerships"]) st) with (@nil document).
  change (partnership_hits q (Some ["programs"]) st) with (@nil document).
  change (partnership_hits q (Some ["news"]) st) with (@nil document).
  change (partnership_hits q (Some ["events"]) st) with (@nil document).
  destruct (mapM program_result _) as [programs|]; [|done].
  destruct (mapM news_result _) as [news|]; [|done].
  destruct (mapM event_result _) as [events|]; [|done].
  destruct (mapM partnership_result _) as [partnerships|]; [|done].
  injection Hall as <- <-. cbn [mapM].
  eexists _, _, _, _. split_and!; try reflexivity.
  - cbn [results]. by rewrite !app_nil_r.
  - cbn [results_total]. rewrite !app_nil_r. cbn [app].
    rewrite !length_app. lia.
Qed.



End SearchRouteProperties.

(** In the sample data the search for ["university"] over all sections is
    the program found followed by the news found. *)
Lemma search_by_section_witness :
  ∃ everything programs news,
    global_search "university" None sample_state = (Ok everything, sample_state)
    ∧ global_search "university" (Some ["programs"]) sample_state
      = (Ok programs, sample_state)
    ∧ global_search "university" (Some ["news"]) sample_state = (Ok news, sample_state)
    ∧ results everything = results programs ++ results news
    ∧ results_total everything = 2.
Proof.
  assert (∃ everything, global_search "university" None sample_state
                        = (Ok everything, sample_state)
                        ∧ results_total everything = 2) as (everything & Hall & Htotal).
  { eexists. split; vm_compute; reflexivity. }
  destruct (search_by_section "university" sample_state everything sample_state)
    as (programs & news & events & partnerships & Hp & Hn & He & Hpa & Hres & _);
    [reflexivity | exact Hall |].
  exists everything, programs, news. split_and!; try assumption.
  rewrite Hres.
  assert (results events = []) as ->.
  { vm_compute in He. injection He as <-. reflexivity. }
  assert (results partnerships = []) as ->.
  { vm_compute in Hpa. injection Hpa as <-. reflexivity. }
  by rewrite !app_nil_r.
Defined.


Section TeamUpdateProperties.
Context `{!Engine}.
Variable SECRET_KEY : string.

Lemma selected_same_db r id st st' :
  (∀ c, db st' c = db st c) → selected r id st' = selected r id st.
Proof. intros Hdb. unfold selected. by rewrite Hdb. Qed.

Lemma get_by_first r id st s :
  first_selected r id st = Some s →
  get_by (collection_of r) (key_of r) id st = (Ok (Some (stringify_id (as_dict s))), st).
Proof.
  unfold first_selected, selected, get_by, bind, find_one, ret, coll_find_one.
  by intros ->.
Qed.

(** The removal block reads the member and may remove a file; it leaves the
    database alone, and it raises only when the stored image is a value
    that counts as true without being a string. *)
Lemma remove_current_image_frame member_id st s :
  first_selected Team member_id st = Some s →
  ∃ r st1,
    remove_current_image member_id st = (r, st1)
    ∧ (∀ c, db st1 c = db st c)
    ∧ (r = Ok () ∨ r = Raise AttributeError)
    ∧ ((∀ v, body s !! "image" = Some v → truthy v = true → is_str v = true) →
       r = Ok ()).
Proof.
  intros Hs. unfold remove_current_image, bind.
  change get_team_member_by_id with (get_by (collection_of Team) (key_of Team)).
  rewrite (get_by_first _ _ _ _ Hs).
  assert (stringify_id (as_dict s) !! "image" = body s !! "image") as ->.
  { unfold stringify_id, as_dict. by rewrite !lookup_insert_ne. }
  destruct (body s !! "image") as [v|] eqn:Hv; cbn [default from_option id];
    [|by eexists _, _; split_and!; [reflexivity | | left |]].
  destruct (truthy v) eqn:Ht;
    [|by eexists _, _; split_and!; [reflexivity | | left |]].
  destruct v; try (by eexists _, _; split_and!;
                     [reflexivity | | right | intros Hok; by specialize (Hok _ eq_refl Ht)]).
  unfold try_except, bind, path_exists, os_remove, ret.
  destruct (bool_decide _) eqn:Hthere.
  - apply bool_decide_eq_true in Hthere. rewrite decide_True by done.
    by eexists _, _; split_and!; [reflexivity | | left |].
  - by eexists _, _; split_and!; [reflexivity | | left |].
Qed.

Lemma set_if_lookup_eq {A} k (inj : A → value) o (d : document) :
  set_if k inj o d !! k = match o with Some x => Some (inj x) | None => d !! k end.
Proof. destruct o; simpl; [apply lookup_insert_eq | done]. Qed.

Lemma set_if_lookup_ne {A} k k' (inj : A → value) o (d : document) :
  k ≠ k' → set_if k inj o d !! k' = d !! k'.
Proof. intros Hk. destruct o; simpl; [by apply lookup_insert_ne | done]. Qed.

Lemma set_if_not_blank_lookup_eq k o (d : document) :
  set_if_not_blank k o d !! k
  = match not_blank o with Some v => Some v | None => d !! k end.
Proof.
  destruct o as [x|]; simpl; [|done].
  destruct (String.eqb (strip x) ""); simpl; [done | apply lookup_insert_eq].
Qed.

Lemma set_if_not_blank_lookup_ne k k' o (d : document) :
  k ≠ k' → set_if_not_blank k o d !! k' = d !! k'.
Proof.
  intros Hk. destruct o as [x|]; simpl; [|done].
  destruct (String.eqb (strip x) ""); simpl; [done | by apply lookup_insert_ne].
Qed.

Lemma not_none_value (o : option value) v :
  o = Some v → (∃ x : string, v = VStr x) ∨ (∃ x : Z, v = VInt x) ∨ (∃ x : bool, v = VBool x) →
  v ≠ VNone.
Proof. intros _ [[x ->]|[[x ->]|[x ->]]]; done. Qed.

Section Fields.
Variables (name role bio email phone department : option string).
Variables (order : option Z) (is_leadership is_active : option bool).

Let fields := team_fields name role bio email phone department order
                is_leadership is_active.

Ltac through_fields :=
  unfold fields, team_fields;
  repeat first [ rewrite set_if_lookup_ne by done
               | rewrite set_if_not_blank_lookup_ne by done ].

Lemma team_fields_other ud k :
  k ∉ team_form_keys → fields ud !! k = ud !! k.
Proof.
  intros Hk. unfold team_form_keys in Hk. rewrite !not_elem_of_cons in Hk.
  destruct Hk as (?&?&?&?&?&?&?&?&?&_).
  unfold fields, team_fields.
  rewrite !set_if_lookup_ne by (by apply not_eq_sym).
  rewrite !set_if_not_blank_lookup_ne by (by apply not_eq_sym).
  by rewrite !set_if_lookup_ne by (by apply not_eq_sym).
Qed.

(** The stored record after the update built from the form fields and an
    [update_data] that holds at most an image. *)
Lemma team_fields_applied ud now s :
  (∀ k, k ≠ "image" → ud !! k = None) →
  let s' := set_fields (stamped (fields ud) now) s in
  oid s' = oid s
  ∧ sets_or_keeps "name" (VStr <$> name) s s'
  ∧ sets_or_keeps "role" (VStr <$> role) s s'
  ∧ sets_or_keeps "bio" (VStr <$> bio) s s'
  ∧ sets_or_keeps "email" (not_blank email) s s'
  ∧ sets_or_keeps "phone" (not_blank phone) s s'
  ∧ sets_or_keeps "department" (not_blank department) s s'
  ∧ sets_or_keeps "order" (VInt <$> order) s s'
  ∧ sets_or_keeps "is_leadership" (VBool <$> is_leadership) s s'
  ∧ sets_or_keeps "is_active" (VBool <$> is_active) s s'
  ∧ body s' !! "updatedAt" = Some (VDate now)
  ∧ (∀ k, k ∉ "image" :: "updatedAt" :: team_form_keys →
          body s' !! k = body s !! k).
Proof.
  intros Hud s'.
  assert (∀ k new,
            k ≠ "updatedAt" →
            fields ud !! k = new → (∀ v, new = Some v → v ≠ VNone) →
            sets_or_keeps k new s s') as Hfield.
  { intros k new Hk Hlook Hne. unfold sets_or_keeps, s', set_fields. cbn [body].
    destruct new as [v|].
    - apply lookup_union_Some_l. apply stamped_Some; [done | done | by apply Hne].
    - apply lookup_union_r. apply stamped_None; [done | by left]. }
  split_and!; [done | | | | | | | | | | |].
  - apply Hfield; [done | |].
    + through_fields. rewrite set_if_lookup_eq, Hud by done. by destruct name.
    + by intros v [x [-> ->]]%fmap_Some.
  - apply Hfield; [done | |].
    + through_fields. rewrite set_if_lookup_eq. through_fields.
      rewrite Hud by done. by destruct role.
    + by intros v [x [-> ->]]%fmap_Some.
  - apply Hfield; [done | |].
    + through_fields. rewrite set_if_lookup_eq. through_fields.
      rewrite Hud by done. by destruct bio.
    + by intros v [x [-> ->]]%fmap_Some.
  - apply Hfield; [done | |].
    + through_fields. rewrite set_if_not_blank_lookup_eq. through_fields.
      rewrite Hud by done. by destruct (not_blank email).
    + intros v Hv. destruct email as [x|]; simpl in Hv; [|done].
      destruct (String.eqb _ _); [done|]. by injection Hv as <-.
  - apply Hfield; [done | |].
    + through_fields. rewrite set_if_not_blank_lookup_eq. through_fields.
      rewrite Hud by done. by destruct (not_blank phone).
    + intros v Hv. destruct phone as [x|]; simpl in Hv; [|done].
      destruct (String.eqb _ _); [done|]. by injection Hv as <-.
  - apply Hfield; [done | |].
    + through_fields. rewrite set_if_not_blank_lookup_eq. through_fields.
      rewrite Hud by done. by destruct (not_blank department).
    + intros v Hv. destruct department as [x|]; simpl in Hv; [|done].
      destruct (String.eqb _ _); [done|]. by injection Hv as <-.
  - apply Hfield; [done | |].
    + through_fields. rewrite set_if_lookup_eq. through_fields.
      rewrite Hud by done. by destruct order.
    + by intros v [x [-> ->]]%fmap_Some.
  - apply Hfield; [done | |].
    + through_fields. rewrite set_if_lookup_eq. through_fields.
      rewrite Hud by done. by destruct is_leadership.
    + by intros v [x [-> ->]]%fmap_Some.
  - apply Hfield; [done | |].
    + through_fields. rewrite set_if_lookup_eq. through_fields.
      rewrite Hud by done. by destruct is_active.
    + by intros v [x [-> ->]]%fmap_Some.
  - unfold s', set_fields. cbn [body]. apply lookup_union_Some_l, stamped_updatedAt.
  - intros k Hk. rewrite !not_elem_of_cons in Hk. destruct Hk as (Himg & Hstamp & Hk).
    unfold s', set_fields. cbn [body]. apply lookup_union_r.
    apply stamped_None; [done|]. left.
    rewrite team_fields_other; [by apply Hud | exact Hk].
Qed.

Lemma team_fields_no_id ud :
  (∀ k, k ≠ "image" → ud !! k = None) → fields ud !! key_of Team = None.
Proof.
  intros Hud. rewrite team_fields_other; [by apply Hud|].
  unfold team_form_keys. rewrite !not_elem_of_cons. split_and!; try done.
  apply not_elem_of_nil.
Qed.

End Fields.

Ltac db_same :=
  intros ?;
  repeat match goal with
         | Hx : ∀ c : collection_name, db _ c = db _ c |- _ => rewrite Hx
         end;
  reflexivity.

(** The last step of every path of the route that reaches the update. *)
Ltac reaches_update :=
  match goal with
  | |- context [update_team_member _ _ _ ?stK] =>
      match goal with
      | |- context [set_if "name" VStr _ ?ud0] =>
          exists stK; split;
          [ right; exists ud0; split;
            [ reflexivity
            | intros ? ?; rewrite ?lookup_insert_ne by done; apply lookup_empty ]
          | db_same ]
      end
  end.

(** The route either raises before the update, with the database as it
    was, or is the guarded update of the form fields over an [update_data]
    that holds at most an image. *)
Lemma team_update_cases credentials user now st member_id s form_data file
    name role bio email phone department image_url order is_leadership
    is_active file_name :
  verify_token SECRET_KEY credentials now st = (Ok user, st) →
  first_selected Team member_id st = Some s →
  ∃ st1,
    ((∃ e, update_team_member_admin SECRET_KEY member_id form_data file name
             role bio email phone department image_url order is_leadership
             is_active file_name credentials now st
           = (Raise e, st1)
           ∧ (e = invalid_file_type
              ∨ e = HTTPException 500 "Failed to update team member")
           ∧ ¬ match file with
               | Some f =>
                   ∃ ct, content_type f = Some ct ∧ startswith ct "image/" = true
               | None =>
                   ∀ v, body s !! "image" = Some v → truthy v = true →
                        is_str v = true
               end)
     ∨ (∃ ud, update_team_member_admin SECRET_KEY member_id form_data file name
                role bio email phone department image_url order is_leadership
                is_active file_name credentials now st
              = guarded "Failed to update team member"
                  (update_team_member member_id
                     (team_fields name role bio email phone department order
                        is_leadership is_active ud) now) st1
              ∧ ∀ k, k ≠ "image" → ud !! k = None))
    ∧ ∀ c, db st1 c = db st c.
Proof.
  intros Hgate Hs.
  pose proof (get_by_first Team _ _ _ Hs) as Hget.
  change (get_by (collection_of Team) (key_of Team))
    with get_team_member_by_id in Hget.
  assert (∀ stK, (∀ c, db stK c = db st c) →
                 ∃ r st2, remove_current_image member_id stK = (r, st2)
                          ∧ (∀ c, db st2 c = db stK c)
                          ∧ (r = Ok () ∨ r = Raise AttributeError)) as Hremove.
  { intros stK HdbK.
    destruct (remove_current_image_frame member_id stK s) as (r & st2 & ? & ? & ? & _).
    - unfold first_selected. by rewrite (selected_same_db Team member_id st stK HdbK).
    - by exists r, st2. }
  unfold update_team_member_admin.
  cbv [bind ret raise try_except guarded negb]. rewrite Hgate. cbv beta iota.
  rewrite Hget. cbv beta iota. rewrite bool_decide_false by done.
  destruct file as [f|].
  - destruct (content_type f) as [ct|].
    + destruct (startswith ct "image/") eqn:Hct.
      * rewrite save_team_upload_file_run. cbv beta iota.
        destruct (form_data !! "image_url") as [raw|];
          [destruct (String.eqb raw "")|]; [|reaches_update|reaches_update].
        match goal with
        | |- context [remove_current_image member_id ?stK] =>
            destruct (Hremove stK) as (r & st2 & Hrm & Hdb2 & [-> | ->]);
            [by intros ? | rewrite Hrm | rewrite Hrm]
        end; cbv beta iota; reaches_update.
      * exists st. split; [left|done]. eexists. split; [reflexivity|].
        split; [by left|]. intros (ct' & Hct' & Himg).
        injection Hct' as <-. congruence.
    + exists st. split; [left|done]. eexists. split; [reflexivity|].
      split; [by right|]. intros (ct' & Hct' & _). discriminate Hct'.
  - destruct image_url as [u|]; [destruct (String.eqb (strip u) "")|].
    + destruct (remove_current_image_frame member_id st s Hs)
        as (r & st1 & Hrm & Hdb1 & Hr & Hok).
      rewrite Hrm. destruct Hr as [-> | ->]; cbv beta iota.
      * destruct (form_data !! "image_url") as [raw|];
          [destruct (String.eqb raw "")|]; [|reaches_update|reaches_update].
        destruct (Hremove st1 Hdb1) as (r & st2 & Hrm2 & Hdb2 & [-> | ->]);
          rewrite Hrm2; cbv beta iota; reaches_update.
      * exists st1. split; [left|done]. eexists. split; [reflexivity|].
        split; [by right|]. intros Hret. by specialize (Hok Hret).
    + destruct (form_data !! "image_url") as [raw|];
        [destruct (String.eqb raw "")|]; [|reaches_update|reaches_update].
      destruct (Hremove st) as (r & st2 & Hrm2 & Hdb2 & [-> | ->]);
        [done | rewrite Hrm2 | rewrite Hrm2]; cbv beta iota; reaches_update.
    + destruct (form_data !! "image_url") as [raw|];
        [destruct (String.eqb raw "")|]; [|reaches_update|reaches_update].
      destruct (Hremove st) as (r & st2 & Hrm2 & Hdb2 & [-> | ->]);
        [done | rewrite Hrm2 | rewrite Hrm2]; cbv beta iota; reaches_update.
Qed.

(** X10. In [update_team_member_admin], for a signed-in caller and a stored
    member, the route raises only the status 400 of a file that is no
    image or the status 500 of its handler, and then leaves the database
    as it was; when it returns, the stored member has the given name, role,
    bio, order and flags (an empty text included), an email, phone and
    department only where the given text is not blank, the time of the call
    as updatedAt, and every field outside the form and the image as before.
    It returns whenever the file is an image, or there is no file and the
    stored image is a string or counts as false. *)
Theorem team_update_fields credentials user now st member_id s form_data file
    name role bio email phone department image_url order is_leadership
    is_active file_name :
  verify_token SECRET_KEY credentials now st = (Ok user, st) →
  first_selected Team member_id st = Some s →
  let run :=
    update_team_member_admin SECRET_KEY member_id form_data file name role bio
      email phone department image_url order is_leadership is_active file_name
      credentials now st in
  (∀ e, run.1 = Raise e →
        (e = invalid_file_type
         ∨ e = HTTPException 500 "Failed to update team member")
        ∧ ∀ c, db run.2 c = db st c)
  ∧ (∀ out, run.1 = Ok out →
       ∃ s', first_selected Team member_id run.2 = Some s'
             ∧ oid s' = oid s
             ∧ sets_or_keeps "name" (VStr <$> name) s s'
             ∧ sets_or_keeps "role" (VStr <$> role) s s'
             ∧ sets_or_keeps "bio" (VStr <$> bio) s s'
             ∧ sets_or_keeps "email" (not_blank email) s s'
             ∧ sets_or_keeps "phone" (not_blank phone) s s'
             ∧ sets_or_keeps "department" (not_blank department) s s'
             ∧ sets_or_keeps "order" (VInt <$> order) s s'
             ∧ sets_or_keeps "is_leadership" (VBool <$> is_leadership) s s'
             ∧ sets_or_keeps "is_active" (VBool <$> is_active) s s'
             ∧ body s' !! "updatedAt" = Some (VDate now)
             ∧ (∀ k, k ∉ "image" :: "updatedAt" :: team_form_keys →
                     body s' !! k = body s !! k))
  ∧ (match file with
     | Some f => ∃ ct, content_type f = Some ct ∧ startswith ct "image/" = true
     | None => ∀ v, body s !! "image" = Some v → truthy v = true → is_str v = true
     end →
     ∃ out, run.1 = Ok out).
Proof.
  intros Hgate Hs run.
  destruct (team_update_cases credentials user now st member_id s form_data file
              name role bio email phone department image_url order is_leadership
              is_active file_name Hgate Hs)
    as (st1 & [(e & Hrun & He & Hnot) | (ud & Hrun & Hud)] & Hdb);
    fold run in Hrun.
  - split_and!.
    + intros e' He'. rewrite Hrun in He' |- *. cbn [fst snd] in *.
      injection He' as <-. by split.
    + intros out Hout. rewrite Hrun in Hout. discriminate Hout.
    + intros Hok. by destruct Hnot.
  - destruct (update_stamped_stored Team member_id
                (team_fields name role bio email phone department order
                   is_leadership is_active ud) now st1 s)
      as (out & st' & Hupd & Hhead & _).
    { by apply team_fields_no_id. }
    { rewrite (selected_same_db Team member_id st st1 Hdb). exact Hs. }
    change (update_stamped (collection_of Team) (key_of Team))
      with update_team_member in Hupd.
    assert (run = (Ok out, st')) as Hrun'.
    { rewrite Hrun. unfold guarded, try_except. by rewrite Hupd. }
    split_and!.
    + intros e He. rewrite Hrun' in He. discriminate He.
    + intros out' _. rewrite Hrun'. eexists. split; [exact Hhead|].
      by apply team_fields_applied.
    + intros _. rewrite Hrun'. by eexists.
Qed.

End TeamUpdateProperties.

Lemma team_update_fields_witness :
  ∃ out,
    (update_team_member_admin "k" "m1" ∅ None (Some "") None None (Some "  ")
       None None None (Some 2) None None "portrait.png" sample_token 5000
       sample_state).1 = Ok out.
Proof.
  pose proof (team_update_fields "k" sample_token "admin" 5000 sample_state "m1"
                (Stored "6560c0000000000000000001"
                   (list_to_map
                      [("id", VStr "m1"); ("name", VStr "Dr. Rajesh Kumar");
                       ("role", VStr "Director, Office of International Affairs");
                       ("bio", VStr "Over 20 years of experience in international education.");
                       ("order", VInt 1);
                       ("createdAt", VDate 1000); ("updatedAt", VDate 1000)]))
                ∅ None (Some "") None None (Some "  ") None None None (Some 2)
                None None "portrait.png" eq_refl eq_refl) as Hrun.
  destruct Hrun as (_ & _ & Hret). apply Hret.
  intros v Hv. vm_compute in Hv. discriminate Hv.
Defined.

Section StatsProperties.
Context `{!Engine}.
Variable int_of_str : string → option Z.

Lemma get_stats_config_run st :
  get_stats_config int_of_str st
  = (match stats_record st with
     | None => Ok 150
     | Some s => py_int int_of_str (default (VInt 150) (body s !! "studentsExchanged"))
     end, st).
Proof.
  unfold get_stats_config, bind, find_one, coll_find_one, stats_record, by_key.
  destruct (head _) as [s|]; [|done]. cbn [fmap option_fmap option_map].
  unfold lift, as_dict. by rewrite lookup_insert_ne.
Qed.

Lemma stamped_config_disjoint (update_data : document) now :
  update_data !! "key" = None → update_data !! "createdAt" = None →
  (dom (<["updatedAt" := VDate now]> (drop_none update_data)) : gset string)
  ## dom (list_to_map [("key", VStr "stats"); ("createdAt", VDate now)] : document).
Proof.
  intros Hkey Hcreated k Hk Hk'.
  apply elem_of_dom in Hk as [v Hv]. apply elem_of_dom in Hk' as [w Hw].
  cbn [list_to_map foldr uncurry] in Hw.
  destruct (decide (k = "key")) as [->|Hne].
  { rewrite lookup_insert_ne, drop_none_None in Hv; [done | by left | done]. }
  rewrite lookup_insert_ne in Hw by done.
  destruct (decide (k = "createdAt")) as [->|Hne'].
  { rewrite lookup_insert_ne, drop_none_None in Hv; [done | by left | done]. }
  by rewrite lookup_insert_ne in Hw.
Qed.

(** X11. [update_stats_config] and [get_stats_config]: the update answers with the
    number it was given, which is also what the next read serves, whether
    the counters' document existed or is inserted by the call; an update
    without a number leaves the served answer as it was.  No other
    collection changes, and a document is added only when there was none. *)
Theorem stats_config_round_trip update_data now new_oid st :
  update_data !! "key" = None → update_data !! "createdAt" = None →
  let run := update_stats_config int_of_str update_data now new_oid st in
  (∀ n, update_data !! "studentsExchanged" = Some (VInt n) →
        run.1 = Ok n ∧ get_stats_config int_of_str run.2 = (Ok n, run.2))
  ∧ (update_data !! "studentsExchanged" = None
     ∨ update_data !! "studentsExchanged" = Some VNone →
     run.1 = (get_stats_config int_of_str st).1)
  ∧ (∀ c, c ≠ stats_config_collection → db run.2 c = db st c)
  ∧ length (db run.2 stats_config_collection)
    = (length (db st stats_config_collection)
       + match stats_record st with Some _ => 0 | None => 1 end)%nat.
Proof.
  intros Hkey Hcreated run.
  pose proof (stamped_config_disjoint update_data now Hkey Hcreated) as Hdisj.
  set (upd := <["updatedAt" := VDate now]> (drop_none update_data)) in *.
  set (on_insert := list_to_map [("key", VStr "stats"); ("createdAt", VDate now)]
                    : document) in *.
  assert (upd !! "key" = None) as Hupd_key.
  { unfold upd. rewrite lookup_insert_ne by done. apply drop_none_None. by left. }
  assert (∀ n, update_data !! "studentsExchanged" = Some (VInt n) →
               upd !! "studentsExchanged" = Some (VInt n)) as Hgiven.
  { intros n Hn. unfold upd. rewrite lookup_insert_ne by done.
    by apply drop_none_Some. }
  assert (update_data !! "studentsExchanged" = None
          ∨ update_data !! "studentsExchanged" = Some VNone →
          upd !! "studentsExchanged" = None) as Hmissing.
  { intros Hn. unfold upd. rewrite lookup_insert_ne by done.
    by apply drop_none_None. }
  assert (∃ st',
            upsert_one stats_config_collection "key" (VStr "stats") upd on_insert
              new_oid st
            = (Ok {| matched_count := match stats_record st with Some _ => 1 | None => 0 end;
                     modified_count :=
                       match stats_record st with
                       | Some s => if decide (set_fields upd s = s) then 0 else 1
                       | None => 0
                       end |}, st')
            ∧ (∀ c, c ≠ stats_config_collection → db st' c = db st c)
            ∧ length (db st' stats_config_collection)
              = (length (db st stats_config_collection)
                 + match stats_record st with Some _ => 0 | None => 1 end)%nat
            ∧ ∃ s', stats_record st' = Some s'
                    ∧ body s' !! "studentsExchanged"
                      = match upd !! "studentsExchanged" with
                        | Some v => Some v
                        | None => match stats_record st with
                                  | Some s => body s !! "studentsExchanged"
                                  | None => None
                                  end
                        end) as (st' & Hupsert & Hother & Hlen & s' & Hrecord & Hfield).
  { unfold upsert_one. rewrite decide_True by exact Hdisj.
    unfold stats_record.
    change [Field "key" (CEq (VStr "stats"))] with (by_key "key" "stats").
    destruct (List.filter _ (db st _)) as [|s rest] eqn:Hsel.
    - eexists. split; [reflexivity|]. split_and!.
      + intros c Hc. by apply db_set_coll_ne.
      + rewrite db_set_coll_eq, length_app. reflexivity.
      + eexists. rewrite db_set_coll_eq, List.filter_app, Hsel.
        cbn [app List.filter].
        assert (matches (by_key "key" "stats")
                  (Stored new_oid (upd ∪ on_insert ∪ {["key" := VStr "stats"]}))
                = true) as ->.
        { apply matches_by_key. unfold as_dict. cbn [oid body].
          rewrite lookup_insert_ne by done.
          apply lookup_union_Some_l. rewrite lookup_union_r by done. done. }
        split; [reflexivity|]. cbn [head body].
        destruct (upd !! "studentsExchanged") as [v|] eqn:Hv.
        * by apply lookup_union_Some_l, lookup_union_Some_l.
        * rewrite lookup_union_l by done. by rewrite lookup_union_r.
    - assert (head (List.filter (matches (by_key "key" "stats"))
                      (db st stats_config_collection)) = Some s) as Hhead
        by (by rewrite Hsel).
      destruct (filter_head_split _ _ _ Hhead) as (pre & post & Hl & Hpre & Hs).
      unfold update_one. rewrite Hl, (coll_update_one_split _ _ _ _ _ Hpre Hs).
      cbn [head]. eexists. split; [reflexivity|]. split_and!.
      + intros c Hc. by apply db_set_coll_ne.
      + rewrite db_set_coll_eq, !length_app. cbn [length]. lia.
      + exists (set_fields upd s). rewrite db_set_coll_eq. split.
        * apply filter_after_update; [done|].
          by rewrite matches_set_fields.
        * unfold set_fields. cbn [body].
          destruct (upd !! "studentsExchanged") as [v|] eqn:Hv.
          -- by apply lookup_union_Some_l.
          -- by apply lookup_union_r. }
  assert (run = ((get_stats_config int_of_str st').1, st')) as Hrun.
  { unfold run, update_stats_config. fold upd on_insert. unfold bind.
    rewrite Hupsert. rewrite get_stats_config_run. reflexivity. }
  rewrite Hrun. cbn [fst snd]. rewrite !get_stats_config_run, Hrecord.
  cbn [fst snd]. split_and!; [| | exact Hother | exact Hlen].
  - intros n Hn. rewrite Hfield, (Hgiven n Hn). done.
  - intros Hn. rewrite Hfield, (Hmissing Hn). by destruct (stats_record st).
Qed.

Lemma length_remove_dups {A} `{EqDecision A} (l : list A) :
  (length (remove_dups l) ≤ length l)%nat.
Proof.
  induction l as [|x l IH]; simpl; [done|].
  destruct (decide_rel elem_of x l); simpl; lia.
Qed.

Lemma remove_dups_empty {A} `{EqDecision A} (l : list A) :
  remove_dups l = [] ↔ l = [].
Proof.
  split; [|by intros ->]. destruct l as [|x l]; [done|]. intros Hl.
  assert (x ∈ remove_dups (x :: l)) as Hx by (apply elem_of_remove_dups; left).
  rewrite Hl in Hx. by apply elem_of_nil in Hx.
Qed.

(** X12. [get_stats]: the statistics are read without changing anything;
    the count of partner universities is at most the count of active
    programs and at most 1000, and it is zero exactly when no program is
    active; the number of students is the one the counters serve, and the
    call fails exactly as reading the counters fails. *)
Theorem stats_bounds st :
  (get_stats int_of_str st).2 = st
  ∧ match (get_stats int_of_str st).1 with
    | Ok stats =>
        totalPrograms stats = Z.of_nat (length (active_programs st))
        ∧ 0 ≤ partnerUniversities stats ≤ totalPrograms stats
        ∧ partnerUniversities stats ≤ 1000
        ∧ (partnerUniversities stats = 0 ↔ totalPrograms stats = 0)
        ∧ countries stats = 12
        ∧ (get_stats_config int_of_str st).1 = Ok (studentsExchanged stats)
    | Raise e => (get_stats_config int_of_str st).1 = Raise e
    end.
Proof.
  unfold get_stats, bind, count_documents, aggregate_groups, ret.
  fold (active_programs st). rewrite get_stats_config_run.
  set (groups := remove_dups _).
  destruct (match stats_record st with Some _ => _ | None => _ end) as [n|e];
    cbn [fst snd]; [|done].
  split; [done|].
  cbn [totalPrograms partnerUniversities countries studentsExchanged].
  assert (length groups ≤ length (active_programs st))%nat as Hle.
  { unfold groups. etrans; [apply length_remove_dups|]. by rewrite length_fmap. }
  assert (groups = [] ↔ active_programs st = []) as Hnil.
  { unfold groups. rewrite remove_dups_empty.
    split; [apply fmap_nil_inv | by intros ->]. }
  rewrite length_take. split_and!; [done | lia | lia | lia | | done | done].
  clearbody groups. revert Hle Hnil.
  destruct groups as [|g groups'], (active_programs st) as [|a rest];
    cbn [length]; intros Hle Hnil.
  - done.
  - discriminate (proj1 Hnil eq_refl).
  - discriminate (proj2 Hnil eq_refl).
  - split; lia.
Qed.

End StatsProperties.

Section DeleteRouteProperties.
Context `{!Engine}.
Variable SECRET_KEY : string.

Lemma verify_token_any_state credentials now user st st' :
  verify_token SECRET_KEY credentials now st = (Ok user, st) →
  verify_token SECRET_KEY credentials now st' = (Ok user, st').
Proof.
  unfold verify_token, try_except, bind, lift, jwt_decode, raise, ret.
  destruct credentials as [raw|alg key payload]; [done|].
  destruct (negb _); [done|]. destruct (negb _); [done|].
  destruct (exp payload) as [e|]; [destruct (e * 1000 <=? now); [done|]|];
    destruct (sub payload); intros Hrun; by simplify_eq.
Qed.

Lemma delete_program_admin_run credentials user now st program_id :
  verify_token SECRET_KEY credentials now st = (Ok user, st) →
  ∃ st',
    delete_program_admin SECRET_KEY program_id credentials now st
    = (if bool_decide (selected Programs program_id st ≠ [])
       then Ok "Program deleted successfully"
       else Raise (HTTPException 404 "Program not found"), st')
    ∧ selected Programs program_id st' = tail (selected Programs program_id st)
    ∧ only_collection_differs Programs st st'
    ∧ (selected Programs program_id st = [] → same_state st st').
Proof.
  intros Hgate. unfold delete_program_admin, bind, guarded, try_except.
  rewrite Hgate. unfold delete_program, delete_by, bind, delete_one, ret, selected.
  pose proof (coll_delete_one_spec (by_key "id" program_id) (db st programs_collection))
    as (Htail & Hcount & Hnone).
  destruct (coll_delete_one _ _) as [l n]; cbn [fst snd] in *.
  exists (set_coll programs_collection l st).
  change (collection_of Programs) with programs_collection.
  change (key_of Programs) with "id".
  rewrite db_set_coll_eq. split_and!.
  - rewrite Hcount. by destruct (List.filter _ (db st _)).
  - exact Htail.
  - apply (set_coll_only Programs).
  - intros Hnil. rewrite (Hnone Hnil). apply same_state_set_coll.
Qed.

(** X13. [delete_program_admin]: for a signed-in caller the route answers
    with status 404 and changes nothing when no program carries the
    identifier; otherwise it confirms the deletion, the first program under
    the identifier is gone and only the programs changed, and when that
    program was the only one under the identifier a second call answers
    with status 404. *)
Theorem delete_route_outcomes credentials user now st program_id :
  verify_token SECRET_KEY credentials now st = (Ok user, st) →
  ∃ st',
    match first_selected Programs program_id st with
    | None =>
        delete_program_admin SECRET_KEY program_id credentials now st
        = (Raise (HTTPException 404 "Program not found"), st')
        ∧ same_state st st'
    | Some s =>
        delete_program_admin SECRET_KEY program_id credentials now st
        = (Ok "Program deleted successfully", st')
        ∧ selected Programs program_id st' = tail (selected Programs program_id st)
        ∧ only_collection_differs Programs st st'
        ∧ (length (selected Programs program_id st) = 1%nat →
           ∃ st'',
             delete_program_admin SECRET_KEY program_id credentials now st'
             = (Raise (HTTPException 404 "Program not found"), st'')
             ∧ same_state st' st'')
    end.
Proof.
  intros Hgate.
  destruct (delete_program_admin_run credentials user now st program_id Hgate)
    as (st' & Hrun & Htail & Honly & Hsame).
  exists st'. unfold first_selected.
  destruct (selected Programs program_id st) as [|s rest] eqn:Hsel; cbn [head].
  - rewrite bool_decide_false in Hrun by (by intros Hne). by split; [|apply Hsame].
  - rewrite bool_decide_true in Hrun by done. split_and!; [done | done | done |].
    intros Hone.
    destruct (delete_program_admin_run credentials user now st' program_id
                (verify_token_any_state _ _ _ _ _ Hgate))
      as (st'' & Hrun' & _ & _ & Hsame').
    assert (selected Programs program_id st' = []) as Hgone.
    { rewrite Htail. destruct rest; [done | simpl in Hone; lia]. }
    exists st''. rewrite Hgone in Hrun'.
    rewrite bool_decide_false in Hrun' by (by intros Hne).
    by split; [|apply Hsame'].
Qed.

End DeleteRouteProperties.

Section ContactSubmission.
Context `{!Engine}.


End ContactSubmission.

(** In the sample data nothing stores the counters yet: the first update
    inserts them and answers with the number it was given. *)
Lemma stats_config_round_trip_witness :
  (update_stats_config (λ _, None) {["studentsExchanged" := VInt 200]} 5000
     "6560e0000000000000000001" sample_state).1 = Ok 200.
Proof.
  pose proof (stats_config_round_trip (λ _, None)
                {["studentsExchanged" := VInt 200]} 5000
                "6560e0000000000000000001" sample_state eq_refl eq_refl) as Hrun.
  destruct Hrun as (Hgiven & _). exact (proj1 (Hgiven 200 eq_refl)).
Defined.

(** No sample program is stored under [nobody]. *)
Lemma delete_route_outcomes_witness :
  ∃ st', delete_program_admin "k" "nobody" sample_token 5000 sample_state
         = (Raise (HTTPException 404 "Program not found"), st')
         ∧ same_state sample_state st'.
Proof.
  pose proof (delete_route_outcomes "k" sample_token "admin" 5000 sample_state
                "nobody" eq_refl) as Hrun.
  change (first_selected Programs "nobody" sample_state) with (@None stored) in Hrun.
  exact Hrun.
Defined.


Section GalleryUpdateProperties.
Context `{!Engine}.
Variable SECRET_KEY : string.

Lemma save_gallery_file_run file file_name st :
  save_upload_file file UPLOAD_DIR file_name st
  = (Ok ("gallery/" +:+ file_name),
     {| db := db st; active_admin_sessions := active_admin_sessions st;
        files := {["uploads/gallery/" +:+ file_name]} ∪ files st |}).
Proof. reflexivity. Qed.

Lemma sets_or_keeps_union upd s k :
  sets_or_keeps k (upd !! k) s (set_fields upd s).
Proof.
  unfold sets_or_keeps, set_fields. cbn [body].
  destruct (upd !! k) as [v|] eqn:Hk;
    [by apply lookup_union_Some_l | by apply lookup_union_r].
Qed.

Lemma drop_none_congr (d d' : document) k :
  d !! k = d' !! k → drop_none d !! k = drop_none d' !! k.
Proof. unfold drop_none. rewrite !map_lookup_filter. by intros ->. Qed.

Lemma sets_or_keeps_dropped (d : document) s k new :
  d !! k = new → (∀ v, new = Some v → v ≠ VNone) →
  sets_or_keeps k new s (set_fields (drop_none d) s).
Proof.
  intros Hk Hne.
  replace new with (drop_none d !! k); [apply sets_or_keeps_union|].
  destruct new as [v|].
  - apply drop_none_Some; [done | by apply Hne].
  - apply drop_none_None. by left.
Qed.

(** The database operation on a stored image: the first record under the
    identifier takes the fields that are not [None], and the answer is that
    record as it is then read. *)
Lemma update_gallery_image_stored image_id upd st s :
  upd !! "id" = None → first_selected Gallery image_id st = Some s →
  ∃ st',
    update_gallery_image image_id upd st
    = (Ok (Some (stringify_id (as_dict (set_fields (drop_none upd) s)))), st')
    ∧ first_selected Gallery image_id st' = Some (set_fields (drop_none upd) s)
    ∧ (∀ c, c ≠ gallery_collection → db st' c = db st c)
    ∧ files st' = files st.
Proof.
  intros Hid Hs. unfold first_selected, selected in Hs.
  destruct (filter_head_split _ _ _ Hs) as (pre & post & Hl & Hpre & Hm).
  change (collection_of Gallery) with gallery_collection in *.
  change (key_of Gallery) with "id" in *.
  assert (matches (by_key "id" image_id) (set_fields (drop_none upd) s) = true) as Hm'.
  { rewrite matches_set_fields; [done | done |]. apply drop_none_None. by left. }
  unfold update_gallery_image, bind, update_one.
  rewrite Hl, (coll_update_one_split _ _ _ _ _ Hpre Hm). cbv beta iota.
  set (st' := set_coll gallery_collection _ st).
  assert (first_selected Gallery image_id st'
          = Some (set_fields (drop_none upd) s)) as Hs'.
  { unfold first_selected, selected, st'.
    change (collection_of Gallery) with gallery_collection.
    rewrite db_set_coll_eq. by apply filter_after_update. }
  pose proof (get_by_first Gallery _ _ _ Hs') as Hget.
  change (get_by (collection_of Gallery) (key_of Gallery))
    with get_gallery_image_by_id in Hget.
  exists st'. split_and!.
  - by destruct (_ =? 0).
  - exact Hs'.
  - intros c Hc. by apply db_set_coll_ne.
  - reflexivity.
Qed.

Section Fields.
Variables (title description category : option string).
Variables (order : option Z) (is_featured is_active : option bool).

Let fields := gallery_fields title description category order is_featured is_active.

Ltac through_fields :=
  unfold fields, gallery_fields; repeat rewrite set_if_lookup_ne by done.

Lemma gallery_fields_other ud k :
  k ∉ gallery_form_keys → fields ud !! k = ud !! k.
Proof.
  intros Hk. unfold gallery_form_keys in Hk. rewrite !not_elem_of_cons in Hk.
  destruct Hk as (?&?&?&?&?&?&_).
  unfold fields, gallery_fields.
  by rewrite !set_if_lookup_ne by (by apply not_eq_sym).
Qed.

Lemma gallery_fields_applied ud s image alt :
  drop_none ud !! "image" = image → drop_none ud !! "alt" = alt →
  (∀ k, k ≠ "image" → k ≠ "alt" → ud !! k = None) →
  gallery_updated s (set_fields (drop_none (fields ud)) s) title description
    category order is_featured is_active image alt.
Proof.
  intros Himage Halt Hud.
  unfold gallery_updated. split_and!; [done | | | | | | | | |].
  - rewrite <- Himage.
    rewrite <- (drop_none_congr (fields ud) ud "image"); [apply sets_or_keeps_union|].
    apply gallery_fields_other.
    unfold gallery_form_keys. rewrite !not_elem_of_cons. split_and!; try done.
    apply not_elem_of_nil.
  - rewrite <- Halt.
    rewrite <- (drop_none_congr (fields ud) ud "alt"); [apply sets_or_keeps_union|].
    apply gallery_fields_other.
    unfold gallery_form_keys. rewrite !not_elem_of_cons. split_and!; try done.
    apply not_elem_of_nil.
  - apply sets_or_keeps_dropped.
    + through_fields. rewrite set_if_lookup_eq, Hud by done. by destruct title.
    + by intros v [x [-> ->]]%fmap_Some.
  - apply sets_or_keeps_dropped.
    + through_fields. rewrite set_if_lookup_eq. through_fields.
      rewrite Hud by done. by destruct description.
    + by intros v [x [-> ->]]%fmap_Some.
  - apply sets_or_keeps_dropped.
    + through_fields. rewrite set_if_lookup_eq. through_fields.
      rewrite Hud by done. by destruct category.
    + by intros v [x [-> ->]]%fmap_Some.
  - apply sets_or_keeps_dropped.
    + through_fields. rewrite set_if_lookup_eq. through_fields.
      rewrite Hud by done. by destruct order.
    + by intros v [x [-> ->]]%fmap_Some.
  - apply sets_or_keeps_dropped.
    + through_fields. rewrite set_if_lookup_eq. through_fields.
      rewrite Hud by done. by destruct is_featured.
    + by intros v [x [-> ->]]%fmap_Some.
  - apply sets_or_keeps_dropped.
    + through_fields. rewrite set_if_lookup_eq. through_fields.
      rewrite Hud by done. by destruct is_active.
    + by intros v [x [-> ->]]%fmap_Some.
  - intros k Hk. rewrite !not_elem_of_cons in Hk. destruct Hk as (Himg & Halt' & Hk).
    unfold set_fields. cbn [body]. apply lookup_union_r, drop_none_None. left.
    rewrite gallery_fields_other by exact Hk. by apply Hud.
Qed.

Lemma gallery_fields_no_id ud :
  ud !! "id" = None → fields ud !! "id" = None.
Proof.
  intros Hud. rewrite gallery_fields_other; [done|].
  unfold gallery_form_keys. rewrite !not_elem_of_cons. split_and!; try done.
  apply not_elem_of_nil.
Qed.

End Fields.

(** X15. [update_gallery_image_admin] and [update_gallery_image]: for a signed-in
    caller, a stored image and a form that gives something (so that the
    store is sent an update that is not empty), a file whose
    content type is not listed is answered with status 400 and nothing
    changes.  Otherwise the route answers with the stored image as it then
    reads: the given title, description, category, order and flags are
    applied (an empty text included); with a listed file the image is the
    saved path and the alt text is the title, or else the old alt text, or
    else the old title; without a file a non-empty image_url is the image.
    Every other field stays, updatedAt included, and only the gallery
    changes. *)
Theorem gallery_update_fields credentials user now st image_id s file image_url
    title description category order is_featured is_active file_name :
  verify_token SECRET_KEY credentials now st = (Ok user, st) →
  first_selected Gallery image_id st = Some s →
  is_Some file ∨ given image_url = true ∨ is_Some title ∨ is_Some description
  ∨ is_Some category ∨ is_Some order ∨ is_Some is_featured ∨ is_Some is_active →
  let run :=
    update_gallery_image_admin SECRET_KEY image_id file image_url title
      description category order is_featured is_active file_name credentials
      now st in
  let answers image alt :=
    ∃ s', run.1 = Ok (Some (stringify_id (as_dict s')))
          ∧ first_selected Gallery image_id run.2 = Some s'
          ∧ gallery_updated s s' title description category order is_featured
              is_active image alt
          ∧ ∀ c, c ≠ gallery_collection → db run.2 c = db st c in
  match file with
  | Some f =>
      if bool_decide (content_type f ∈ Some <$> allowed_types)
      then answers (Some (VStr ("/gallery/" +:+ file_name))) (new_alt title s)
           ∧ files run.2 = {["uploads/gallery/" +:+ file_name]} ∪ files st
      else run = (Raise invalid_file_type, st)
  | None =>
      answers (if given image_url then Some (opt_str image_url) else None) None
      ∧ files run.2 = files st
  end.
Proof.
  intros Hgate Hs _ run answers.
  pose proof (get_by_first Gallery _ _ _ Hs) as Hget.
  change (get_by (collection_of Gallery) (key_of Gallery))
    with get_gallery_image_by_id in Hget.
  assert (stringify_id (as_dict s) !! "alt" = body s !! "alt") as Halt.
  { unfold stringify_id, as_dict. by rewrite !lookup_insert_ne. }
  assert (stringify_id (as_dict s) !! "title" = body s !! "title") as Htitle.
  { unfold stringify_id, as_dict. by rewrite !lookup_insert_ne. }
  assert (∀ ud st1 image alt,
            (∀ c, db st1 c = db st c) →
            drop_none ud !! "image" = image → drop_none ud !! "alt" = alt →
            (∀ k, k ≠ "image" → k ≠ "alt" → ud !! k = None) →
            run = guarded "Failed to update image"
                    (update_gallery_image image_id
                       (gallery_fields title description category order
                          is_featured is_active ud)) st1 →
            answers image alt ∧ files run.2 = files st1) as Hreach.
  { intros ud st1 image alt Hdb Himage Halt' Hud Hrun.
    destruct (update_gallery_image_stored image_id
                (gallery_fields title description category order is_featured
                   is_active ud) st1 s) as (st' & Hupd & Hs' & Hother & Hfiles).
    { apply gallery_fields_no_id. by apply Hud. }
    { unfold first_selected. rewrite (selected_same_db Gallery image_id st st1 Hdb).
      exact Hs. }
    assert (run = (Ok (Some (stringify_id
                               (as_dict
                                  (set_fields
                                     (drop_none
                                        (gallery_fields title description category
                                           order is_featured is_active ud)) s)))),
                   st')) as Hrun'.
    { rewrite Hrun. unfold guarded, try_except. by rewrite Hupd. }
    unfold answers. rewrite Hrun'. cbn [fst snd]. split; [|exact Hfiles].
    eexists. split; [reflexivity|]. split; [exact Hs'|]. split.
    - by apply gallery_fields_applied.
    - intros c Hc. by rewrite Hother, Hdb. }
  assert (run = (let body_of :=
                   update_gallery_image_admin SECRET_KEY image_id file image_url
                     title description category order is_featured is_active
                     file_name credentials now in body_of st)) as Hroute
    by reflexivity.
  unfold update_gallery_image_admin in Hroute.
  cbv [bind ret raise try_except guarded negb] in Hroute.
  rewrite Hgate in Hroute. cbv beta iota in Hroute.
  rewrite Hget in Hroute. cbv beta iota zeta in Hroute.
  destruct file as [f|].
  - destruct (bool_decide (content_type f ∈ Some <$> allowed_types)).
    + rewrite save_gallery_file_run in Hroute. cbv beta iota in Hroute.
      rewrite Halt, Htitle in Hroute.
      set (alt := py_or (opt_str title)
                    (py_or (default VNone (body s !! "alt"))
                           (default VNone (body s !! "title")))) in *.
      refine (Hreach (<["alt" := alt]>
                        (<["image" := VStr ("/" +:+ "gallery/" +:+ file_name)]> ∅))
                {| db := db st; active_admin_sessions := active_admin_sessions st;
                   files := {["uploads/gallery/" +:+ file_name]} ∪ files st |}
                (Some (VStr ("/gallery/" +:+ file_name))) (new_alt title s)
                (λ c, eq_refl) _ _ _ _).
      * apply drop_none_Some; [|done].
        rewrite lookup_insert_ne by done. apply lookup_insert_eq.
      * unfold new_alt. fold alt.
        destruct (decide (alt = VNone)) as [Hnone|Hsome].
        -- apply drop_none_None. right. rewrite Hnone. apply lookup_insert_eq.
        -- apply drop_none_Some; [apply lookup_insert_eq | done].
      * intros k Hk Hk'. rewrite !lookup_insert_ne by done. apply lookup_empty.
      * exact Hroute.
    + exact Hroute.
  - destruct (given image_url) eqn:Hgiven.
    + refine (Hreach (<["image" := opt_str image_url]> ∅) st
                (Some (opt_str image_url)) None (λ c, eq_refl) _ _ _ _).
      * apply drop_none_Some; [apply lookup_insert_eq|].
        destruct image_url; [done | discriminate Hgiven].
      * apply drop_none_None. left.
        rewrite lookup_insert_ne by done. apply lookup_empty.
      * intros k Hk Hk'. rewrite !lookup_insert_ne by done. apply lookup_empty.
      * exact Hroute.
    + refine (Hreach ∅ st None None (λ c, eq_refl) _ _ _ _).
      * apply drop_none_None. left. apply lookup_empty.
      * apply drop_none_None. left. apply lookup_empty.
      * intros k Hk Hk'. apply lookup_empty.
      * exact Hroute.
Qed.

End GalleryUpdateProperties.

(** The sample image gets a new photo without a title: the alt text falls
    back on the stored title. *)
Lemma gallery_update_fields_witness :
  stored_field Gallery "g1" "alt"
    (update_gallery_image_admin "k" "g1" (Some sample_photo) None None None None
       None None None "new.png" sample_token 5000 sample_gallery_state).2
  = Some (VStr "Convocation 2023").
Proof.
  pose proof (gallery_update_fields "k" sample_token "admin" 5000
                sample_gallery_state "g1" sample_g1 (Some sample_photo) None None
                None None None None None "new.png" eq_refl eq_refl
                (or_introl (mk_is_Some _ _ eq_refl))) as Hrun.
  cbv zeta in Hrun.
  change (bool_decide (content_type sample_photo ∈ Some <$> allowed_types))
    with true in Hrun.
  cbv iota in Hrun.
  destruct Hrun as ((s' & _ & Hs' & Hupdated & _) & _).
  unfold stored_field. unfold first_selected in Hs'. rewrite Hs'.
  destruct Hupdated as (_ & _ & Halt & _). exact Halt.
Defined.
